(** * Search Console MCP helper

    A shallow embedding of [src/mcp_helper.py] and the properties of its
    request routing, query translation and report formatting.

    The module is dynamically typed Python working on JSON-shaped data, so
    the embedding has three layers:

    - [Text], [Py], [PyFloat], [Json]: the fragment of the Python runtime the
      module relies on (values, exceptions, subscripting, arithmetic, string
      conversion, [json.loads] and [json.dumps]);
    - [World] and the monad [M]: the collaborators outside the module (the
      process environment, the clock, the language-model endpoint and the
      Google client libraries) together with the trace of calls made to them;
    - the functions of the module itself, under their names in the source. *)

From Stdlib Require Import ZArith QArith Qpower Qround Qabs List String Ascii Bool Lia Lqa Floats DecimalString.
Import ListNotations.

Set Implicit Arguments.
Unset Strict Implicit.

Open Scope string_scope.
Open Scope Z_scope.

(* ================================================================== *)
(** ** Text helpers *)
(* ================================================================== *)

Module Text.

(** The double-quote character and the line feed, as strings. *)
Definition dq : string := String (ascii_of_nat 34) EmptyString.
Definition nl : string := String (ascii_of_nat 10) EmptyString.

Definition dq_char : ascii := ascii_of_nat 34.
Definition nl_char : ascii := ascii_of_nat 10.

(** [str(n)] for an integer.  CPython raises [ValueError] for an integer of
    more than 4300 digits; the model has no such limit, and [repr_defined]
    says where the two agree. *)
Definition of_Z (z : Z) : string := NilZero.string_of_int (Z.to_int z).
Definition of_nat (n : nat) : string := of_Z (Z.of_nat n).

Definition cat (l : list string) : string := String.concat "" l.

(** [sep.join(l)] *)
Definition join (sep : string) (l : list string) : string := String.concat sep l.

(** [c * n] for a one-piece string. *)
Fixpoint repeat (s : string) (n : nat) : string :=
  match n with
  | O => ""
  | S k => s ++ repeat s k
  end.

(** [s.replace(old, new)] for a non-empty [old]: occurrences are replaced
    from left to right and do not overlap.  [skip] counts the characters of
    an occurrence that are still to be dropped. *)
Fixpoint replace_from (old new s : string) (skip : nat) : string :=
  match s with
  | EmptyString => EmptyString
  | String c s' =>
      match skip with
      | S k => replace_from old new s' k
      | O =>
          if prefix old s
          then new ++ replace_from old new s' (String.length old - 1)
          else String c (replace_from old new s' 0)
      end
  end.

(** For an empty [old] Python inserts [new] around every character. *)
Fixpoint intersperse (new s : string) : string :=
  match s with
  | EmptyString => new
  | String c s' => new ++ String c (intersperse new s')
  end.

Definition replace (old new s : string) : string :=
  match old with
  | EmptyString => intersperse new s
  | _ => replace_from old new s 0
  end.

(** [s.split(sep)] for a one-character separator. *)
Fixpoint split_on (sep : ascii) (s : string) (cur : string) : list string :=
  match s with
  | EmptyString => [cur]
  | String c s' =>
      if Ascii.eqb c sep
      then cur :: split_on sep s' ""
      else split_on sep s' (cur ++ String c "")
  end.

Definition split (sep : ascii) (s : string) : list string := split_on sep s "".

(** [needle in s] *)
Fixpoint contains (needle s : string) : bool :=
  prefix needle s
  || match s with
     | EmptyString => false
     | String _ s' => contains needle s'
     end.

Definition chars (s : string) : list ascii := list_ascii_of_string s.

Definition code (c : ascii) : Z := Z.of_nat (nat_of_ascii c).
Definition chr (z : Z) : ascii := ascii_of_nat (Z.to_nat z).

Definition is_digit (c : ascii) : bool := (48 <=? code c) && (code c <=? 57).
Definition digit_val (c : ascii) : Z := code c - 48.

Definition hex_val (c : ascii) : option Z :=
  let n := code c in
  if (48 <=? n) && (n <=? 57) then Some (n - 48)
  else if (97 <=? n) && (n <=? 102) then Some (n - 87)
  else if (65 <=? n) && (n <=? 70) then Some (n - 55)
  else None.

Definition hex_digit (z : Z) : string :=
  String (chr (if z <? 10 then 48 + z else 87 + z)) "".

(** Zero-padded decimal of a non-negative number, at least [w] digits. *)
Definition pad_left (w : nat) (s : string) : string :=
  repeat "0" (w - String.length s) ++ s.

End Text.

(* ================================================================== *)
(** ** Python values, exceptions and outcomes *)
(* ================================================================== *)

(** The values that reach the module: what [json.loads] produces and what
    the module builds from it.  A [dict] keeps its insertion order, so it is an
    association list; its keys are strings. *)
Unset Elimination Schemes.
Inductive pyval : Type :=
| PNone
| PBool (b : bool)
| PInt (z : Z)
| PFloat (f : float)
| PStr (s : string)
| PList (l : list pyval)
| PDict (d : list (string * pyval)).
Set Elimination Schemes.

(** The exception classes that can arise, with what [str(e)] needs. *)
Inductive exn : Type :=
| ValueError (msg : string)
| KeyError (key : pyval)
| IndexError (msg : string)
| TypeError (msg : string)
| AttributeError (msg : string)
| ZeroDivisionError (msg : string)
| OverflowError (msg : string)
| JSONDecodeError (msg : string)
| RequestException (msg : string)
| LibraryError (msg : string)
| PyException (msg : string).

Inductive outcome (A : Type) : Type :=
| Return (a : A)
| Raise (e : exn).

Arguments Return {A} a.
Arguments Raise {A} e.

Definition obind {A B} (m : outcome A) (k : A -> outcome B) : outcome B :=
  match m with
  | Return a => k a
  | Raise e => Raise e
  end.

Declare Scope outcome_scope.
Delimit Scope outcome_scope with out.
Notation "x <~ m ;; k" := (obind m (fun x => k))
  (at level 61, m at next level, right associativity) : outcome_scope.

Fixpoint omap {A B} (f : A -> outcome B) (l : list A) : outcome (list B) :=
  match l with
  | [] => Return []
  | a :: l' =>
      match f a with
      | Raise e => Raise e
      | Return b =>
          match omap f l' with
          | Raise e => Raise e
          | Return bs => Return (b :: bs)
          end
      end
  end.

(* ================================================================== *)
(** ** Floating point: CPython's [float] is IEEE 754 binary64 *)
(* ================================================================== *)

Module PyFloat.

Definition is_inf_sf (x : spec_float) : bool :=
  match x with S754_infinity _ => true | _ => false end.

(** An integer as an exact (unrounded) binary number. *)
Definition exact (z : Z) : spec_float :=
  match z with
  | Z0 => S754_zero false
  | Zpos p => S754_finite false p 0
  | Zneg p => S754_finite true p 0
  end.

(** [float(n)]: the nearest double, ties to even. *)
Definition of_int (z : Z) : outcome float :=
  let r := binary_normalize prec emax z 0 false in
  if is_inf_sf r
  then Raise (OverflowError "int too large to convert to float")
  else Return (SF2Prim r).

(** [a / b] on integers: the correctly rounded quotient. *)
Definition int_truediv (a b : Z) : outcome float :=
  if b =? 0 then Raise (ZeroDivisionError "division by zero")
  else
    let r := SFdiv prec emax (exact a) (exact b) in
    if is_inf_sf r
    then Raise (OverflowError "integer division result too large for a float")
    else Return (SF2Prim r).

(** [x / n] for a float [x] and an integer [n].  CPython converts [n] and
    raises when the divisor is [0.0]; the conversion of an integer is zero
    for the integer 0 only. *)
Definition truediv_int (x : float) (n : Z) : outcome float :=
  if n =? 0 then Raise (ZeroDivisionError "float division by zero")
  else
    match of_int n with
    | Return fn => Return (x / fn)%float
    | Raise e => Raise e
    end.

(** The double nearest to [m * 10^k], as [float("...")] computes it. *)
Definition of_decimal (neg : bool) (m : Z) (k : Z) : float :=
  match m with
  | Z0 => SF2Prim (S754_zero neg)
  | _ =>
      let sm := if neg then - Z.abs m else Z.abs m in
      if 0 <=? k
      then SF2Prim (binary_normalize prec emax (sm * 10 ^ k) 0 false)
      else SF2Prim (SFdiv prec emax (exact sm) (exact (10 ^ (- k))))
  end.

(** Nearest integer to [n / d] for [d > 0], ties to even. *)
Definition div_half_even (n d : Z) : Z :=
  let q := n / d in
  let r := n mod d in
  match 2 * r ?= d with
  | Lt => q
  | Gt => q + 1
  | Eq => if Z.even q then q else q + 1
  end.

(** The magnitude [m * 2^e] in hundredths, rounded to an integer. *)
Definition hundredths (m : positive) (e : Z) : Z :=
  if 0 <=? e then Zpos m * 100 * 2 ^ e
  else div_half_even (Zpos m * 100) (2 ^ (- e)).

(** [format(x, ".2f")] *)
Definition format_2f (x : float) : string :=
  match Prim2SF x with
  | S754_nan => "nan"
  | S754_infinity s => if s then "-inf" else "inf"
  | S754_zero s => if s then "-0.00" else "0.00"
  | S754_finite s m e =>
      let n := hundredths m e in
      (if s then "-" else "")
        ++ Text.of_Z (n / 100) ++ "." ++ Text.pad_left 2 (Text.of_Z (n mod 100))
  end.

(** [round(x, 2)] on a float: the double nearest to the value rounded to
    two decimals. *)
Definition round2 (x : float) : float :=
  match Prim2SF x with
  | S754_finite s m e =>
      match hundredths m e with
      | Zpos n => SF2Prim (SFdiv prec emax (S754_finite s n 0) (exact 100))
      | _ => SF2Prim (S754_zero s)
      end
  | _ => x
  end.

(** *** [repr(x)]: the shortest decimal that reads back as [x] *)

Definition pow10 (k : Z) : Q :=
  if 0 <=? k then inject_Z (10 ^ k) else (1 / inject_Z (10 ^ (- k)))%Q.

Definition pow2 (k : Z) : Q :=
  if 0 <=? k then inject_Z (2 ^ k) else (1 / inject_Z (2 ^ (- k)))%Q.

Definition bitlen (m : positive) : Z := Z.log2 (Zpos m) + 1.

(** [decpt x] is the [k] with [10^(k-1) <= x < 10^k]. *)
Definition decpt (x : Q) (guess : Z) : Z :=
  let k := if Qle_bool (pow10 guess) x then guess + 1 else guess in
  let k := if Qle_bool (pow10 k) x then k + 1 else k in
  let k := if Qle_bool (pow10 (k - 1)) x then k else k - 1 in
  if Qle_bool (pow10 (k - 1)) x then k else k - 1.

Definition Qlt_bool (a b : Q) : bool := negb (Qle_bool b a).

Definition Qdist (a b : Q) : Q := Qabs (a - b)%Q.

(** The interval of reals that round to [m * 2^e]; the bounds belong to it
    when [m] is even. *)
Definition rounds_to (m : positive) (e : Z) (c : Q) : bool :=
  let u := pow2 (e - 2) in
  let below := if (Zpos m =? 2 ^ 52) && (-1074 <? e) then 1 else 2 in
  let lo := (inject_Z (4 * Zpos m - below) * u)%Q in
  let hi := (inject_Z (4 * Zpos m + 2) * u)%Q in
  if Z.even (Zpos m)
  then Qle_bool lo c && Qle_bool c hi
  else Qlt_bool lo c && Qlt_bool c hi.

(** The best decimal with [n] significant digits, if one reads back. *)
Definition candidate (m : positive) (e : Z) (k : Z) (n : Z) : option Z :=
  let x := (inject_Z (Zpos m) * pow2 e)%Q in
  let unit := pow10 (k - n) in
  let d0 := Qfloor (x / unit)%Q in
  let d1 := d0 + 1 in
  let c0 := (inject_Z d0 * unit)%Q in
  let c1 := (inject_Z d1 * unit)%Q in
  let ok0 := rounds_to m e c0 in
  let ok1 := rounds_to m e c1 in
  if ok0 && ok1 then
    match Qcompare (Qdist c0 x) (Qdist c1 x) with
    | Lt => Some d0
    | Gt => Some d1
    | Eq => Some (if Z.even d0 then d0 else d1)
    end
  else if ok0 then Some d0
  else if ok1 then Some d1
  else None.

Fixpoint shortest (m : positive) (e : Z) (k : Z) (n : Z) (fuel : nat) : Z * Z :=
  match fuel with
  | O => (Qfloor (inject_Z (Zpos m) * pow2 e / pow10 (k - 17))%Q, 17)
  | S f =>
      match candidate m e k n with
      | Some d => (d, n)
      | None => shortest m e k (n + 1) f
      end
  end.

Fixpoint strip_zeros (d : Z) (n : Z) (fuel : nat) : Z * Z :=
  match fuel with
  | O => (d, n)
  | S f => if (d mod 10 =? 0) && (1 <? n) then strip_zeros (d / 10) (n - 1) f else (d, n)
  end.

(** Digits [ds] and decimal point [k]: the value is [0.ds * 10^k]. *)
Definition digits_of (m : positive) (e : Z) : string * Z :=
  let x := (inject_Z (Zpos m) * pow2 e)%Q in
  let k := decpt x (((bitlen m + e) * 30103) / 100000) in
  let '(d, n) := shortest m e k 1 17 in
  (* a candidate rounded up to 10^n has one more digit *)
  let '(d, n, k) := if 10 ^ n <=? d then (d / 10, n, k + 1) else (d, n, k) in
  let '(d, n) := strip_zeros d n 17 in
  (Text.of_Z d, k).

Definition take (n : Z) (s : string) : string := substring 0 (Z.to_nat n) s.
Definition drop (n : Z) (s : string) : string :=
  substring (Z.to_nat n) (String.length s - Z.to_nat n) s.

Definition layout (ds : string) (k : Z) : string :=
  let n := Z.of_nat (String.length ds) in
  if (k <=? -4) || (16 <? k) then
    let ex := k - 1 in
    take 1 ds ++ (if 1 <? n then "." ++ drop 1 ds else "")
      ++ "e" ++ (if ex <? 0 then "-" else "+")
      ++ Text.pad_left 2 (Text.of_Z (Z.abs ex))
  else if k <=? 0 then "0." ++ Text.repeat "0" (Z.to_nat (- k)) ++ ds
  else if n <=? k then ds ++ Text.repeat "0" (Z.to_nat (k - n)) ++ ".0"
  else take k ds ++ "." ++ drop k ds.

Definition repr (x : float) : string :=
  match Prim2SF x with
  | S754_nan => "nan"
  | S754_infinity s => if s then "-inf" else "inf"
  | S754_zero s => if s then "-0.0" else "0.0"
  | S754_finite s m e =>
      let '(ds, k) := digits_of m e in
      (if s then "-" else "") ++ layout ds k
  end.

End PyFloat.

(* ================================================================== *)
(** ** The Python operations the module uses *)
(* ================================================================== *)

Module Py.

Definition type_name (v : pyval) : string :=
  match v with
  | PNone => "NoneType"
  | PBool _ => "bool"
  | PInt _ => "int"
  | PFloat _ => "float"
  | PStr _ => "str"
  | PList _ => "list"
  | PDict _ => "dict"
  end.

Definition quoted (s : string) : string := "'" ++ s ++ "'".

(** *** [repr] and [str] *)

Definition repr_char (quote : ascii) (c : ascii) : string :=
  let n := Text.code c in
  if Ascii.eqb c "\" then "\\"
  else if Ascii.eqb c quote then String "\" (String c "")
  else if n =? 10 then "\n"
  else if n =? 13 then "\r"
  else if n =? 9 then "\t"
  else if (n <? 32) || (n =? 127)
  then "\x" ++ Text.hex_digit (n / 16) ++ Text.hex_digit (n mod 16)
  else String c "".

(** [repr(s)]: single quotes unless the text has a single quote and no
    double quote.  Bytes above 127 are kept: text outside ASCII is taken to
    be printable, where Python escapes a character such as U+00A0. *)
Definition repr_str (s : string) : string :=
  let quote :=
    if Text.contains "'" s && negb (Text.contains Text.dq s)
    then Text.dq_char else "'"%char in
  String quote (Text.cat (map (repr_char quote) (Text.chars s))) ++ String quote "".

Fixpoint repr (v : pyval) : string :=
  match v with
  | PNone => "None"
  | PBool b => if b then "True" else "False"
  | PInt z => Text.of_Z z
  | PFloat f => PyFloat.repr f
  | PStr s => repr_str s
  | PList l => "[" ++ Text.join ", " (map repr l) ++ "]"
  | PDict d =>
      "{" ++ Text.join ", " (map (fun kv => repr_str (fst kv) ++ ": " ++ repr (snd kv)) d) ++ "}"
  end.

(** [str(v)], which is also what an f-string field without a format
    specification inserts. *)
Definition str (v : pyval) : string :=
  match v with
  | PStr s => s
  | _ => repr v
  end.

(** [str(e)] for an exception. *)
Definition str_exn (e : exn) : string :=
  match e with
  | KeyError k => repr k
  | ValueError m | IndexError m | TypeError m | AttributeError m
  | ZeroDivisionError m | OverflowError m | JSONDecodeError m
  | RequestException m | LibraryError m | PyException m => m
  end.

(** [isinstance(e, requests.exceptions.RequestException)] *)
Definition is_request_exception (e : exn) : bool :=
  match e with
  | RequestException _ => true
  | _ => false
  end.

(** *** Truth value *)

Definition truthy (v : pyval) : bool :=
  match v with
  | PNone => false
  | PBool b => b
  | PInt z => negb (z =? 0)
  | PFloat f => negb (PrimFloat.is_zero f)
  | PStr s => negb (String.eqb s "")
  | PList l => match l with [] => false | _ => true end
  | PDict d => match d with [] => false | _ => true end
  end.

Definition is_str (v : pyval) : bool :=
  match v with PStr _ => true | _ => false end.

(** [v != "literal"] *)
Definition ne_str (v : pyval) (lit : string) : bool :=
  match v with
  | PStr s => negb (String.eqb s lit)
  | _ => true
  end.

(** *** Dictionaries *)

Fixpoint lookup (d : list (string * pyval)) (k : string) : option pyval :=
  match d with
  | [] => None
  | (k', v) :: d' => if String.eqb k' k then Some v else lookup d' k
  end.

Definition has_key (d : list (string * pyval)) (k : string) : bool :=
  match lookup d k with Some _ => true | None => false end.

(** [d[k] = v]: an existing key keeps its place. *)
Fixpoint set (d : list (string * pyval)) (k : string) (v : pyval)
  : list (string * pyval) :=
  match d with
  | [] => [(k, v)]
  | (k', v') :: d' =>
      if String.eqb k' k then (k', v) :: d' else (k', v') :: set d' k v
  end.

(** [v.get(key, default)]: only a dict has the method. *)
Definition get (v : pyval) (key : string) (default : pyval) : outcome pyval :=
  match v with
  | PDict d =>
      Return (match lookup d key with Some x => x | None => default end)
  | _ =>
      Raise (AttributeError (quoted (type_name v) ++ " object has no attribute 'get'"))
  end.

Definition hashable (v : pyval) : bool :=
  match v with
  | PList _ | PDict _ => false
  | _ => true
  end.

(** An index as Python accepts it: an [int], or a [bool] as 0 or 1. *)
Definition as_index (v : pyval) : option Z :=
  match v with
  | PInt z => Some z
  | PBool b => Some (if b then 1 else 0)
  | _ => None
  end.

Definition seq_index {A} (l : list A) (i : Z) : option A :=
  let n := Z.of_nat (List.length l) in
  let j := if i <? 0 then i + n else i in
  if (0 <=? j) && (j <? n) then nth_error l (Z.to_nat j) else None.

(** [c[idx]] *)
Definition getitem (c idx : pyval) : outcome pyval :=
  match c with
  | PDict d =>
      match idx with
      | PStr k =>
          match lookup d k with
          | Some v => Return v
          | None => Raise (KeyError idx)
          end
      | _ =>
          if hashable idx then Raise (KeyError idx)
          else Raise (TypeError ("unhashable type: " ++ quoted (type_name idx)))
      end
  | PList l =>
      match as_index idx with
      | Some i =>
          match seq_index l i with
          | Some v => Return v
          | None => Raise (IndexError "list index out of range")
          end
      | None =>
          Raise (TypeError ("list indices must be integers or slices, not "
                              ++ type_name idx))
      end
  | PStr s =>
      match as_index idx with
      | Some i =>
          match seq_index (Text.chars s) i with
          | Some ch => Return (PStr (String ch ""))
          | None => Raise (IndexError "string index out of range")
          end
      | None =>
          Raise (TypeError ("string indices must be integers, not "
                              ++ quoted (type_name idx)))
      end
  | _ => Raise (TypeError (quoted (type_name c) ++ " object is not subscriptable"))
  end.

Definition getkey (c : pyval) (k : string) : outcome pyval := getitem c (PStr k).
Definition getidx (c : pyval) (i : Z) : outcome pyval := getitem c (PInt i).

(** [len(v)].  A [str] is held as its UTF-8 bytes: on text outside ASCII
    [len], indexing and iteration count bytes where Python counts code
    points. *)
Definition len (v : pyval) : outcome Z :=
  match v with
  | PStr s => Return (Z.of_nat (String.length s))
  | PList l => Return (Z.of_nat (List.length l))
  | PDict d => Return (Z.of_nat (List.length d))
  | _ => Raise (TypeError ("object of type " ++ quoted (type_name v) ++ " has no len()"))
  end.

(** The items [for x in v] visits. *)
Definition iter (v : pyval) : outcome (list pyval) :=
  match v with
  | PList l => Return l
  | PDict d => Return (map (fun kv => PStr (fst kv)) d)
  | PStr s => Return (map (fun ch => PStr (String ch "")) (Text.chars s))
  | _ => Raise (TypeError (quoted (type_name v) ++ " object is not iterable"))
  end.

(** ["key" in v] *)
Definition contains (key : string) (v : pyval) : outcome bool :=
  match v with
  | PDict d => Return (has_key d key)
  | PList l =>
      Return (existsb (fun x => match x with PStr s => String.eqb s key | _ => false end) l)
  | PStr s => Return (Text.contains key s)
  | _ => Raise (TypeError ("argument of type " ++ quoted (type_name v) ++ " is not iterable"))
  end.

(** *** Arithmetic *)

Inductive num : Type :=
| NInt (z : Z)
| NFloat (f : float).

Definition num_type (a : num) : string :=
  match a with NInt _ => "int" | NFloat _ => "float" end.

Definition as_num (v : pyval) : option num :=
  match v with
  | PBool b => Some (NInt (if b then 1 else 0))
  | PInt z => Some (NInt z)
  | PFloat f => Some (NFloat f)
  | _ => None
  end.

Definition of_num (a : num) : pyval :=
  match a with NInt z => PInt z | NFloat f => PFloat f end.

Definition unsupported (op l r : string) : exn :=
  TypeError ("unsupported operand type(s) for " ++ op ++ ": "
               ++ quoted l ++ " and " ++ quoted r).

(** [a + v] for a numeric [a]. *)
Definition add (a : num) (v : pyval) : outcome num :=
  match as_num v with
  | None => Raise (unsupported "+" (num_type a) (type_name v))
  | Some b =>
      match a, b with
      | NInt x, NInt y => Return (NInt (x + y))
      | NInt x, NFloat y =>
          obind (PyFloat.of_int x) (fun fx => Return (NFloat (fx + y)%float))
      | NFloat x, NInt y =>
          obind (PyFloat.of_int y) (fun fy => Return (NFloat (x + fy)%float))
      | NFloat x, NFloat y => Return (NFloat (x + y)%float)
      end
  end.

(** [sum(f(row) for row in rows)]: the generator is consumed from the left,
    starting from the integer 0, one addition per row (the summation of
    CPython 3.11). *)
Fixpoint sum_from (f : pyval -> outcome pyval) (rows : list pyval) (acc : num)
  : outcome num :=
  match rows with
  | [] => Return acc
  | row :: rest =>
      match f row with
      | Raise e => Raise e
      | Return v =>
          match add acc v with
          | Raise e => Raise e
          | Return acc' => sum_from f rest acc'
          end
      end
  end.

Definition sum (f : pyval -> outcome pyval) (rows : list pyval) : outcome num :=
  sum_from f rows (NInt 0).

(** [a / n] for a numeric [a] and an integer [n]. *)
Definition truediv (a : num) (n : Z) : outcome float :=
  match a with
  | NInt x => PyFloat.int_truediv x n
  | NFloat x => PyFloat.truediv_int x n
  end.

(** [x * n] for a float [x] and an integer [n]. *)
Definition fmul_int (x : float) (n : Z) : outcome float :=
  obind (PyFloat.of_int n) (fun fn => Return (x * fn)%float).

Fixpoint repeat_list {A} (l : list A) (n : nat) : list A :=
  match n with
  | O => []
  | S k => l ++ repeat_list l k
  end.

(** [v * n] for an integer [n]: numbers multiply, sequences repeat. *)
Definition mul (v : pyval) (n : Z) : outcome pyval :=
  match v with
  | PBool b => Return (PInt ((if b then 1 else 0) * n))
  | PInt z => Return (PInt (z * n))
  | PFloat f => obind (fmul_int f n) (fun r => Return (PFloat r))
  | PStr s => Return (PStr (Text.repeat s (Z.to_nat n)))
  | PList l => Return (PList (repeat_list l (Z.to_nat n)))
  | _ => Raise (unsupported "*" (type_name v) "int")
  end.

(** [round(v, 2)] *)
Definition round2 (v : pyval) : outcome pyval :=
  match v with
  | PBool b => Return (PInt (if b then 1 else 0))
  | PInt z => Return (PInt z)
  | PFloat f => Return (PFloat (PyFloat.round2 f))
  | _ => Raise (TypeError ("type " ++ type_name v ++ " doesn't define __round__ method"))
  end.

End Py.

(* ================================================================== *)
(** ** [json.loads] and [json.dumps] *)
(* ================================================================== *)

(** The decoder follows CPython 3.11's [json] module: the same grammar
    (including [NaN], [Infinity] and [-Infinity]), the same values and the
    same error messages.  A text is a string of bytes holding UTF-8, so error
    positions count bytes.  The decoder reads the text once from the left
    ([lex]), then builds the value with an explicit stack ([run]); both are
    structural recursions, so [loads] is total. *)
Module Json.

Inductive token : Type :=
| TLBrace | TRBrace | TLBracket | TRBracket | TColon | TComma
| TVal (v : pyval)                      (* a number or a literal name *)
| TStr (s : string)
| TBadStr (msg : string) (pos : nat)    (* a string that does not scan *)
| TBad                                  (* no value starts here *)
| TEnd.

(** What a string literal is made of: bytes of the text, and code points
    written as [\uXXXX]. *)
Inductive item : Type :=
| Raw (c : ascii)
| Esc (cp : Z).

Inductive mode : Type :=
| Idle
| InStr (start : nat) (acc : list item)
| InEsc (start : nat) (acc : list item)
| InUni (start : nat) (acc : list item) (upos : nat) (got : list Z)
| InLit (start : nat) (rest : string) (v : pyval)
| NSign (start : nat)
| NZero (start : nat) (neg : bool)
| NInt (start : nat) (neg : bool) (m : Z)
| NDot (start : nat) (neg : bool) (m : Z) (dotpos : nat)
| NFrac (start : nat) (neg : bool) (m : Z) (fl : Z)
| NE (start : nat) (neg : bool) (m : Z) (fl : option Z) (epos : nat)
| NESign (start : nat) (neg : bool) (m : Z) (fl : option Z) (epos : nat) (eneg : bool)
| NExp (start : nat) (neg : bool) (m : Z) (fl : option Z) (eneg : bool) (ex : Z).

Definition utf8 (cp : Z) : string :=
  let b (z : Z) := String (Text.chr z) "" in
  if cp <? 128 then b cp
  else if cp <? 2048 then b (192 + cp / 64) ++ b (128 + cp mod 64)
  else if cp <? 65536 then
    b (224 + cp / 4096) ++ b (128 + (cp / 64) mod 64) ++ b (128 + cp mod 64)
  else
    b (240 + cp / 262144) ++ b (128 + (cp / 4096) mod 64)
      ++ b (128 + (cp / 64) mod 64) ++ b (128 + cp mod 64).

Definition is_high (cp : Z) : bool := (55296 <=? cp) && (cp <=? 56319).
Definition is_low (cp : Z) : bool := (56320 <=? cp) && (cp <=? 57343).

(** The text of a string literal; a surrogate pair is one character, and a
    surrogate on its own keeps its three-byte form. *)
Fixpoint decode (l : list item) : string :=
  match l with
  | [] => ""
  | Raw c :: rest => String c (decode rest)
  | Esc hi :: rest =>
      match rest with
      | Esc lo :: rest' =>
          if is_high hi && is_low lo
          then utf8 (65536 + (hi - 55296) * 1024 + (lo - 56320)) ++ decode rest'
          else utf8 hi ++ decode rest
      | _ => utf8 hi ++ decode rest
      end
  end.

Definition int_value (neg : bool) (m : Z) : pyval := PInt (if neg then - m else m).

(** The value of [m] with [fl] fraction digits and exponent [ex]. *)
Definition number_value (neg : bool) (m : Z) (fl : option Z) (ex : option Z) : pyval :=
  match fl, ex with
  | None, None => int_value neg m
  | _, _ =>
      let f := match fl with Some n => n | None => 0 end in
      let e := match ex with Some n => n | None => 0 end in
      PFloat (PyFloat.of_decimal neg m (e - f))
  end.

Definition is_space (c : ascii) : bool :=
  let n := Text.code c in (n =? 32) || (n =? 9) || (n =? 10) || (n =? 13).

Definition step_result : Type := list (nat * token) * option mode.

Definition idle (c : ascii) (pos : nat) : step_result :=
  let n := Text.code c in
  if is_space c then ([], Some Idle)
  else if n =? 123 then ([(pos, TLBrace)], Some Idle)
  else if n =? 125 then ([(pos, TRBrace)], Some Idle)
  else if n =? 91 then ([(pos, TLBracket)], Some Idle)
  else if n =? 93 then ([(pos, TRBracket)], Some Idle)
  else if n =? 58 then ([(pos, TColon)], Some Idle)
  else if n =? 44 then ([(pos, TComma)], Some Idle)
  else if n =? 34 then ([], Some (InStr pos []))
  else if n =? 45 then ([], Some (NSign pos))
  else if n =? 48 then ([], Some (NZero pos false))
  else if Text.is_digit c then ([], Some (NInt pos false (Text.digit_val c)))
  else if Ascii.eqb c "n" then ([], Some (InLit pos "ull" PNone))
  else if Ascii.eqb c "t" then ([], Some (InLit pos "rue" (PBool true)))
  else if Ascii.eqb c "f" then ([], Some (InLit pos "alse" (PBool false)))
  else if Ascii.eqb c "N" then ([], Some (InLit pos "aN" (PFloat nan)))
  else if Ascii.eqb c "I" then ([], Some (InLit pos "nfinity" (PFloat infinity)))
  else ([(pos, TBad)], None).

(** A finished token followed by the character that ended it. *)
Definition then_idle (t : nat * token) (c : ascii) (pos : nat) : step_result :=
  let '(ts, m) := idle c pos in (t :: ts, m).

Definition is_e (c : ascii) : bool := Ascii.eqb c "e" || Ascii.eqb c "E".

Definition unescape (c : ascii) : option ascii :=
  if Ascii.eqb c Text.dq_char then Some Text.dq_char
  else if Ascii.eqb c "\" then Some "\"%char
  else if Ascii.eqb c "/" then Some "/"%char
  else if Ascii.eqb c "b" then Some (Text.chr 8)
  else if Ascii.eqb c "f" then Some (Text.chr 12)
  else if Ascii.eqb c "n" then Some (Text.chr 10)
  else if Ascii.eqb c "r" then Some (Text.chr 13)
  else if Ascii.eqb c "t" then Some (Text.chr 9)
  else None.

Definition bad_escape : string := "Invalid \escape".
Definition bad_uescape : string := "Invalid \uXXXX escape".

Definition step (m : mode) (c : ascii) (pos : nat) : step_result :=
  match m with
  | Idle => idle c pos
  | InStr start acc =>
      if Ascii.eqb c Text.dq_char then ([(start, TStr (decode (rev acc)))], Some Idle)
      else if Ascii.eqb c "\" then ([], Some (InEsc start acc))
      else if Text.code c <? 32
      then ([(start, TBadStr "Invalid control character at" pos)], None)
      else ([], Some (InStr start (Raw c :: acc)))
  | InEsc start acc =>
      if Ascii.eqb c "u" then ([], Some (InUni start acc pos []))
      else
        match unescape c with
        | Some d => ([], Some (InStr start (Raw d :: acc)))
        | None => ([(start, TBadStr bad_escape (pos - 1))], None)
        end
  | InUni start acc upos got =>
      match Text.hex_val c with
      | None => ([(start, TBadStr bad_uescape upos)], None)
      | Some h =>
          match got with
          | [a; b; d] =>
              ([], Some (InStr start (Esc (((a * 16 + b) * 16 + d) * 16 + h) :: acc)))
          | _ => ([], Some (InUni start acc upos (got ++ [h])))
          end
      end
  | InLit start rest v =>
      match rest with
      | String r rest' =>
          if Ascii.eqb c r then
            match rest' with
            | EmptyString => ([(start, TVal v)], Some Idle)
            | _ => ([], Some (InLit start rest' v))
            end
          else ([(start, TBad)], None)
      | EmptyString => then_idle (start, TVal v) c pos
      end
  | NSign start =>
      if Ascii.eqb c "0" then ([], Some (NZero start true))
      else if Text.is_digit c then ([], Some (NInt start true (Text.digit_val c)))
      else if Ascii.eqb c "I"
      then ([], Some (InLit start "nfinity" (PFloat neg_infinity)))
      else ([(start, TBad)], None)
  | NZero start neg =>
      if Ascii.eqb c "." then ([], Some (NDot start neg 0 pos))
      else if is_e c then ([], Some (NE start neg 0 None pos))
      else then_idle (start, TVal (int_value neg 0)) c pos
  | NInt start neg n =>
      if Text.is_digit c then ([], Some (NInt start neg (n * 10 + Text.digit_val c)))
      else if Ascii.eqb c "." then ([], Some (NDot start neg n pos))
      else if is_e c then ([], Some (NE start neg n None pos))
      else then_idle (start, TVal (int_value neg n)) c pos
  | NDot start neg n dotpos =>
      if Text.is_digit c then ([], Some (NFrac start neg (n * 10 + Text.digit_val c) 1))
      else ([(start, TVal (int_value neg n)); (dotpos, TBad)], None)
  | NFrac start neg n fl =>
      if Text.is_digit c
      then ([], Some (NFrac start neg (n * 10 + Text.digit_val c) (fl + 1)))
      else if is_e c then ([], Some (NE start neg n (Some fl) pos))
      else then_idle (start, TVal (number_value neg n (Some fl) None)) c pos
  | NE start neg n fl epos =>
      if Text.is_digit c then ([], Some (NExp start neg n fl false (Text.digit_val c)))
      else if Ascii.eqb c "+" then ([], Some (NESign start neg n fl epos false))
      else if Ascii.eqb c "-" then ([], Some (NESign start neg n fl epos true))
      else ([(start, TVal (number_value neg n fl None)); (epos, TBad)], None)
  | NESign start neg n fl epos eneg =>
      if Text.is_digit c then ([], Some (NExp start neg n fl eneg (Text.digit_val c)))
      else ([(start, TVal (number_value neg n fl None)); (epos, TBad)], None)
  | NExp start neg n fl eneg ex =>
      if Text.is_digit c
      then ([], Some (NExp start neg n fl eneg (ex * 10 + Text.digit_val c)))
      else
        then_idle
          (start, TVal (number_value neg n fl (Some (if eneg then - ex else ex)))) c pos
  end.

(** The tokens still owed when the text ends at [pos]. *)
Definition finish (m : mode) (pos : nat) : list (nat * token) :=
  match m with
  | Idle => [(pos, TEnd)]
  | InStr start _ | InEsc start _ =>
      [(start, TBadStr "Unterminated string starting at" start)]
  | InUni start _ upos _ => [(start, TBadStr bad_uescape upos)]
  | InLit start _ _ => [(start, TBad)]
  | NSign start => [(start, TBad)]
  | NZero start neg => [(start, TVal (int_value neg 0)); (pos, TEnd)]
  | NInt start neg n => [(start, TVal (int_value neg n)); (pos, TEnd)]
  | NDot start neg n dotpos => [(start, TVal (int_value neg n)); (dotpos, TBad)]
  | NFrac start neg n fl =>
      [(start, TVal (number_value neg n (Some fl) None)); (pos, TEnd)]
  | NE start neg n fl epos | NESign start neg n fl epos _ =>
      [(start, TVal (number_value neg n fl None)); (epos, TBad)]
  | NExp start neg n fl eneg ex =>
      [(start, TVal (number_value neg n fl (Some (if eneg then - ex else ex))));
       (pos, TEnd)]
  end.

Fixpoint lex (s : string) (pos : nat) (m : mode) : list (nat * token) :=
  match s with
  | EmptyString => finish m pos
  | String c s' =>
      match step m c pos with
      | (ts, Some m') => ts ++ lex s' (S pos) m'
      | (ts, None) => ts
      end
  end.

(** *** Building the value *)

(** A container that waits for the value being read. *)
Inductive frame : Type :=
| FArr (items : list pyval)                        (* newest first *)
| FObj (d : list (string * pyval)) (key : string).

Inductive pstate : Type :=
| WantValue
| ArrStart                                          (* after [[] *)
| ArrNext (items : list pyval)                      (* after an element *)
| ObjStart                                          (* after [{] *)
| ObjKey (d : list (string * pyval))                (* after [,] in an object *)
| ObjColon (d : list (string * pyval)) (key : string)
| ObjNext (d : list (string * pyval))               (* after a member *)
| Done (v : pyval).

(** A finished value goes to the container that waits for it. *)
Definition supply (v : pyval) (stack : list frame) : pstate * list frame :=
  match stack with
  | [] => (Done v, [])
  | FArr items :: st => (ArrNext (v :: items), st)
  | FObj d k :: st => (ObjNext (Py.set d k v), st)
  end.

Definition expecting_value : string := "Expecting value".
Definition expecting_comma : string := "Expecting ',' delimiter".
Definition expecting_colon : string := "Expecting ':' delimiter".
Definition expecting_name : string :=
  "Expecting property name enclosed in double quotes".

Definition parse_error : Type := string * nat.

(** One token in a state where a value must start. *)
Definition value_token (pos : nat) (t : token) (stack : list frame)
  : parse_error + pstate * list frame :=
  match t with
  | TVal v => inr (supply v stack)
  | TStr s => inr (supply (PStr s) stack)
  | TLBracket => inr (ArrStart, stack)
  | TLBrace => inr (ObjStart, stack)
  | TBadStr msg p => inl (msg, p)
  | _ => inl (expecting_value, pos)
  end.

Definition name_token (pos : nat) (t : token) (d : list (string * pyval))
           (stack : list frame) : parse_error + pstate * list frame :=
  match t with
  | TStr k => inr (ObjColon d k, stack)
  | TBadStr msg p => inl (msg, p)
  | _ => inl (expecting_name, pos)
  end.

Definition advance (st : pstate) (stack : list frame) (pos : nat) (t : token)
  : parse_error + pstate * list frame :=
  match st with
  | WantValue => value_token pos t stack
  | ArrStart =>
      match t with
      | TRBracket => inr (supply (PList []) stack)
      | _ => value_token pos t (FArr [] :: stack)
      end
  | ArrNext items =>
      match t with
      | TComma => inr (WantValue, FArr items :: stack)
      | TRBracket => inr (supply (PList (rev items)) stack)
      | _ => inl (expecting_comma, pos)
      end
  | ObjStart =>
      match t with
      | TRBrace => inr (supply (PDict []) stack)
      | _ => name_token pos t [] stack
      end
  | ObjKey d => name_token pos t d stack
  | ObjColon d k =>
      match t with
      | TColon => inr (WantValue, FObj d k :: stack)
      | _ => inl (expecting_colon, pos)
      end
  | ObjNext d =>
      match t with
      | TComma => inr (ObjKey d, stack)
      | TRBrace => inr (supply (PDict d) stack)
      | _ => inl (expecting_comma, pos)
      end
  | Done v => inl ("Extra data", pos)
  end.

Fixpoint run (toks : list (nat * token)) (st : pstate) (stack : list frame)
  : parse_error + pyval :=
  match toks with
  | [] => inl (expecting_value, O)
  | (pos, t) :: rest =>
      match st, t with
      | Done v, TEnd => inr v
      | _, _ =>
          match advance st stack pos t with
          | inl err => inl err
          | inr (st', stack') => run rest st' stack'
          end
      end
  end.

(** [line L column C (char P)] for position [P] of the text. *)
Fixpoint line_col (s : string) (pos : nat) (line col : nat) : nat * nat :=
  match pos, s with
  | S p, String c s' =>
      if Ascii.eqb c Text.nl_char then line_col s' p (S line) 1%nat
      else line_col s' p line (S col)
  | _, _ => (line, col)
  end.

Definition errmsg (msg : string) (doc : string) (pos : nat) : string :=
  let '(line, col) := line_col doc pos 1%nat 1%nat in
  msg ++ ": line " ++ Text.of_nat line ++ " column " ++ Text.of_nat col
      ++ " (char " ++ Text.of_nat pos ++ ")".

Definition bom : string :=
  String (Text.chr 239) (String (Text.chr 187) (String (Text.chr 191) "")).

(** [json.loads(doc)] for a [str].  An integer of any length is decoded
    (CPython stops at 4300 digits), and the position in an error message
    counts bytes, which is the character position for ASCII text. *)
Definition loads (doc : string) : outcome pyval :=
  if prefix bom doc
  then Raise (JSONDecodeError
                (errmsg "Unexpected UTF-8 BOM (decode using utf-8-sig)" doc 0))
  else
    match run (lex doc 0 Idle) WantValue [] with
    | inr v => Return v
    | inl (msg, pos) => Raise (JSONDecodeError (errmsg msg doc pos))
    end.

(** *** [json.dumps(v, ensure_ascii=False)] *)

Definition dump_char (c : ascii) : string :=
  let n := Text.code c in
  if Ascii.eqb c Text.dq_char then String "\" Text.dq
  else if Ascii.eqb c "\" then "\\"
  else if n =? 10 then "\n"
  else if n =? 13 then "\r"
  else if n =? 9 then "\t"
  else if n =? 8 then "\b"
  else if n =? 12 then "\f"
  else if n <? 32
  then "\u00" ++ Text.hex_digit (n / 16) ++ Text.hex_digit (n mod 16)
  else String c "".

Definition dump_str (s : string) : string :=
  Text.dq ++ Text.cat (map dump_char (Text.chars s)) ++ Text.dq.

Definition dump_float (f : float) : string :=
  match Prim2SF f with
  | S754_nan => "NaN"
  | S754_infinity s => if s then "-Infinity" else "Infinity"
  | _ => PyFloat.repr f
  end.

Fixpoint dumps (v : pyval) : string :=
  match v with
  | PNone => "null"
  | PBool b => if b then "true" else "false"
  | PInt z => Text.of_Z z
  | PFloat f => dump_float f
  | PStr s => dump_str s
  | PList l => "[" ++ Text.join ", " (map dumps l) ++ "]"
  | PDict d =>
      "{" ++ Text.join ", " (map (fun kv => dump_str (fst kv) ++ ": " ++ dumps (snd kv)) d)
          ++ "}"
  end.

End Json.

(* ================================================================== *)
(** ** The world outside the module *)
(* ================================================================== *)

(** [datetime.now()] *)
Record datetime : Type := {
  year : Z; month : Z; day : Z; hour : Z; minute : Z; second : Z
}.

(** [t.strftime("%Y-%m-%d %H:%M:%S")] *)
Definition strftime (t : datetime) : string :=
  let two z := Text.pad_left 2 (Text.of_Z z) in
  Text.pad_left 4 (Text.of_Z (year t)) ++ "-" ++ two (month t) ++ "-" ++ two (day t)
    ++ " " ++ two (hour t) ++ ":" ++ two (minute t) ++ ":" ++ two (second t).

(** What [Credentials.from_service_account_info] and [build] hand back. *)
Inductive credentials : Type :=
| Credentials (info : pyval) (scopes : list string).

Inductive service : Type :=
| Service (name version : string) (creds : credentials).

(** A call that leaves the process. *)
Inductive event : Type :=
| Getenv (name : string)
| Now
| HttpPost (url : string) (body : pyval) (timeout : Z)
| Build (name version : string) (creds : credentials)
| Execute (svc : service) (site : string) (body : pyval).

(** The collaborators.  [http_post_json url body timeout] stands for
    [requests.post(url, json=body, timeout=timeout)], [raise_for_status()] and
    [json()] together: a message when [requests] raises, the decoded body
    otherwise.  The other fields answer for the operating system, the codecs
    and the Google client libraries. *)
Record World : Type := {
  getenv : string -> option string;
  clock : nat -> datetime;
  http_post_json : string -> pyval -> Z -> string + pyval;
  b64decode : string -> outcome string;
  utf8_decode : string -> outcome string;
  service_account_info : pyval -> list string -> option exn;
  discovery : string -> string -> credentials -> option exn;
  searchanalytics_query : service -> string -> pyval -> outcome pyval
}.

(** A computation: it extends the trace of calls and returns or raises. *)
Definition trace : Type := list event.
Definition M (A : Type) : Type := trace -> outcome A * trace.

Definition ret {A} (a : A) : M A := fun t => (Return a, t).
Definition raise {A} (e : exn) : M A := fun t => (Raise e, t).
Definition lift {A} (o : outcome A) : M A := fun t => (o, t).

Definition bind {A B} (m : M A) (k : A -> M B) : M B :=
  fun t =>
    match m t with
    | (Return a, t') => k a t'
    | (Raise e, t') => (Raise e, t')
    end.

(** [try: m except Exception as e: h(e)] *)
Definition try_except {A} (m : M A) (h : exn -> M A) : M A :=
  fun t =>
    match m t with
    | (Raise e, t') => h e t'
    | r => r
    end.

Definition emit (ev : event) : M unit := fun t => (Return tt, (t ++ [ev])%list).

Declare Scope m_scope.
Delimit Scope m_scope with M.
Notation "x <- m ;; k" := (bind m (fun x => k))
  (at level 61, m at next level, right associativity) : m_scope.
Notation "m ;;; k" := (bind m (fun _ => k))
  (at level 61, right associativity) : m_scope.
Notation "x <~ o ;; k" := (bind (lift o) (fun x => k))
  (at level 61, o at next level, right associativity) : m_scope.

Definition is_now (ev : event) : bool :=
  match ev with Now => true | _ => false end.

Definition reads (t : trace) : nat := List.length (filter is_now t).

(** Run a computation from the empty trace. *)
Definition run {A} (m : M A) : outcome A * trace := m [].
Definition result {A} (m : M A) : outcome A := fst (run m).
Definition calls {A} (m : M A) : trace := snd (run m).

Section Collaborators.

Variable w : World.

Open Scope m_scope.

(** [os.getenv(name)] *)
Definition os_getenv (name : string) : M pyval :=
  emit (Getenv name) ;;;
  ret (match getenv w name with Some s => PStr s | None => PNone end).

(** [datetime.now()]: each reading is the next one of the clock. *)
Definition datetime_now : M datetime :=
  fun t => (Return (clock w (reads t)), (t ++ [Now])%list).

(** [requests.post(...)], [raise_for_status()], [json()] *)
Definition requests_post_json (url : string) (body : pyval) (timeout : Z) : M pyval :=
  emit (HttpPost url body timeout) ;;;
  match http_post_json w url body timeout with
  | inl msg => raise (RequestException msg)
  | inr v => ret v
  end.

(** [service_account.Credentials.from_service_account_info(info, scopes=scopes)] *)
Definition from_service_account_info (info : pyval) (scopes : list string)
  : M credentials :=
  match service_account_info w info scopes with
  | Some e => raise e
  | None => ret (Credentials info scopes)
  end.

(** [build(name, version, credentials=creds)] *)
Definition build (name version : string) (creds : credentials) : M service :=
  emit (Build name version creds) ;;;
  match discovery w name version creds with
  | Some e => raise e
  | None => ret (Service name version creds)
  end.

(** [service.searchanalytics().query(siteUrl=site, body=body).execute()] *)
Definition execute_query (svc : service) (site : string) (body : pyval) : M pyval :=
  emit (Execute svc site body) ;;;
  lift (searchanalytics_query w svc site body).

End Collaborators.

(* ================================================================== *)
(** ** The module [mcp_helper] *)
(* ================================================================== *)

Section McpHelper.

Variable w : World.

Open Scope m_scope.

Local Abbreviation nl := Text.nl.
Local Abbreviation dq := Text.dq.

(** *** Variables *)

(** [gsc_base64_key = os.getenv('SEARCH_CONSOLE_KEY')], read when the module
    is loaded. *)
Definition gsc_base64_key : pyval :=
  match getenv w "SEARCH_CONSOLE_KEY" with Some s => PStr s | None => PNone end.

Definition site_url : string := "sc-domain:www.yourdomain.ai".

(** *** MCP protocol handlers *)

Definition handle_initialize : pyval :=
  PDict [
    ("protocolVersion", PStr "2024-11-05");
    ("serverInfo", PDict [
       ("name", PStr "search_console_mcp");
       ("version", PStr "0.1.0")
    ]);
    ("capabilities", PDict [
       ("tools", PDict [])
    ])
  ].

Definition handle_tools_list : pyval :=
  PDict [
    ("tools", PList [
       PDict [
         ("name", PStr "search_console_query");
         ("description", PStr "a tool that helps translate natural language user requests into Google Search Console API requests");
         ("annotations", PDict [("read_only", PBool false)]);
         ("inputSchema", PDict [
            ("type", PStr "object");
            ("properties", PDict [
               ("query", PDict [
                  ("type", PStr "string");
                  ("description", PStr "The full natural language query from the user requesting data from Google Search Console.")
               ])
            ]);
            ("required", PList [PStr "query"]);
            ("additionalProperties", PBool false)
         ])
       ]
    ])
  ].

(** *** Search Console functions *)

(** [s.replace(old, new)] on a value: only a [str] has the method here. *)
Definition str_replace (v : pyval) (old new : string) : outcome string :=
  match v with
  | PStr s => Return (Text.replace old new s)
  | _ =>
      Raise (AttributeError
               (Py.quoted (Py.type_name v) ++ " object has no attribute 'replace'"))
  end.

Definition clean_query (generated_api_query : pyval) : outcome string :=
  let search_string := "```json" in
  let search_string_2 := "```" in
  obind (str_replace generated_api_query search_string "") (fun clean_response_once =>
  obind (str_replace generated_api_query search_string_2 "") (fun clean_response_final =>
  Return clean_response_final)).

(** [site_url.split(":")[1]] *)
Definition site_domain : outcome string :=
  match nth_error (Text.split ":" site_url) 1 with
  | Some d => Return d
  | None => Raise (IndexError "list index out of range")
  end.

(** The instruction text, with the two clock readings and the domain of the
    property filled in. *)
Definition system_prompt_items (t1 domain t2 : string) : list string :=
  [
    "You are an expert AI assistant specializing in the Google Search Console API. Your sole function is to act as a precise natural language-to-API translator. You receive user prompts in plain English and your only output is a perfectly structured, valid JSON payload for the searchanalytics.query endpoint.";
    nl;
    nl;
    "The current time for this request is: "; t1; nl;
    "The current property being analyzed is: https://"; domain; nl;
    nl;
    "# P (Problem):"; nl;
    nl;
    "Users will provide unstructured, conversational requests for search analytics data. These requests will use relative dates (e.g., ";
    dq; "last month"; dq;
    "), imprecise terms, and imply complex filtering. Your task is to meticulously parse the user's intent, identify all relevant parameters, and convert their request into a machine-readable JSON object that strictly conforms to the API's requirements.";
    nl;
    nl;
    "# G (Guidance):"; nl;
    nl;
    "## Parameter Identification:"; nl;
    "Scan the prompt for the following parameters and map them to the corresponding JSON keys.";
    nl;
    nl;
    "1.  **Dates**: Convert terms like "; dq; "yesterday,"; dq; " "; dq; "last 7 days,"; dq; " ";
    dq; "this month,"; dq; " "; dq; "September 2024"; dq;
    " into `YYYY-MM-DD` format for `startDate` and `endDate`."; nl;
    "2.  **Dimensions**: These are the fields the user wants to group the data by."; nl;
    "    - "; dq; "queries"; dq; ", "; dq; "keywords"; dq; " -> "; dq; "query"; dq; nl;
    "    - "; dq; "pages"; dq; ", "; dq; "URLs"; dq; " -> "; dq; "page"; dq; nl;
    "    - "; dq; "dates"; dq; ", "; dq; "daily"; dq; " -> "; dq; "date"; dq; nl;
    "    - "; dq; "countries"; dq; " -> "; dq; "country"; dq; nl;
    "    - "; dq; "devices"; dq; " -> "; dq; "device"; dq; nl;
    "    - "; dq; "search appearance"; dq; " -> "; dq; "searchAppearance"; dq; nl;
    "3.  **Filters**: This is critical. Filters narrow the results. A dimension can be used as a filter without being in the `dimensions` array.";
    nl;
    "    - **Implicit Filters**: If a user asks for results "; dq; "in the UK"; dq; " or "; dq;
    "on mobile,"; dq;
    " these are filters. They should be placed in the `dimensionFilterGroups`. Do NOT add them to the `dimensions` array unless the user explicitly asks to group by them (e.g., ";
    dq; "show me clicks by country"; dq; ")."; nl;
    "    - **Country Filters**: Use the 3-letter ISO 3166-1 alpha-3 code (e.g., "; dq; "UK"; dq;
    " -> "; dq; "GBR"; dq; ", "; dq; "United States"; dq; " -> "; dq; "USA"; dq; ")."; nl;
    "    - **Device Filters**: Use API constants: "; dq; "DESKTOP"; dq; ", "; dq; "MOBILE"; dq;
    ", "; dq; "TABLET"; dq; "."; nl;
    "    - **Page Filter Nuance**: When filtering by `page`, be strategic. If the user provides a full URL with ";
    dq; "https://"; dq;
    ", use the `equals` operator. If the user provides only a URL path AND uses the Equal operator (e.g., page equals ";
    dq; "/dashboards"; dq; " or page equals "; dq; "blog/my-post"; dq;
    "), you MUST add the full domain name to the URL (e.g., "; dq; "https://"; domain;
    "/dashboards"; dq; " or "; dq; "https://"; domain; "/blog/my-post"; dq; ")."; nl;
    "    - **Operators**:"; nl;
    "        - "; dq; "for the page"; dq; ", "; dq; "on the URL"; dq;
    " -> `dimension: 'page', operator: 'equals'`"; nl;
    "        - "; dq; "containing"; dq; ", "; dq; "with the word"; dq;
    " -> `dimension: 'query', operator: 'contains'`"; nl;
    "        - "; dq; "excluding"; dq; ", "; dq; "but not"; dq;
    " -> `dimension: 'query', operator: 'notContains'`"; nl;
    "        - "; dq; "matches regex"; dq; ", "; dq; "matches pattern"; dq;
    " -> `operator: 'includingRegex'`"; nl;
    "        - "; dq; "doesn't match regex"; dq; ", "; dq; "excluding pattern"; dq;
    " -> `operator: 'excludingRegex'`"; nl;
    "        - If no operator is specified for a filter, default to `'equals'`."; nl;
    "4.  **Search Type**: Look for mentions of specific search surfaces."; nl;
    "    - "; dq; "Google Discover"; dq; " -> `"; dq; "type"; dq; ": "; dq; "discover"; dq; "`";
    nl;
    "    - "; dq; "Google News"; dq; " -> `"; dq; "type"; dq; ": "; dq; "googleNews"; dq; "`"; nl;
    "    - "; dq; "Image Search"; dq; " -> `"; dq; "type"; dq; ": "; dq; "image"; dq; "`"; nl;
    "    - If unspecified, default to `"; dq; "web"; dq; "`."; nl;
    "5.  **Limits & Pagination**:"; nl;
    "    - "; dq; "top 10"; dq; ", "; dq; "25 results"; dq; " -> `rowLimit`"; nl;
    "    - "; dq; "starting at row 50"; dq; " -> `startRow`"; nl;
    "6.  **Logical Inference for Date Trends (Critical Rule)**:"; nl;
    "    - If the user asks to trend data by `date` (e.g., "; dq; "show me daily data"; dq; ", ";
    dq; "trended over X days"; dq;
    "), you MUST ensure the `rowLimit` is at least equal to the number of days in the requested date range.";
    nl;
    "    - For example, a request for "; dq; "the last 90 days"; dq;
    " trended daily covers 91 data points (inclusive of the start and end dates). Therefore, the `rowLimit` MUST be set to 91 or higher. Do not use the default `rowLimit` in this scenario.";
    nl;
    nl;
    "## Default Values:"; nl;
    "-   `startDate`, `endDate`: If no date range is specified, default to the last 28 days."; nl;
    "-   `dimensions`: If no dimensions are specified, default to `["; dq; "query"; dq; "]`."; nl;
    "-   `rowLimit`: If no limit is specified, default to 25. "; nl;
    "-   `startRow`: If no pagination is mentioned, default to 0."; nl;
    "-   `aggregationType`: Default to `"; dq; "auto"; dq;
    "` unless the user specifies aggregation by "; dq; "page"; dq; " or "; dq; "property"; dq; ".";
    nl;
    nl;
    "## Output Format:"; nl;
    "Your output must be **only** the JSON object. Do not include any conversational text, explanations, or markdown formatting such as ```json or ```.";
    nl;
    nl;
    "# Examples for Guidance:"; nl;
    nl;
    "## Example 1: Simple Prompt"; nl;
    "User Prompt:"; nl;
    "Show me my top 25 queries from last month"; nl;
    nl;
    "AI Assistant Output:"; nl;
    "{"; nl;
    "    "; dq; "startDate"; dq; ": "; dq; "2025-09-01"; dq; ","; nl;
    "    "; dq; "endDate"; dq; ": "; dq; "2025-09-30"; dq; ","; nl;
    "    "; dq; "dimensions"; dq; ": ["; dq; "query"; dq; "],"; nl;
    "    "; dq; "rowLimit"; dq; ": 25,"; nl;
    "    "; dq; "startRow"; dq; ": 0"; nl;
    "}"; nl;
    nl;
    "## Example 2: Simple Trended Date Prompt "; nl;
    "User Prompt:"; nl;
    "show me the avg position of my site trended over the last 90 days by date"; nl;
    nl;
    "AI Assistant Output:"; nl;
    "{"; nl;
    "    "; dq; "startDate"; dq; ": "; dq; "2025-08-05"; dq; ","; nl;
    "    "; dq; "endDate"; dq; ": "; dq; "2025-11-03"; dq; ","; nl;
    "    "; dq; "dimensions"; dq; ": ["; dq; "date"; dq; "],"; nl;
    "    "; dq; "rowLimit"; dq; ": 91,"; nl;
    "    "; dq; "startRow"; dq; ": 0"; nl;
    "}"; nl;
    nl;
    "## Example 3: Prompt with Filtering (Corrected Logic)"; nl;
    "User Prompt:"; nl;
    "What were my top pages in the UK on mobile for the last 7 days?"; nl;
    nl;
    "AI Assistant Output:"; nl;
    "{"; nl;
    "    "; dq; "startDate"; dq; ": "; dq; "2025-10-24"; dq; ","; nl;
    "    "; dq; "endDate"; dq; ": "; dq; "2025-10-31"; dq; ","; nl;
    "    "; dq; "dimensions"; dq; ": ["; dq; "page"; dq; "],"; nl;
    "    "; dq; "dimensionFilterGroups"; dq; ": ["; nl;
    "        {"; nl;
    "            "; dq; "filters"; dq; ": ["; nl;
    "                {"; nl;
    "                    "; dq; "dimension"; dq; ": "; dq; "country"; dq; ","; nl;
    "                    "; dq; "expression"; dq; ": "; dq; "GBR"; dq; nl;
    "                },"; nl;
    "                {"; nl;
    "                    "; dq; "dimension"; dq; ": "; dq; "device"; dq; ","; nl;
    "                    "; dq; "expression"; dq; ": "; dq; "MOBILE"; dq; nl;
    "                }"; nl;
    "            ]"; nl;
    "        }"; nl;
    "    ],"; nl;
    "    "; dq; "rowLimit"; dq; ": 25"; nl;
    "}"; nl;
    nl;
    "## Example 4: Complex Prompt with Multiple Filters"; nl;
    "User Prompt:"; nl;
    "I need to see all queries containing 'ai assistant' but not 'free', specifically for the page 'https://";
    domain; "/blog/ai-tools'."; nl;
    nl;
    "AI Assistant Output:"; nl;
    "{"; nl;
    "    "; dq; "startDate"; dq; ": "; dq; "2025-10-03"; dq; ","; nl;
    "    "; dq; "endDate"; dq; ": "; dq; "2025-10-31"; dq; ","; nl;
    "    "; dq; "dimensions"; dq; ": ["; dq; "query"; dq; "],"; nl;
    "    "; dq; "rowLimit"; dq; ": 100,"; nl;
    "    "; dq; "startRow"; dq; ": 0,"; nl;
    "    "; dq; "dimensionFilterGroups"; dq; ": ["; nl;
    "        {"; nl;
    "            "; dq; "groupType"; dq; ": "; dq; "and"; dq; ","; nl;
    "            "; dq; "filters"; dq; ": ["; nl;
    "                {"; nl;
    "                    "; dq; "dimension"; dq; ": "; dq; "query"; dq; ","; nl;
    "                    "; dq; "operator"; dq; ": "; dq; "contains"; dq; ","; nl;
    "                    "; dq; "expression"; dq; ": "; dq; "ai assistant"; dq; nl;
    "                },"; nl;
    "                {"; nl;
    "                    "; dq; "dimension"; dq; ": "; dq; "query"; dq; ","; nl;
    "                    "; dq; "operator"; dq; ": "; dq; "notContains"; dq; ","; nl;
    "                    "; dq; "expression"; dq; ": "; dq; "free"; dq; nl;
    "                },"; nl;
    "                {"; nl;
    "                    "; dq; "dimension"; dq; ": "; dq; "page"; dq; ","; nl;
    "                    "; dq; "operator"; dq; ": "; dq; "equals"; dq; ","; nl;
    "                    "; dq; "expression"; dq; ": "; dq; "https://"; domain; "/blog/ai-tools";
    dq; nl;
    "                }"; nl;
    "            ]"; nl;
    "        }"; nl;
    "    ]"; nl;
    "}"; nl;
    nl;
    "## Example 5: Prompt with Regex Filtering"; nl;
    "User Prompt:"; nl;
    "Show me pages that match the regex '/products/.*' but exclude queries matching the regex 'sale|discount'.";
    nl;
    nl;
    "AI Assistant Output:"; nl;
    "{"; nl;
    "    "; dq; "startDate"; dq; ": "; dq; "2025-10-03"; dq; ","; nl;
    "    "; dq; "endDate"; dq; ": "; dq; "2025-10-31"; dq; ","; nl;
    "    "; dq; "rowLimit"; dq; ": 25,"; nl;
    "    "; dq; "dimensions"; dq; ": ["; dq; "page"; dq; "],"; nl;
    "    "; dq; "dimensionFilterGroups"; dq; ": ["; nl;
    "        {"; nl;
    "            "; dq; "groupType"; dq; ": "; dq; "and"; dq; ","; nl;
    "            "; dq; "filters"; dq; ": ["; nl;
    "                {"; nl;
    "                    "; dq; "dimension"; dq; ": "; dq; "page"; dq; ","; nl;
    "                    "; dq; "operator"; dq; ": "; dq; "includingRegex"; dq; ","; nl;
    "                    "; dq; "expression"; dq; ": "; dq; "/products/.*"; dq; nl;
    "                },"; nl;
    "                {"; nl;
    "                    "; dq; "dimension"; dq; ": "; dq; "query"; dq; ","; nl;
    "                    "; dq; "operator"; dq; ": "; dq; "excludingRegex"; dq; ","; nl;
    "                    "; dq; "expression"; dq; ": "; dq; "sale|discount"; dq; nl;
    "                }"; nl;
    "            ]"; nl;
    "        }"; nl;
    "    ]"; nl;
    "}"; nl;
    nl;
    "Final note:"; nl;
    "The current time for this request is: "; t2; nl;
    "The current property being analyzed is: https://"; domain; nl
  ].

Definition system_prompt_text (t1 domain t2 : string) : string :=
  Text.cat (system_prompt_items t1 domain t2).

Definition gsc_system_prompt : M string :=
  now1 <- datetime_now w ;;
  domain <~ site_domain ;;
  now2 <- datetime_now w ;;
  ret (system_prompt_text (strftime now1) domain (strftime now2)).

Definition credentials_from_base64_env (base64_key : pyval) (scopes : list string)
  : M credentials :=
  let encoded_key := gsc_base64_key in
  if negb (Py.truthy encoded_key)
  then raise (ValueError ("Environment variable '" ++ Py.str encoded_key
                            ++ "' not found or is empty."))
  else
    match encoded_key with
    | PStr key =>
        decoded_bytes <~ b64decode w key ;;
        decoded_text <~ utf8_decode w decoded_bytes ;;
        key_info <~ Json.loads decoded_text ;;
        credentials <- from_service_account_info w key_info scopes ;;
        ret credentials
    | _ =>
        raise (TypeError ("argument should be a bytes-like object or ASCII string, not "
                            ++ Py.quoted (Py.type_name encoded_key)))
    end.

Definition create_gsc_service_obj (base64_key : pyval) : M service :=
  let base64_key := gsc_base64_key in
  let scope := ["https://www.googleapis.com/auth/webmasters.readonly"] in
  credentials <- credentials_from_base64_env base64_key scope ;;
  service <- build w "webmasters" "v3" credentials ;;
  ret service.

(** The body of [for i in range(n)] in [make_gsc_api_request]: the
    assignments to [data], in order.  The right-hand side is evaluated
    first, then the key, which must be hashable. *)
Fixpoint copy_keys (payload row : pyval) (i : Z) (n : nat)
  : outcome (list (pyval * pyval)) :=
  match n with
  | O => Return []
  | S k =>
      obind (Py.getkey row "keys") (fun keys =>
      obind (Py.getidx keys i) (fun value =>
      obind (Py.getkey payload "dimensions") (fun dims =>
      obind (Py.getidx dims i) (fun name =>
      if Py.hashable name
      then obind (copy_keys payload row (i + 1) k) (fun rest =>
           Return ((name, value) :: rest))
      else Raise (TypeError ("unhashable type: " ++ Py.quoted (Py.type_name name)))))))
  end.

(** One turn of [for row in response['rows']]. *)
Definition clean_row (payload row : pyval) : outcome (list (pyval * pyval)) :=
  obind (Py.getkey payload "dimensions") (fun dims =>
  obind (Py.len dims) (fun n =>
  obind (copy_keys payload row 0 (Z.to_nat n)) (fun data =>
  obind (Py.getkey row "clicks") (fun clicks =>
  obind (Py.getkey row "impressions") (fun impressions =>
  obind (Py.getkey row "ctr") (fun ctr0 =>
  obind (Py.mul ctr0 100) (fun ctr1 =>
  obind (Py.round2 ctr1) (fun ctr =>
  obind (Py.getkey row "position") (fun position0 =>
  obind (Py.round2 position0) (fun position =>
  Return (data ++ [(PStr "clicks", clicks); (PStr "impressions", impressions);
                   (PStr "ctr", ctr); (PStr "position", position)])%list)))))))))).

Definition make_gsc_api_request (service : service) (site_url : string) (payload : pyval)
  : M pyval :=
  response <- execute_query w service site_url payload ;;
  rows0 <~ Py.getkey response "rows" ;;
  rows <~ Py.iter rows0 ;;
  results <~ omap (clean_row payload) rows ;;
  ret response.

(** [data["rows"]] as the rows a loop or a generator visits. *)
Definition rows_of (data : pyval) : outcome (list pyval) :=
  obind (Py.getkey data "rows") Py.iter.

(** [len(data["rows"])] *)
Definition row_count (data : pyval) : outcome Z :=
  obind (Py.getkey data "rows") Py.len.

(** One line of the table. *)
Definition table_row (row : pyval) : outcome string :=
  obind (Py.getkey row "keys") (fun keys =>
  obind (Py.getidx keys 0) (fun date =>
  obind (Py.getkey row "clicks") (fun clicks =>
  obind (Py.getkey row "impressions") (fun impressions =>
  obind (Py.getkey row "ctr") (fun ctr0 =>
  obind (Py.mul ctr0 100) (fun ctr1 =>
  obind (Py.round2 ctr1) (fun ctr =>
  obind (Py.getkey row "position") (fun position0 =>
  obind (Py.round2 position0) (fun position =>
  Return (Py.str date ++ " | " ++ Py.str clicks ++ " | " ++ Py.str impressions
            ++ " | " ++ Py.str ctr ++ "% | " ++ Py.str position)))))))))).

Definition summary_text (total_impressions total_clicks : Py.num)
           (avg_ctr avg_position : float) : string :=
  "Summary of metrics across selected period:" ++ nl
    ++ "  - Total Impressions: " ++ Py.str (Py.of_num total_impressions) ++ nl
    ++ "  - Total Clicks: " ++ Py.str (Py.of_num total_clicks) ++ nl
    ++ "  - Average CTR: " ++ PyFloat.format_2f avg_ctr ++ "%" ++ nl
    ++ "  - Average Rank: " ++ PyFloat.format_2f avg_position ++ nl.

Definition table_header : string :=
  "Date | Clicks | Impressions | CTR (%) | Average Position".

Definition table_divider : string := Text.repeat "-" (String.length table_header).

(** The pieces of the report, in order. *)
Definition report_items (timestamp : string)
           (query start_date end_date api_query_obj : pyval)
           (summary_section table_body : string) : list string :=
  [
    nl;
    "### Search Console Data ###"; nl;
    nl;
    "This data set helps businesses understand how they are showing up on Google Search. "; nl;
    nl;
    "GSC data typically contains information about the following metrics:"; nl;
    "- Search Impressions"; nl;
    "- Search Clicks"; nl;
    "- CTR (Click-Through Rate)"; nl;
    "- Average Rank (Search Position)"; nl;
    nl;
    "and can be segemented across the following dimensions:"; nl;
    "- Date"; nl;
    "- Country"; nl;
    "- Page"; nl;
    "- Query"; nl;
    "- Device"; nl;
    nl;
    "The following query has been requested by the user on "; timestamp; " for the date range ";
    Py.str start_date; " to "; Py.str end_date; ":    "; nl;
    Py.str query; nl;
    nl;
    "The data presented below has been pulled to help answer the user's question using this API payload object:";
    nl;
    Py.str api_query_obj; nl;
    nl;
    "Please review this data in detail and finalize the user's request with an analysis of the facts presented below:";
    nl;
    nl;
    summary_section; nl;
    nl;
    table_header; nl;
    table_divider; nl;
    table_body; nl;
    nl
  ].

Definition report_text (timestamp : string) (query start_date end_date api_query_obj : pyval)
           (summary_section table_body : string) : string :=
  Text.cat (report_items timestamp query start_date end_date api_query_obj
                         summary_section table_body).

(** Everything [format_search_console_data] computes after it has read
    the clock. *)
Definition format_body (timestamp : string)
           (data query start_date end_date api_query_obj : pyval) : outcome string :=
  obind (rows_of data) (fun rows1 =>
  obind (Py.sum (fun row => Py.getkey row "clicks") rows1) (fun total_clicks =>
  obind (rows_of data) (fun rows2 =>
  obind (Py.sum (fun row => Py.getkey row "impressions") rows2) (fun total_impressions =>
  obind (rows_of data) (fun rows3 =>
  obind (Py.sum (fun row => Py.getkey row "ctr") rows3) (fun ctr_sum =>
  obind (row_count data) (fun n3 =>
  obind (Py.truediv ctr_sum n3) (fun ctr_mean =>
  obind (Py.fmul_int ctr_mean 100) (fun avg_ctr =>
  obind (rows_of data) (fun rows4 =>
  obind (Py.sum (fun row => Py.getkey row "position") rows4) (fun position_sum =>
  obind (row_count data) (fun n4 =>
  obind (Py.truediv position_sum n4) (fun avg_position =>
  let summary_section :=
    summary_text total_impressions total_clicks avg_ctr avg_position in
  obind (rows_of data) (fun rows5 =>
  obind (omap table_row rows5) (fun table_rows =>
  let table_body := Text.join nl table_rows in
  Return (report_text timestamp query start_date end_date api_query_obj
                      summary_section table_body)))))))))))))))).

Definition format_search_console_data
           (data query start_date end_date api_query_obj : pyval) : M string :=
  now <- datetime_now w ;;
  let timestamp := strftime now in
  lift (format_body timestamp data query start_date end_date api_query_obj).

(** The request sent to the language model. *)
Definition gemini_payload (system_prompt user_message : string) : pyval :=
  PDict [
    ("system_instruction", PDict [
       ("parts", PList [
          PDict [("text", PStr system_prompt)]
       ])
    ]);
    ("contents", PList [
       PDict [
         ("role", PStr "user");
         ("parts", PList [
            PDict [("text", PStr user_message)]
         ])
       ]
    ]);
    ("generationConfig", PDict [
       ("temperature", PFloat 0x1.999999999999ap-4);
       ("topK", PInt 40);
       ("topP", PFloat 0x1.e666666666666p-1);
       ("maxOutputTokens", PInt 2048)
    ])
  ].

Definition gemini_url (gemini_api_key : string) : string :=
  "https://generativelanguage.googleapis.com/v1beta/models/gemini-2.5-flash:generateContent?key="
    ++ gemini_api_key.

(** ['candidates' in result and len(result['candidates']) > 0] *)
Definition has_candidates (result : pyval) : outcome bool :=
  obind (Py.contains "candidates" result) (fun present =>
  if present
  then obind (Py.getkey result "candidates") (fun candidates =>
       obind (Py.len candidates) (fun n => Return (0 <? n)))
  else Return false).

(** [result['candidates'][0]['content']['parts'][0]['text']] *)
Definition candidate_text (result : pyval) : outcome pyval :=
  obind (Py.getkey result "candidates") (fun candidates =>
  obind (Py.getidx candidates 0) (fun candidate =>
  obind (Py.getkey candidate "content") (fun content =>
  obind (Py.getkey content "parts") (fun parts =>
  obind (Py.getidx parts 0) (fun part =>
  Py.getkey part "text"))))).

(** The [try] block of [get_search_console_data]. *)
Definition query_search_console (query : pyval) (url : string) (payload : pyval)
  : M pyval :=
  result <- requests_post_json w url payload 30 ;;
  found <~ has_candidates result ;;
  if found then
    generated_api_query <~ candidate_text result ;;
    clean_api_query <~ clean_query generated_api_query ;;
    api_query_obj <~ Json.loads clean_api_query ;;
    start_date <~ Py.getkey api_query_obj "startDate" ;;
    end_date <~ Py.getkey api_query_obj "endDate" ;;
    service <- create_gsc_service_obj gsc_base64_key ;;
    api_response <- make_gsc_api_request service site_url api_query_obj ;;
    llm_response <-
      format_search_console_data api_response query start_date end_date api_query_obj ;;
    ret (PDict [
           ("api_response", PStr llm_response);
           ("api_query", generated_api_query);
           ("user_query", query);
           ("status", PStr "success")
         ])
  else
    ret (PDict [
           ("api_query", PStr "No results generated from Gemini API");
           ("query", query);
           ("status", PStr "no_results")
         ]).

Definition get_search_console_data (arguments : pyval) : M pyval :=
  query <~ Py.get arguments "query" PNone ;;
  if negb (Py.truthy query) then raise (ValueError "query is required")
  else
    gemini_api_key <- os_getenv w "GEMINI_API_KEY" ;;
    if negb (Py.truthy gemini_api_key)
    then raise (ValueError "GEMINI_API_KEY environment variable is not set")
    else
      system_prompt <- gsc_system_prompt ;;
      let user_message := Py.str query in
      let payload := gemini_payload system_prompt user_message in
      let url := gemini_url (Py.str gemini_api_key) in
      try_except (query_search_console query url payload)
        (fun e =>
           if Py.is_request_exception e
           then raise (PyException ("Gemini API request failed: " ++ Py.str_exn e))
           else raise (PyException ("Error processing Gemini API response: "
                                      ++ Py.str_exn e))).

(** *** Tool calls and request routing *)

Definition handle_tool_call (params : pyval) : M pyval :=
  tool_name <~ Py.get params "name" PNone ;;
  arguments0 <~ Py.get params "arguments" (PDict []) ;;
  let dispatch (arguments : pyval) : M pyval :=
    if Py.ne_str tool_name "search_console_query" then
      ret (PDict [
             ("isError", PBool true);
             ("content", PList [
                PDict [("type", PStr "text");
                       ("text", PStr ("Tool not found: " ++ Py.str tool_name))]
             ])
           ])
    else
      (* [inl]: the [except] branch has returned; [inr]: the [try] has ended *)
      attempt <-
        try_except
          (result <- get_search_console_data arguments ;;
           ret (inr result))
          (fun e =>
             ret (inl (PDict [
                         ("isError", PBool true);
                         ("content", PList [
                            PDict [("type", PStr "text");
                                   ("text", PStr ("Tool error (search_console_query): "
                                                    ++ Py.str_exn e))]
                         ])
                       ]))) ;;
      match attempt with
      | inl error_result => ret error_result
      | inr result =>
          text_value <~ Py.get result "api_response" (PStr "") ;;
          (* [json.dumps] does not raise on these values, so the inner
             [except] branch is never taken *)
          let text_value :=
            if Py.is_str text_value then text_value
            else PStr (Json.dumps text_value) in
          ret (PDict [
                 ("content", PList [
                    PDict [("type", PStr "text"); ("text", text_value)]
                 ])
               ])
      end
  in
  match arguments0 with
  | PStr s =>
      match Json.loads s with
      | Return arguments => dispatch arguments
      | Raise _ =>
          ret (PDict [
                 ("isError", PBool true);
                 ("content", PList [
                    PDict [("type", PStr "text");
                           ("text", PStr "Invalid arguments: expected object or JSON string.")]
                 ])
               ])
      end
  | _ => dispatch arguments0
  end.

Definition handle_request (method : string) (params : pyval) : M pyval :=
  if String.eqb method "initialize" then ret handle_initialize
  else if String.eqb method "tools/list" then ret handle_tools_list
  else if String.eqb method "tools/call" then handle_tool_call params
  else raise (ValueError ("Method not found: " ++ method)).

End McpHelper.

Arguments system_prompt_text : simpl never.
Arguments system_prompt_items : simpl never.
Arguments report_text : simpl never.
Arguments report_items : simpl never.

(* ================================================================== *)
(** ** Properties *)
(* ================================================================== *)

(** The shapes of a tool result. *)
Definition text_block (text : pyval) : pyval :=
  PDict [("type", PStr "text"); ("text", text)].

Definition tool_error (text : string) : pyval :=
  PDict [("isError", PBool true); ("content", PList [text_block (PStr text)])].

Definition tool_success (text : string) : pyval :=
  PDict [("content", PList [text_block (PStr text)])].

Definition tool_name_of (d : list (string * pyval)) : pyval :=
  match Py.lookup d "name" with Some v => v | None => PNone end.

Definition arguments_of (d : list (string * pyval)) : pyval :=
  match Py.lookup d "arguments" with Some v => v | None => PDict [] end.

(** The arguments after the decoding step of [handle_tool_call]; [None] when
    they are a string that [json.loads] rejects. *)
Definition decoded_arguments (d : list (string * pyval)) : option pyval :=
  match arguments_of d with
  | PStr s =>
      match Json.loads s with
      | Return a => Some a
      | Raise _ => None
      end
  | a => Some a
  end.

(** *** Monad bookkeeping *)

Lemma bind_ret {A B} (a : A) (k : A -> M B) (t : trace) :
  bind (ret a) k t = k a t.
Proof. reflexivity. Qed.

Lemma bind_lift_return {A B} (o : outcome A) (a : A) (k : A -> M B) (t : trace) :
  o = Return a -> bind (lift o) k t = k a t.
Proof. intros ->. reflexivity. Qed.

Lemma bind_lift_raise {A B} (o : outcome A) (e : exn) (k : A -> M B) (t : trace) :
  o = Raise e -> bind (lift o) k t = (Raise e, t).
Proof. intros ->. reflexivity. Qed.

Lemma bind_lift {A B} (o : outcome A) (k : A -> M B) (t : trace) :
  bind (lift o) k t = match o with Return a => k a t | Raise e => (Raise e, t) end.
Proof. destruct o; reflexivity. Qed.

Lemma bind_emit {B} (ev : event) (k : unit -> M B) (t : trace) :
  bind (emit ev) k t = k tt (t ++ [ev])%list.
Proof. reflexivity. Qed.

Lemma bind_raise {A B} (e : exn) (k : A -> M B) (t : trace) :
  bind (raise e) k t = (Raise e, t).
Proof. reflexivity. Qed.

Lemma bind_assoc {A B C} (m : M A) (k : A -> M B) (h : B -> M C) (t : trace) :
  bind (bind m k) h t = bind m (fun a => bind (k a) h) t.
Proof.
  unfold bind. destruct (m t) as [[a|e] t']; reflexivity.
Qed.

Lemma bind_result {A B} (m : M A) (k : A -> M B) (t t' : trace) (o : outcome A) :
  m t = (o, t') ->
  bind m k t = match o with Return a => k a t' | Raise e => (Raise e, t') end.
Proof. unfold bind. intros ->. reflexivity. Qed.

Lemma try_except_result {A} (m : M A) (h : exn -> M A) (t t' : trace) (o : outcome A) :
  m t = (o, t') ->
  try_except m h t = match o with Return a => (Return a, t') | Raise e => h e t' end.
Proof. unfold try_except. intros ->. destruct o; reflexivity. Qed.

Lemma reads_app (t u : trace) : reads (t ++ u)%list = (reads t + reads u)%nat.
Proof.
  unfold reads. rewrite filter_app, length_app. reflexivity.
Qed.

Lemma site_domain_value : site_domain = Return "www.yourdomain.ai".
Proof. reflexivity. Qed.

(** *** Routing *)

Lemma handle_request_tools_list (w : World) (params : pyval) (t : trace) :
  handle_request w "tools/list" params t = (Return handle_tools_list, t).
Proof. reflexivity. Qed.

Lemma handle_request_unknown (w : World) (params : pyval) (t : trace) :
  handle_request w "resources/list" params t
  = (Raise (ValueError "Method not found: resources/list"), t).
Proof. reflexivity. Qed.

(** *** The tool listing *)

Section ToolListing.

(** The tool descriptors of a listing. *)
Definition descriptors (listing : pyval) : outcome (list pyval) :=
  obind (Py.getkey listing "tools") Py.iter.

Definition field (v : pyval) (k : string) (x : pyval) : Prop :=
  Py.getkey v k = Return x.

Definition has_description (tool : pyval) : Prop :=
  exists text, field tool "description" (PStr text) /\ text <> "".

(** The input schema: an object that requires the one string field [query]
    and admits nothing else. *)
Definition query_only_schema (tool : pyval) : Prop :=
  exists schema about,
    field tool "inputSchema" schema
    /\ field schema "type" (PStr "object")
    /\ field schema "required" (PList [PStr "query"])
    /\ field schema "additionalProperties" (PBool false)
    /\ field schema "properties" (PDict [("query", about)])
    /\ field about "type" (PStr "string").

(** The annotation as the specification words it: the tool is marked
    read-only. *)
Definition marked_read_only (tool : pyval) : Prop :=
  exists annotations,
    field tool "annotations" annotations
    /\ field annotations "read_only" (PBool true).

(** The annotation as the source has it. *)
Definition read_only_flag_off (tool : pyval) : Prop :=
  field tool "annotations" (PDict [("read_only", PBool false)]).

Definition listing_as_specified (listing : pyval) : Prop :=
  exists tool,
    descriptors listing = Return [tool]
    /\ field tool "name" (PStr "search_console_query")
    /\ has_description tool
    /\ marked_read_only tool
    /\ query_only_schema tool.

Definition listing_as_built (listing : pyval) : Prop :=
  exists tool,
    descriptors listing = Return [tool]
    /\ field tool "name" (PStr "search_console_query")
    /\ has_description tool
    /\ read_only_flag_off tool
    /\ query_only_schema tool.

End ToolListing.

(** C7, as stated, does not hold: the one descriptor that [tools/list]
    returns carries [read_only: False], so it is not marked read-only. *)
Lemma tools_list_not_marked_read_only :
  ~ (forall (w : World) (params : pyval),
        exists listing,
          result (handle_request w "tools/list" params) = Return listing
          /\ listing_as_specified listing).
Proof.
  intros H.
  pose (w0 := {| getenv := fun _ => None;
                 clock := fun _ => Build_datetime 0 0 0 0 0 0;
                 http_post_json := fun _ _ _ => inl "";
                 b64decode := fun _ => Return "";
                 utf8_decode := fun s => Return s;
                 service_account_info := fun _ _ => None;
                 discovery := fun _ _ _ => None;
                 searchanalytics_query := fun _ _ _ => Return PNone |}).
  destruct (H w0 PNone) as (listing & Hres & tool & Htools & _ & _ & Hro & _).
  unfold result, run in Hres. rewrite handle_request_tools_list in Hres.
  simpl in Hres. injection Hres as <-.
  cbv in Htools. injection Htools as <-.
  destruct Hro as (ann & Hann & Hflag).
  cbv in Hann. injection Hann as <-.
  cbv in Hflag. discriminate Hflag.
Qed.

(** C7, amended: [tools/list] always returns exactly one tool descriptor,
    named [search_console_query], with a natural-language description, an
    [annotations] object whose [read_only] flag is false, and an input schema
    of object type that requires the single string field [query] and admits
    no additional properties. *)
Theorem tools_list_descriptor (w : World) (params : pyval) (t : trace) :
  exists listing,
    handle_request w "tools/list" params t = (Return listing, t)
    /\ listing_as_built listing.
Proof.
  exists handle_tools_list. split; [reflexivity|].
  eexists. split; [reflexivity|].
  split; [reflexivity|].
  split.
  { eexists. split; [reflexivity|]. discriminate. }
  split; [reflexivity|].
  eexists. eexists.
  repeat split; reflexivity.
Qed.

(** *** Credentials *)

(** C9: [credentials_from_base64_env] and [create_gsc_service_obj] give the
    same result, with the same calls, whatever is passed as [base64_key]:
    both read the module-level [gsc_base64_key] only. *)
Theorem base64_key_argument_ignored
        (w : World) (key1 key2 : pyval) (scopes : list string) (t : trace) :
  credentials_from_base64_env w key1 scopes t = credentials_from_base64_env w key2 scopes t
  /\ create_gsc_service_obj w key1 t = create_gsc_service_obj w key2 t.
Proof. split; reflexivity. Qed.

(** The key that is decoded is the one of the environment. *)
Lemma credentials_come_from_environment
      (w : World) (key : pyval) (scopes : list string) (t t' : trace) (c : credentials) :
  credentials_from_base64_env w key scopes t = (Return c, t') ->
  exists k bytes text info,
    getenv w "SEARCH_CONSOLE_KEY" = Some k
    /\ b64decode w k = Return bytes
    /\ utf8_decode w bytes = Return text
    /\ Json.loads text = Return info
    /\ c = Credentials info scopes.
Proof.
  unfold credentials_from_base64_env, gsc_base64_key.
  destruct (getenv w "SEARCH_CONSOLE_KEY") as [k|]; [|discriminate].
  destruct (negb (Py.truthy (PStr k))); [discriminate|].
  unfold bind, lift, from_service_account_info, ret, raise.
  destruct (b64decode w k) as [bytes|] eqn:Hb; [|discriminate].
  destruct (utf8_decode w bytes) as [text|] eqn:Hu; [|discriminate].
  destruct (Json.loads text) as [info|] eqn:Hj; [|discriminate].
  destruct (service_account_info w info scopes); [discriminate|].
  intros [= <- <-]. exists k, bytes, text, info. repeat split; assumption.
Qed.

(** *** Cleaning the model's output *)

Lemma clean_query_str (s : string) :
  clean_query (PStr s) = Return (Text.replace "```" "" s).
Proof. reflexivity. Qed.

Lemma clean_query_fenced (body : string) :
  clean_query (PStr ("```json" ++ body)) = Return ("json" ++ Text.replace "```" "" body).
Proof. reflexivity. Qed.

Lemma loads_json_word (rest : string) :
  Json.loads ("json" ++ rest)
  = Raise (JSONDecodeError "Expecting value: line 1 column 1 (char 0)").
Proof. reflexivity. Qed.

(** C3 fails on the code: of a model output that opens with the [```json]
    fence, [clean_query] removes the three backquotes and leaves the word
    [json]; the cleaned text never parses. *)
Theorem fenced_output_does_not_parse (body : string) :
  obind (clean_query (PStr ("```json" ++ body))) Json.loads
  = Raise (JSONDecodeError "Expecting value: line 1 column 1 (char 0)").
Proof.
  rewrite clean_query_fenced. apply loads_json_word.
Qed.

(** *** Tool calls *)

Section ToolCalls.

Variable w : World.

(** What [handle_tool_call] does once the tool name has been accepted. *)
Definition call_tool (arguments : pyval) : M pyval :=
  bind
    (try_except
       (bind (get_search_console_data w arguments) (fun result => ret (inr result)))
       (fun e =>
          ret (inl (tool_error ("Tool error (search_console_query): " ++ Py.str_exn e)))))
    (fun attempt =>
       match attempt with
       | inl error_result => ret error_result
       | inr result =>
           bind (lift (Py.get result "api_response" (PStr ""))) (fun text_value =>
           ret (PDict [("content",
                        PList [text_block (if Py.is_str text_value then text_value
                                           else PStr (Json.dumps text_value))])]))
       end).

(** [call_tool] in terms of what [get_search_console_data] does. *)
Lemma call_tool_result (arguments : pyval) (t t' : trace) (o : outcome pyval) :
  get_search_console_data w arguments t = (o, t') ->
  call_tool arguments t
  = match o with
    | Return result =>
        (match Py.get result "api_response" (PStr "") with
         | Return text_value =>
             Return (PDict [("content",
                             PList [text_block (if Py.is_str text_value then text_value
                                                else PStr (Json.dumps text_value))])])
         | Raise e => Raise e
         end, t')
    | Raise e =>
        (Return (tool_error ("Tool error (search_console_query): " ++ Py.str_exn e)), t')
    end.
Proof.
  intros H. unfold call_tool, bind, try_except. rewrite H.
  destruct o as [result|e]; [|reflexivity].
  cbn. destruct (Py.get result "api_response" (PStr "")); reflexivity.
Qed.

(** The three ways a call on a [dict] of parameters can go. *)
Lemma handle_tool_call_cases (d : list (string * pyval)) (t : trace) :
  handle_tool_call w (PDict d) t =
  match decoded_arguments d with
  | None =>
      (Return (tool_error "Invalid arguments: expected object or JSON string."), t)
  | Some arguments =>
      if Py.ne_str (tool_name_of d) "search_console_query"
      then (Return (tool_error ("Tool not found: " ++ Py.str (tool_name_of d))), t)
      else call_tool arguments t
  end.
Proof.
  unfold handle_tool_call, decoded_arguments, arguments_of, tool_name_of.
  unfold bind at 1. unfold lift at 1. cbn [Py.get].
  unfold bind at 1. unfold lift at 1. cbn [Py.get].
  destruct (Py.lookup d "arguments") as [a|].
  - destruct a; try (destruct (Py.ne_str _ _); reflexivity).
    destruct (Json.loads s); [|reflexivity].
    destruct (Py.ne_str _ _); reflexivity.
  - destruct (Py.ne_str _ _); reflexivity.
Qed.

(** A call on anything but a [dict] raises at the first [params.get]. *)
Lemma handle_tool_call_not_dict (params : pyval) (t : trace) :
  (forall d, params <> PDict d) ->
  handle_tool_call w params t
  = (Raise (AttributeError
              (Py.quoted (Py.type_name params) ++ " object has no attribute 'get'")), t).
Proof.
  intros H. destruct params; try reflexivity. exfalso. apply (H d). reflexivity.
Qed.

Lemma unknown_tool (d : list (string * pyval)) (t : trace) :
  decoded_arguments d <> None ->
  Py.ne_str (tool_name_of d) "search_console_query" = true ->
  handle_tool_call w (PDict d) t
  = (Return (tool_error ("Tool not found: " ++ Py.str (tool_name_of d))), t).
Proof.
  intros Hdec Hname. rewrite handle_tool_call_cases.
  destruct (decoded_arguments d); [|congruence].
  rewrite Hname. reflexivity.
Qed.

(** The [query] field of the decoded arguments, when they are an object
    that has one. *)
Definition query_of (arguments : pyval) : option pyval :=
  match arguments with
  | PDict a => Py.lookup a "query"
  | _ => None
  end.

(** No usable query: the field is absent, or its value is empty. *)
Definition no_query (arguments : pyval) : Prop :=
  match query_of arguments with
  | Some q => Py.truthy q = false
  | None => True
  end.

Lemma get_search_console_data_no_query (arguments : pyval) (t : trace) :
  no_query arguments ->
  get_search_console_data w arguments t
  = (Raise (match arguments with
            | PDict _ => ValueError "query is required"
            | _ => AttributeError (Py.quoted (Py.type_name arguments)
                                     ++ " object has no attribute 'get'")
            end), t).
Proof.
  unfold no_query, query_of, get_search_console_data.
  destruct arguments; try reflexivity.
  unfold bind, lift. cbn [Py.get].
  destruct (Py.lookup d "query") as [q|].
  - intros ->. reflexivity.
  - reflexivity.
Qed.

(** The text of the error a request without a usable query gets. *)
Definition input_error_text (d : list (string * pyval)) : string :=
  match decoded_arguments d with
  | None => "Invalid arguments: expected object or JSON string."
  | Some arguments =>
      if Py.ne_str (tool_name_of d) "search_console_query"
      then "Tool not found: " ++ Py.str (tool_name_of d)
      else
        match arguments with
        | PDict _ => "Tool error (search_console_query): query is required"
        | _ => "Tool error (search_console_query): "
                 ++ Py.quoted (Py.type_name arguments) ++ " object has no attribute 'get'"
        end
  end.

Lemma call_tool_no_query (arguments : pyval) (t : trace) :
  no_query arguments ->
  call_tool arguments t
  = (Return (tool_error
               (match arguments with
                | PDict _ => "Tool error (search_console_query): query is required"
                | _ => "Tool error (search_console_query): "
                         ++ Py.quoted (Py.type_name arguments)
                         ++ " object has no attribute 'get'"
                end)), t).
Proof.
  intros H. rewrite (call_tool_result (get_search_console_data_no_query t H)).
  destruct arguments; reflexivity.
Qed.

End ToolCalls.

(** C6: a call whose tool name is not [search_console_query], with arguments
    that decode, returns exactly the error result with the text
    [Tool not found: <name>]; the trace is unchanged, so nothing of the
    pipeline has run. *)
Theorem unknown_tool_not_found
        (w : World) (d : list (string * pyval)) (name : string) (t : trace) :
  Py.lookup d "name" = Some (PStr name) ->
  name <> "search_console_query" ->
  decoded_arguments d <> None ->
  handle_tool_call w (PDict d) t
  = (Return (PDict [("isError", PBool true);
                    ("content", PList [PDict [("type", PStr "text");
                                              ("text", PStr ("Tool not found: " ++ name))]])]),
     t).
Proof.
  intros Hname Hne Hdec.
  rewrite (unknown_tool w t Hdec).
  - unfold tool_name_of. rewrite Hname. reflexivity.
  - unfold tool_name_of. rewrite Hname. cbn.
    destruct (String.eqb_spec name "search_console_query"); [contradiction|reflexivity].
Qed.

(** C5: a call whose arguments are an undecodable string, or have no
    [query] field, or an empty one, returns an error-shaped result that tells
    what is wrong with the input; nothing is raised and nothing outside the
    module is called. *)
Theorem missing_query_is_tool_error
        (w : World) (d : list (string * pyval)) (t : trace) :
  match decoded_arguments d with
  | None => True
  | Some arguments => no_query arguments
  end ->
  handle_tool_call w (PDict d) t
  = (Return (PDict [("isError", PBool true);
                    ("content", PList [PDict [("type", PStr "text");
                                              ("text", PStr (input_error_text d))]])]),
     t).
Proof.
  intros H. rewrite handle_tool_call_cases. unfold input_error_text.
  destruct (decoded_arguments d) as [arguments|]; [|reflexivity].
  destruct (Py.ne_str (tool_name_of d) "search_console_query"); [reflexivity|].
  rewrite (call_tool_no_query w t H).
  destruct arguments; reflexivity.
Qed.

(** *** The language model returns no candidates *)

Section NoCandidates.

Variable w : World.

(** The request [get_search_console_data] sends for a query, when the
    clock is read for the first time. *)
Definition first_prompt : string :=
  system_prompt_text (strftime (clock w 0)) "www.yourdomain.ai" (strftime (clock w 1)).

Definition first_payload (query : pyval) : pyval :=
  gemini_payload first_prompt (Py.str query).

(** The decoded response has no [candidates], or an empty list of them. *)
Definition no_candidates (response : pyval) : Prop :=
  exists r,
    response = PDict r
    /\ (Py.lookup r "candidates" = None \/ Py.lookup r "candidates" = Some (PList [])).

Lemma no_candidates_found (response : pyval) :
  no_candidates response -> has_candidates response = Return false.
Proof.
  intros (r & -> & [H|H]); unfold has_candidates; cbn;
    unfold Py.has_key, Py.getkey; cbn; rewrite H; reflexivity.
Qed.

Lemma gsc_system_prompt_first :
  gsc_system_prompt w [Getenv "GEMINI_API_KEY"]
  = (Return first_prompt, [Getenv "GEMINI_API_KEY"; Now; Now]).
Proof. reflexivity. Qed.

Definition no_results (query : pyval) : pyval :=
  PDict [("api_query", PStr "No results generated from Gemini API");
         ("query", query);
         ("status", PStr "no_results")].

Lemma get_search_console_data_no_candidates
      (a : list (string * pyval)) (query : pyval) (key : string) (response : pyval) :
  Py.lookup a "query" = Some query ->
  Py.truthy query = true ->
  getenv w "GEMINI_API_KEY" = Some key ->
  key <> "" ->
  http_post_json w (gemini_url key) (first_payload query) 30 = inr response ->
  no_candidates response ->
  run (get_search_console_data w (PDict a))
  = (Return (no_results query),
     [Getenv "GEMINI_API_KEY"; Now; Now;
      HttpPost (gemini_url key) (first_payload query) 30]).
Proof.
  intros Hq Htrue Hkey Hne Hpost Hnone.
  assert (Ht : Py.truthy (PStr key) = true).
  { cbn. destruct (String.eqb_spec key ""); [contradiction|reflexivity]. }
  unfold run, get_search_console_data.
  rewrite bind_lift. cbn [Py.get]. rewrite Hq, Htrue. cbn [negb].
  unfold os_getenv. rewrite bind_assoc, bind_emit. cbv beta. rewrite bind_ret.
  rewrite Hkey, Ht. cbn [negb app].
  rewrite (bind_result _ gsc_system_prompt_first).
  cbn [Py.str]. fold first_prompt. fold (first_payload query).
  apply try_except_result with (o := Return (no_results query)).
  unfold query_search_console, requests_post_json.
  rewrite bind_assoc, bind_emit. cbv beta. rewrite Hpost, bind_ret.
  rewrite bind_lift, (no_candidates_found Hnone).
  reflexivity.
Qed.

End NoCandidates.

(** C10: when the language model returns no candidates, the pipeline returns
    the [no_results] dict, which has no [api_response] key, and
    [handle_tool_call] turns it into a success-shaped result with an empty
    text and no [isError] flag. *)
Theorem no_candidates_empty_success
        (w : World) (d a : list (string * pyval)) (query : pyval) (key : string)
        (response : pyval) :
  Py.lookup d "name" = Some (PStr "search_console_query") ->
  decoded_arguments d = Some (PDict a) ->
  Py.lookup a "query" = Some query ->
  Py.truthy query = true ->
  getenv w "GEMINI_API_KEY" = Some key ->
  key <> "" ->
  http_post_json w (gemini_url key) (first_payload w query) 30 = inr response ->
  no_candidates response ->
  result (get_search_console_data w (PDict a))
  = Return (PDict [("api_query", PStr "No results generated from Gemini API");
                   ("query", query);
                   ("status", PStr "no_results")])
  /\ Py.getkey (no_results query) "status" = Return (PStr "no_results")
  /\ Py.has_key [("api_query", PStr "No results generated from Gemini API");
                 ("query", query);
                 ("status", PStr "no_results")] "api_response" = false
  /\ result (handle_tool_call w (PDict d))
     = Return (PDict [("content", PList [PDict [("type", PStr "text");
                                                ("text", PStr "")]])])
  /\ Py.has_key [("content", PList [PDict [("type", PStr "text"); ("text", PStr "")]])]
                "isError" = false.
Proof.
  intros Hname Hdec Hq Htrue Hkey Hne Hpost Hnone.
  pose proof (get_search_console_data_no_candidates Hq Htrue Hkey Hne Hpost Hnone) as Hrun.
  repeat split.
  - unfold result. rewrite Hrun. reflexivity.
  - unfold result, run. rewrite handle_tool_call_cases, Hdec.
    unfold tool_name_of. rewrite Hname. cbn [Py.ne_str String.eqb Ascii.eqb Bool.eqb negb].
    unfold run in Hrun. rewrite (call_tool_result Hrun). reflexivity.
Qed.

(** *** Integers as floats *)

Section Conversion.

Lemma digits2_iter_xO (p k : positive) :
  digits2_pos (Pos.iter xO p k) = (digits2_pos p + k)%positive.
Proof.
  induction k using Pos.peano_ind.
  - simpl. lia.
  - rewrite Pos.iter_succ. simpl. rewrite IHk. lia.
Qed.

Lemma digits2_size (p : positive) : digits2_pos p = Pos.size p.
Proof. induction p; simpl; rewrite ?IHp; reflexivity. Qed.

Lemma digits2_bound (p : positive) : Zpos p < 2 ^ 53 -> Zpos (digits2_pos p) <= 53.
Proof.
  intros H. rewrite digits2_size.
  pose proof (Pos.size_le p) as Hle.
  destruct (Z.le_gt_cases (Zpos (Pos.size p)) 53) as [|Hgt]; [assumption|exfalso].
  assert (2 ^ 54 <= 2 ^ Zpos (Pos.size p)) by (apply Z.pow_le_mono_r; lia).
  assert (Zpos (2 ^ Pos.size p) = 2 ^ Zpos (Pos.size p))
    by (rewrite Pos2Z.inj_pow; reflexivity).
  assert (Zpos (2 ^ Pos.size p) <= Zpos (p~0)) by (apply Pos2Z.pos_le_pos; exact Hle).
  lia.
Qed.

(** A mantissa that already has its exponent is kept as it is. *)
Lemma binary_round_aux_canonical (s : bool) (m : positive) (e : Z) :
  fexp prec emax (Zpos (digits2_pos m) + e) = e ->
  e <= emax - prec ->
  binary_round_aux prec emax s (Zpos m) e loc_Exact = S754_finite s m e.
Proof.
  intros Hc Hb.
  unfold binary_round_aux, shr_fexp. cbn [Zdigits2 shr_record_of_loc].
  rewrite Hc, Z.sub_diag. cbn [shr shr_m loc_of_shr_record round_nearest_even Zdigits2].
  rewrite Hc, Z.sub_diag. cbn [shr shr_m].
  apply Z.leb_le in Hb. rewrite Hb. reflexivity.
Qed.

(** An integer below [2^53] is a double: the conversion is finite. *)
Lemma binary_round_small (s : bool) (p : positive) :
  Zpos p < 2 ^ 53 ->
  exists m e, binary_round prec emax s p 0 = S754_finite s m e.
Proof.
  intros Hp. pose proof (digits2_bound Hp) as Hd.
  unfold binary_round, shl_align.
  set (e1 := fexp prec emax (Zpos (digits2_pos p) + 0)).
  assert (He1 : e1 = Zpos (digits2_pos p) - 53).
  { unfold e1, fexp, emin, prec, emax. lia. }
  destruct (e1 - 0) as [|k|k] eqn:Hk.
  - exists p, 0. apply binary_round_aux_canonical.
    + fold e1. lia.
    + unfold emax, prec. lia.
  - lia.
  - exists (Pos.iter xO p k), e1. apply binary_round_aux_canonical.
    + rewrite digits2_iter_xO. unfold fexp, emin, prec, emax. lia.
    + unfold emax, prec. lia.
Qed.

(** [float(n)] for a count [n]. *)
Definition float_of_count (n : nat) : float :=
  SF2Prim (binary_normalize prec emax (Z.of_nat n) 0 false).

Lemma of_int_count (n : nat) :
  Z.of_nat n < 2 ^ 53 ->
  PyFloat.of_int (Z.of_nat n) = Return (float_of_count n).
Proof.
  intros Hn. unfold PyFloat.of_int, float_of_count.
  destruct (Z.of_nat n) as [|p|p] eqn:Hz.
  - reflexivity.
  - cbn [binary_normalize].
    destruct (binary_round_small false Hn) as (m & e & ->). reflexivity.
  - lia.
Qed.

Lemma of_int_0 : PyFloat.of_int 0 = Return 0%float.
Proof. reflexivity. Qed.

Lemma of_int_100 : PyFloat.of_int 100 = Return 100%float.
Proof. reflexivity. Qed.

End Conversion.

(** *** The rounding error of double arithmetic

    SpecFloat gives the operations of binary64 as functions on mantissas and
    exponents.  What follows relates their results to the exact rational
    values: one rounding moves a value by at most half a unit in the last
    place. *)

Section Digits.

Lemma digits2_pos_bounds (p : positive) :
  2 ^ (Zpos (digits2_pos p) - 1) <= Zpos p < 2 ^ Zpos (digits2_pos p).
Proof.
  induction p as [p IH|p IH|]; cbn [digits2_pos].
  - rewrite Pos2Z.inj_succ, (Pos2Z.inj_xI p).
    replace (Z.succ (Zpos (digits2_pos p)) - 1) with (Z.succ (Zpos (digits2_pos p) - 1)) by lia.
    rewrite !Z.pow_succ_r by lia.
    set (a := 2 ^ (Zpos (digits2_pos p) - 1)) in *.
    set (b := 2 ^ Zpos (digits2_pos p)) in *. clearbody a b. lia.
  - rewrite Pos2Z.inj_succ, (Pos2Z.inj_xO p).
    replace (Z.succ (Zpos (digits2_pos p)) - 1) with (Z.succ (Zpos (digits2_pos p) - 1)) by lia.
    rewrite !Z.pow_succ_r by lia.
    set (a := 2 ^ (Zpos (digits2_pos p) - 1)) in *.
    set (b := 2 ^ Zpos (digits2_pos p)) in *. clearbody a b. lia.
  - cbn. lia.
Qed.

Lemma Zdigits2_bounds (m : Z) :
  0 < m -> 2 ^ (Zdigits2 m - 1) <= m < 2 ^ Zdigits2 m /\ 0 < Zdigits2 m.
Proof.
  destruct m as [|p|p]; try lia. intros _. cbn [Zdigits2].
  split; [apply digits2_pos_bounds|lia].
Qed.

Lemma Zdigits2_unique (m d : Z) :
  0 < m -> 2 ^ (d - 1) <= m < 2 ^ d -> Zdigits2 m = d.
Proof.
  intros Hm [Hlo Hhi]. destruct (Zdigits2_bounds Hm) as [[Hlo' Hhi'] Hpos].
  assert (Hd : 0 < d).
  { destruct (Z.lt_trichotomy d 0) as [H|[H|H]]; [|subst; cbn in Hhi; lia|assumption].
    rewrite Z.pow_neg_r in Hhi by assumption. lia. }
  destruct (Z.lt_trichotomy (Zdigits2 m) d) as [H|[H|H]]; [|assumption|].
  - assert (2 ^ Zdigits2 m <= 2 ^ (d - 1)) by (apply Z.pow_le_mono_r; lia). lia.
  - assert (2 ^ d <= 2 ^ (Zdigits2 m - 1)) by (apply Z.pow_le_mono_r; lia). lia.
Qed.

Lemma Zdigits2_nonneg (m : Z) : 0 <= Zdigits2 m.
Proof. destruct m; cbn; lia. Qed.

Lemma Zdigits2_le (a b : Z) : 0 <= a <= b -> Zdigits2 a <= Zdigits2 b.
Proof.
  intros [Ha Hab]. destruct (Z.eq_dec a 0) as [->|Hne]; [apply Zdigits2_nonneg|].
  assert (Ha' : 0 < a) by lia. assert (Hb' : 0 < b) by lia.
  destruct (Zdigits2_bounds Ha') as [[Hlo _] _].
  destruct (Zdigits2_bounds Hb') as [[_ Hhi] _].
  destruct (Z.le_gt_cases (Zdigits2 a) (Zdigits2 b)) as [|Hgt]; [assumption|].
  assert (2 ^ Zdigits2 b <= 2 ^ (Zdigits2 a - 1))
    by (apply Z.pow_le_mono_r; [lia|]; pose proof (@Zdigits2_nonneg b); lia).
  lia.
Qed.

End Digits.


(** The value [N / D] lies in the interval of [m], at the place [l] says. *)
Definition loc_ok (N D m : Z) (l : location) : Prop :=
  match l with
  | loc_Exact => N = m * D
  | loc_Inexact c => m * D < N < (m + 1) * D /\ (2 * N ?= (2 * m + 1) * D) = c
  end.

Definition rec_ok (N D : Z) (mrs : shr_record) : Prop :=
  0 <= shr_m mrs /\ loc_ok N D (shr_m mrs) (loc_of_shr_record mrs).

Lemma cmp_lt (a b : Z) : (a ?= b) = Lt -> a < b.
Proof. intro H; exact H. Qed.

Lemma cmp_gt (a b : Z) : (a ?= b) = Gt -> b < a.
Proof. apply Z.compare_gt_iff. Qed.

Lemma lt_cmp (a b : Z) : a < b -> (a ?= b) = Lt.
Proof. intro H; exact H. Qed.

Lemma gt_cmp (a b : Z) : b < a -> (a ?= b) = Gt.
Proof. apply Z.compare_gt_iff. Qed.

Ltac cmp_facts :=
  repeat match goal with
         | H : (_ ?= _) = Lt |- _ => apply cmp_lt in H
         | H : (_ ?= _) = Gt |- _ => apply cmp_gt in H
         | H : (_ ?= _) = Eq |- _ => apply Z.compare_eq in H
         | |- (_ ?= _) = Lt => apply lt_cmp
         | |- (_ ?= _) = Gt => apply gt_cmp
         | |- (_ ?= _) = Eq => apply Z.compare_eq_iff
         end.

Lemma shr_1_ok (N D : Z) (mrs : shr_record) :
  0 < D -> rec_ok N D mrs ->
  rec_ok N (2 * D) (shr_1 mrs)
  /\ 2 * shr_m (shr_1 mrs) <= shr_m mrs < 2 * (shr_m (shr_1 mrs) + 1).
Proof.
  intros HD [Hm Hl]. destruct mrs as [m r s]. cbn [shr_m] in *. unfold rec_ok.
  destruct m as [|[p|p|]|p]; [| | | |lia];
    destruct r, s; cbn [shr_1 shr_m loc_of_shr_record loc_ok orb] in *;
    rewrite ?(Pos2Z.inj_xI p), ?(Pos2Z.inj_xO p) in *;
    try match type of Hl with _ /\ _ => destruct Hl as [Hl Hc] end; cmp_facts;
    repeat split; cmp_facts; try lia.
Qed.

Lemma iter_shr_1_ok (n : positive) : forall (N D : Z) (mrs : shr_record),
  0 < D -> rec_ok N D mrs ->
  rec_ok N (2 ^ Zpos n * D) (iter_pos shr_1 n mrs)
  /\ 2 ^ Zpos n * shr_m (iter_pos shr_1 n mrs) <= shr_m mrs
     < 2 ^ Zpos n * (shr_m (iter_pos shr_1 n mrs) + 1).
Proof.
  induction n as [n IH|n IH|]; intros N D mrs HD Hok; cbn [iter_pos].
  - destruct (shr_1_ok HD Hok) as [H1 B1].
    assert (HP : 0 < 2 ^ Zpos n) by (apply Z.pow_pos_nonneg; lia).
    destruct (IH N (2 * D) _ ltac:(lia) H1) as [H2 B2].
    destruct (IH N (2 ^ Zpos n * (2 * D)) _ ltac:(nia) H2) as [H3 B3].
    replace (2 ^ Zpos n~1) with (2 ^ Zpos n * (2 ^ Zpos n * 2)).
    2:{ rewrite (Pos2Z.inj_xI n), Z.pow_add_r, Z.pow_twice_r by lia. cbn. ring. }
    set (P := 2 ^ Zpos n) in *. clearbody P.
    set (m3 := shr_m (iter_pos shr_1 n (iter_pos shr_1 n (shr_1 mrs)))) in *.
    set (m2 := shr_m (iter_pos shr_1 n (shr_1 mrs))) in *.
    set (m1 := shr_m (shr_1 mrs)) in *.
    split.
    + replace (P * (P * 2) * D) with (P * (P * (2 * D))) by ring. exact H3.
    + clearbody m1 m2 m3. nia.
  - assert (HP : 0 < 2 ^ Zpos n) by (apply Z.pow_pos_nonneg; lia).
    destruct (IH N D _ HD Hok) as [H2 B2].
    destruct (IH N (2 ^ Zpos n * D) _ ltac:(nia) H2) as [H3 B3].
    replace (2 ^ Zpos n~0) with (2 ^ Zpos n * 2 ^ Zpos n).
    2:{ rewrite (Pos2Z.inj_xO n), Z.pow_twice_r by lia. reflexivity. }
    set (P := 2 ^ Zpos n) in *. clearbody P.
    set (m3 := shr_m (iter_pos shr_1 n (iter_pos shr_1 n mrs))) in *.
    set (m2 := shr_m (iter_pos shr_1 n mrs)) in *.
    split.
    + replace (P * P * D) with (P * (P * D)) by ring. exact H3.
    + clearbody m2 m3. nia.
  - destruct (shr_1_ok HD Hok) as [H1 B1]. change (2 ^ 1) with 2. split; assumption.
Qed.

Lemma shr_ok (N D : Z) (mrs : shr_record) (e n : Z) :
  0 < D -> rec_ok N D mrs -> 0 <= n ->
  snd (shr mrs e n) = e + n
  /\ rec_ok N (2 ^ n * D) (fst (shr mrs e n))
  /\ 2 ^ n * shr_m (fst (shr mrs e n)) <= shr_m mrs
     < 2 ^ n * (shr_m (fst (shr mrs e n)) + 1).
Proof.
  intros HD Hok Hn. destruct n as [|p|p]; [| |lia]; cbn [shr fst snd].
  - change (2 ^ 0) with 1. rewrite Z.add_0_r, !Z.mul_1_l. repeat split; try lia; apply Hok.
  - split; [reflexivity|]. apply iter_shr_1_ok; assumption.
Qed.

Lemma shr_record_of_loc_m (m : Z) (l : location) : shr_m (shr_record_of_loc m l) = m.
Proof. destruct l as [|[]]; reflexivity. Qed.

Lemma loc_of_shr_record_of_loc (m : Z) (l : location) :
  loc_of_shr_record (shr_record_of_loc m l) = l.
Proof. destruct l as [|[]]; reflexivity. Qed.

Lemma round_ok (N D : Z) (mrs : shr_record) :
  0 < D -> rec_ok N D mrs ->
  let m := shr_m mrs in
  let k := round_nearest_even m (loc_of_shr_record mrs) in
  m <= k <= m + 1
  /\ 2 * Z.abs (k * D - N) <= D
  /\ (N = m * D -> k = m).
Proof.
  intros HD [Hm Hl]. destruct mrs as [m r s]. cbn [shr_m] in *.
  destruct r, s; cbn [loc_of_shr_record loc_ok round_nearest_even] in *;
    try match type of Hl with _ /\ _ => destruct Hl as [Hl Hc] end; cmp_facts;
    try destruct (Z.even m); repeat split; try lia; try nia.
Qed.


Section RoundAux.

Lemma fexp_max (x : Z) : fexp prec emax x = Z.max (x - 53) (-1074).
Proof. reflexivity. Qed.

(** The float [r] is [k * 2^e1], in canonical form. *)
Definition rounded (s : bool) (k e1 : Z) (r : spec_float) : Prop :=
  (k = 0 /\ r = S754_zero s)
  \/ exists m2 e2,
       r = S754_finite s m2 e2 /\ e1 <= e2 /\ Zpos m2 * 2 ^ (e2 - e1) = k
       /\ bounded prec emax m2 e2 = true.

Lemma renormalize (s : bool) (k e1 : Z) :
  0 <= k ->
  -1074 <= e1 < 971 ->
  (0 < k -> e1 <= fexp prec emax (Zdigits2 k + e1) <= e1 + 1) ->
  (0 < k -> fexp prec emax (Zdigits2 k + e1) = e1 + 1 ->
   exists j, k = 2 * j /\ Zdigits2 j = Zdigits2 k - 1 /\ 0 < j) ->
  rounded s k e1
    (let '(mrs, e2) := shr_fexp prec emax k e1 loc_Exact in
     match shr_m mrs with
     | Z0 => S754_zero s
     | Zpos m => if e2 <=? emax - prec then S754_finite s m e2 else S754_infinity s
     | Zneg _ => S754_nan
     end).
Proof.
  intros Hk He Hn Hj. unfold shr_fexp. cbn [shr_record_of_loc].
  destruct k as [|p|p]; [| |lia].
  - left. split; [reflexivity|]. cbn [Zdigits2]. rewrite fexp_max.
    destruct (Z.max (0 + e1 - 53) (-1074) - e1) as [|q|q] eqn:Hq; try reflexivity. lia.
  - right. specialize (Hn ltac:(lia)). specialize (Hj ltac:(lia)).
    destruct (Z.eq_dec (fexp prec emax (Zdigits2 (Zpos p) + e1)) e1) as [H0|H0].
    + rewrite H0, Z.sub_diag. cbn [shr shr_m].
      replace (e1 <=? emax - prec) with true by (symmetry; apply Z.leb_le; unfold emax, prec; lia).
      exists p, e1. repeat split; try lia.
      * rewrite Z.sub_diag. cbn. lia.
      * unfold bounded, canonical_mantissa. cbn [Zdigits2] in H0. rewrite H0, Z.eqb_refl.
        apply Z.leb_le. unfold emax, prec. lia.
    + assert (H1 : fexp prec emax (Zdigits2 (Zpos p) + e1) = e1 + 1) by lia.
      destruct (Hj H1) as (j & Hkj & Hdj & Hjpos).
      rewrite H1. replace (e1 + 1 - e1) with 1 by lia. cbn [shr iter_pos].
      destruct p as [q|q|]; [rewrite (Pos2Z.inj_xI q) in Hkj; lia| |lia].
      cbn [shr_1 shr_m orb].
      replace (e1 + 1 <=? emax - prec) with true
        by (symmetry; apply Z.leb_le; unfold emax, prec; lia).
      assert (Hjq : j = Zpos q) by (rewrite (Pos2Z.inj_xO q) in Hkj; lia). subst j.
      exists q, (e1 + 1). repeat split; try lia.
      * replace (e1 + 1 - e1) with 1 by lia. rewrite (Pos2Z.inj_xO q). change (2 ^ 1) with 2. lia.
      * unfold bounded, canonical_mantissa. cbn [Zdigits2] in Hdj, H1.
        rewrite Hdj. replace (Zpos (digits2_pos q~0) - 1 + (e1 + 1))
          with (Zpos (digits2_pos q~0) + e1) by lia.
        rewrite H1, Z.eqb_refl. apply Z.leb_le. unfold emax, prec. lia.
Qed.

Lemma digits_after_round (m ex m1 k : Z) :
  let e1 := fexp prec emax (Zdigits2 m + ex) in
  0 <= m -> ex <= e1 ->
  2 ^ (e1 - ex) * m1 <= m < 2 ^ (e1 - ex) * (m1 + 1) ->
  0 <= m1 -> m1 <= k <= m1 + 1 -> 0 < k ->
  e1 <= fexp prec emax (Zdigits2 k + e1) <= e1 + 1
  /\ (fexp prec emax (Zdigits2 k + e1) = e1 + 1 ->
      exists j, k = 2 * j /\ Zdigits2 j = Zdigits2 k - 1 /\ 0 < j).
Proof.
  intros e1 Hm Hex Hdiv Hm1 Hk Hkpos.
  set (n := e1 - ex) in *. assert (Hn : 0 <= n) by (unfold n; lia).
  assert (HP : 0 < 2 ^ n) by (apply Z.pow_pos_nonneg; lia).
  destruct (Z.eq_dec m1 0) as [Hz|Hnz].
  - assert (k = 1) by lia. subst k m1.
    assert (He1 : e1 = -1074).
    { destruct (Z.eq_dec m 0) as [Hm0|Hm0].
      - revert Hex. unfold e1. rewrite Hm0. cbn [Zdigits2]. rewrite fexp_max. lia.
      - assert (Hmpos : 0 < m) by lia.
        destruct (Zdigits2_bounds Hmpos) as [[Hlo Hhi] Hd].
        assert (Zdigits2 m - 1 < n).
        { destruct (Z.lt_ge_cases (Zdigits2 m - 1) n) as [|Hge]; [assumption|].
          assert (2 ^ n <= 2 ^ (Zdigits2 m - 1)) by (apply Z.pow_le_mono_r; lia). lia. }
        revert H. unfold n, e1. rewrite fexp_max. lia. }
    rewrite He1. cbn [Zdigits2 digits2_pos]. rewrite fexp_max. split; [lia|]. lia.
  - assert (Hm1pos : 0 < m1) by lia.
    assert (Hmpos : 0 < m) by nia.
    destruct (Zdigits2_bounds Hmpos) as [[Hlo Hhi] Hd].
    set (d := Zdigits2 m) in *.
    assert (Hnd : n < d).
    { destruct (Z.lt_ge_cases n d) as [|Hge]; [assumption|].
      assert (2 ^ d <= 2 ^ n) by (apply Z.pow_le_mono_r; lia). nia. }
    assert (Hsplit : 2 ^ d = 2 ^ n * 2 ^ (d - n)).
    { rewrite <- Z.pow_add_r by lia. f_equal. lia. }
    assert (Hsplit' : 2 ^ (d - 1) = 2 ^ n * 2 ^ (d - n - 1)).
    { rewrite <- Z.pow_add_r by lia. f_equal. lia. }
    assert (Hd1 : Zdigits2 m1 = d - n).
    { apply Zdigits2_unique; [assumption|]. split; nia. }
    assert (Hf1 : fexp prec emax (Zdigits2 m1 + e1) = e1).
    { rewrite Hd1. unfold e1 at 2. f_equal. unfold n. lia. }
    destruct (Zdigits2_bounds Hm1pos) as [[Hlo1 Hhi1] Hd1pos].
    set (d1 := Zdigits2 m1) in *.
    destruct (Z.lt_ge_cases k (2 ^ d1)) as [Hlt|Hge].
    + assert (Hdk : Zdigits2 k = d1) by (apply Zdigits2_unique; lia).
      rewrite Hdk, Hf1. split; [lia|]. lia.
    + assert (Hk2 : k = 2 ^ d1) by lia.
      assert (Hpow : 2 ^ (d1 + 1) = 2 * 2 ^ d1) by (rewrite Z.pow_add_r by lia; lia).
      assert (Hpow' : 2 ^ d1 = 2 * 2 ^ (d1 - 1)).
      { replace d1 with (d1 - 1 + 1) at 1 by lia. rewrite Z.pow_add_r by lia. lia. }
      assert (Hj : 0 < 2 ^ (d1 - 1)) by (apply Z.pow_pos_nonneg; lia).
      assert (Hdk : Zdigits2 k = d1 + 1).
      { apply Zdigits2_unique; [lia|]. replace (d1 + 1 - 1) with d1 by lia. lia. }
      rewrite Hdk. split.
      * revert Hf1. rewrite !fexp_max. lia.
      * intros _. exists (2 ^ (d1 - 1)). repeat split; try lia.
        replace (d1 + 1 - 1) with d1 by lia. apply Zdigits2_unique; lia.
Qed.

Lemma round_aux_spec (s : bool) (m ex : Z) (lx : location) (N D : Z) :
  0 <= m -> 0 < D -> loc_ok N D m lx ->
  let e1 := fexp prec emax (Zdigits2 m + ex) in
  ex <= e1 -> e1 < 971 ->
  exists k,
    0 <= k
    /\ 2 * Z.abs (k * (2 ^ (e1 - ex) * D) - N) <= 2 ^ (e1 - ex) * D
    /\ (N = m * D -> e1 = ex -> k = m)
    /\ (e1 = -1074 \/ 2 ^ 52 * (2 ^ (e1 - ex) * D) <= N)
    /\ rounded s k e1 (binary_round_aux prec emax s m ex lx).
Proof.
  intros Hm HD Hloc e1 Hex He1.
  assert (Hemin : -1074 <= e1) by (unfold e1; rewrite fexp_max; lia).
  unfold binary_round_aux. unfold shr_fexp at 1. fold e1.
  assert (Hrec : rec_ok N D (shr_record_of_loc m lx)).
  { split; [rewrite shr_record_of_loc_m; exact Hm|].
    rewrite shr_record_of_loc_m, loc_of_shr_record_of_loc. exact Hloc. }
  destruct (@shr_ok N D (shr_record_of_loc m lx) ex (e1 - ex) HD Hrec ltac:(lia))
    as (He' & Hrec' & Hdiv).
  destruct (shr (shr_record_of_loc m lx) ex (e1 - ex)) as [mrs' e'].
  cbn [fst snd] in He', Hrec', Hdiv. rewrite shr_record_of_loc_m in Hdiv.
  assert (He'e1 : e' = e1) by lia. clear He'. subst e'.
  set (P := 2 ^ (e1 - ex)) in *.
  assert (HP : 0 < P) by (apply Z.pow_pos_nonneg; lia).
  assert (HPD : 0 < P * D) by nia.
  destruct (round_ok HPD Hrec') as (Hk1 & Herr & Hexact).
  set (k := round_nearest_even (shr_m mrs') (loc_of_shr_record mrs')) in *.
  assert (Hm1 : 0 <= shr_m mrs') by apply Hrec'.
  clearbody k. destruct Hrec' as [_ Hloc'].
  set (m1 := shr_m mrs') in *. clearbody m1.
  exists k. split; [lia|]. split; [exact Herr|].
  assert (Hge : m * D <= N).
  { destruct lx; cbn [loc_ok] in Hloc; [lia|]. lia. }
  split; [|split].
  - intros HN He. assert (P = 1) by (unfold P; rewrite He, Z.sub_diag; reflexivity).
    assert (m1 = m) by nia. subst m1. apply Hexact. nia.
  - destruct (Z.eq_dec e1 (-1074)) as [|Hne]; [left; assumption|right].
    assert (Hmpos : 0 < m).
    { destruct (Z.eq_dec m 0) as [->|]; [|lia]. exfalso. revert Hex Hne. unfold e1.
      cbn [Zdigits2]. rewrite fexp_max. lia. }
    destruct (Zdigits2_bounds Hmpos) as [[Hlo Hhi] Hd].
    assert (He1d : e1 = Zdigits2 m + ex - 53) by (revert Hne; unfold e1; rewrite fexp_max; lia).
    assert (HPd : 2 ^ 52 * P = 2 ^ (Zdigits2 m - 1)).
    { unfold P. rewrite <- Z.pow_add_r by lia. f_equal. lia. }
    nia.
  - apply renormalize; try lia.
    + intros Hkpos. apply (@digits_after_round m ex m1 k); assumption || lia.
    + intros Hkpos. apply (@digits_after_round m ex m1 k); assumption || lia.
Qed.

End RoundAux.

(** ** The value of a double, and the error of one rounding *)

Definition SFvalue (x : spec_float) : Q :=
  match x with
  | S754_finite s m e =>
      ((if s then - inject_Z (Zpos m) else inject_Z (Zpos m)) * 2 ^ e)%Q
  | _ => 0%Q
  end.

Definition nonneg_sf (x : spec_float) : Prop :=
  match x with
  | S754_zero s | S754_finite s _ _ => s = false
  | _ => False
  end.

(** Half an ulp of a normal number, relative to it, and half the smallest
    positive double. *)
Definition u53 : Q := 1 # (2 ^ 53).
Definition eta : Q := 1 # (2 ^ 1075).

Section Bridge.

Local Open Scope Q_scope.

Lemma pow2_pos (e : Z) : 0 < 2 ^ e.
Proof. apply Qpower_0_lt. reflexivity. Qed.

Lemma pow2_split (a b : Z) : 2 ^ (a + b) == 2 ^ a * 2 ^ b.
Proof. apply Qpower_plus. intros H. discriminate H. Qed.

Lemma inject_pow2 (n : Z) : (0 <= n)%Z -> inject_Z (2 ^ n) == 2 ^ n.
Proof. intros H. rewrite Zpower_Qpower by assumption. reflexivity. Qed.

Lemma rounded_value (k e1 : Z) (r : spec_float) :
  rounded false k e1 r ->
  SFvalue r == inject_Z k * 2 ^ e1 /\ nonneg_sf r /\ valid_binary r = true.
Proof.
  intros [[-> ->]|(m2 & e2 & -> & He & Hk & Hb)].
  - cbn. split; [ring|]. split; reflexivity.
  - cbn [SFvalue nonneg_sf valid_binary]. split; [|split; [reflexivity|exact Hb]].
    rewrite <- Hk, inject_Z_mult, inject_pow2 by lia.
    replace e2 with (e2 - e1 + e1)%Z at 1 by lia. rewrite pow2_split. ring.
Qed.

Lemma Qabs_scaled (a : Z) (d t : Q) :
  0 < d -> 0 < t ->
  Qabs (inject_Z a / d * t) == inject_Z (Z.abs a) / d * t.
Proof.
  intros Hd Ht. unfold Qdiv. rewrite !Qabs_Qmult, Qabs_Qinv.
  rewrite (Qabs_pos d) by (apply Qlt_le_weak; exact Hd).
  rewrite (Qabs_pos t) by (apply Qlt_le_weak; exact Ht).
  reflexivity.
Qed.

Lemma scaled_le (a b d t : Q) :
  0 < d -> 0 < t -> a <= b * d -> a / d * t <= b * t.
Proof.
  intros Hd Ht H. apply Qmult_le_compat_r; [|apply Qlt_le_weak; exact Ht].
  apply Qle_shift_div_r; assumption.
Qed.

Lemma scaled_ge (a b d t : Q) :
  0 < d -> 0 < t -> b * d <= a -> b * t <= a / d * t.
Proof.
  intros Hd Ht H. apply Qmult_le_compat_r; [|apply Qlt_le_weak; exact Ht].
  apply Qle_shift_div_l; assumption.
Qed.

Lemma half_u53 : inject_Z (2 ^ 52) * u53 == 1 # 2.
Proof. reflexivity. Qed.

Lemma half_min : 2 ^ (-1074) * (1 # 2) == eta.
Proof. vm_compute. reflexivity. Qed.

Lemma round_aux_Q (m ex : Z) (lx : location) (N D : Z) :
  (0 <= m)%Z -> (0 < D)%Z -> loc_ok N D m lx ->
  (ex <= fexp prec emax (Zdigits2 m + ex))%Z ->
  (fexp prec emax (Zdigits2 m + ex) < 971)%Z ->
  let e1 := fexp prec emax (Zdigits2 m + ex) in
  let x := inject_Z N / inject_Z D * 2 ^ ex in
  let r := binary_round_aux prec emax false m ex lx in
  nonneg_sf r /\ valid_binary r = true
  /\ (N = (m * D)%Z -> e1 = ex -> SFvalue r == x)
  /\ (Qabs (SFvalue r - x) <= x * u53
      \/ (e1 = (-1074)%Z /\ Qabs (SFvalue r - x) <= eta)).
Proof.
  intros Hm HD Hloc Hex He1 e1 x r.
  destruct (@round_aux_spec false m ex lx N D Hm HD Hloc Hex He1)
    as (k & Hk & Herr & Hexact & Hrel & Hr).
  fold e1 in Herr, Hexact, Hrel, Hr. fold r in Hr.
  destruct (rounded_value Hr) as (HV & Hnn & Hvalid).
  split; [exact Hnn|]. split; [exact Hvalid|].
  set (P := (2 ^ (e1 - ex))%Z) in *.
  assert (HPpos : (0 < P)%Z) by (apply Z.pow_pos_nonneg; lia).
  assert (Hd : 0 < inject_Z D) by (change 0 with (inject_Z 0); rewrite <- Zlt_Qlt; exact HD).
  assert (Ht : 0 < 2 ^ ex) by apply pow2_pos.
  assert (HPt : inject_Z P * 2 ^ ex == 2 ^ e1).
  { unfold P. rewrite inject_pow2 by lia. rewrite <- pow2_split.
    replace (e1 - ex + ex)%Z with e1 by lia. reflexivity. }
  assert (Hdiff : SFvalue r - x == inject_Z (k * (P * D) - N) / inject_Z D * 2 ^ ex).
  { rewrite HV, <- HPt. unfold x. unfold Zminus.
    rewrite inject_Z_plus, inject_Z_opp, !inject_Z_mult.
    field. intros H0. rewrite H0 in Hd. discriminate Hd. }
  assert (Hhalf : Qabs (SFvalue r - x) <= inject_Z P * (1 # 2) * 2 ^ ex).
  { rewrite Hdiff, Qabs_scaled by assumption. apply scaled_le; try assumption.
    apply Qmult_lt_0_le_reg_r with (z := 2); [reflexivity|].
    setoid_replace (inject_Z P * (1 # 2) * inject_Z D * 2) with (inject_Z (P * D))
      by (rewrite inject_Z_mult; field).
    setoid_replace (inject_Z (Z.abs (k * (P * D) - N)) * 2)
      with (inject_Z (2 * Z.abs (k * (P * D) - N)))
      by (rewrite inject_Z_mult; ring).
    rewrite <- Zle_Qle. exact Herr. }
  split.
  - intros HN He. assert (Hz : SFvalue r - x == 0); [|lra].
    rewrite Hdiff.
    rewrite (Hexact HN He), HN.
    assert (HP1 : P = 1%Z) by (unfold P; rewrite He, Z.sub_diag; reflexivity).
    rewrite HP1. replace (m * (1 * D) - m * D)%Z with 0%Z by lia.
    unfold Qdiv. ring.
  - destruct Hrel as [Hmin|Hrel].
    + right. split; [exact Hmin|].
      eapply Qle_trans; [exact Hhalf|].
      setoid_replace (inject_Z P * (1 # 2) * 2 ^ ex) with (2 ^ e1 * (1 # 2))
        by (rewrite <- HPt; ring).
      rewrite Hmin, half_min. apply Qle_refl.
    + left. eapply Qle_trans; [exact Hhalf|].
      unfold x. 
      setoid_replace (inject_Z N / inject_Z D * 2 ^ ex * u53)
        with (inject_Z N * u53 / inject_Z D * 2 ^ ex)
        by (field; intros H0; rewrite H0 in Hd; discriminate Hd).
      apply scaled_ge; try assumption.
      setoid_replace (inject_Z P * (1 # 2) * inject_Z D)
        with (inject_Z (2 ^ 52 * (P * D)) * u53).
      2:{ rewrite !inject_Z_mult.
          setoid_replace (inject_Z (2 ^ 52) * (inject_Z P * inject_Z D) * u53)
            with (inject_Z (2 ^ 52) * u53 * (inject_Z P * inject_Z D)) by ring.
          rewrite half_u53. ring. }
      apply Qmult_le_compat_r; [|discriminate].
      rewrite <- Zle_Qle. exact Hrel.
Qed.

End Bridge.

Section Operations.

Local Open Scope Q_scope.

Lemma iter_xO_value (p k : positive) :
  Zpos (Pos.iter xO p k) = (Zpos p * 2 ^ Zpos k)%Z.
Proof.
  induction k using Pos.peano_ind.
  - cbn [Pos.iter]. rewrite (Pos2Z.inj_xO p). change (2 ^ 1)%Z with 2%Z. lia.
  - rewrite Pos.iter_succ, (Pos2Z.inj_xO (Pos.iter xO p k)), IHk, Pos2Z.inj_succ,
      Z.pow_succ_r by lia. ring.
Qed.

Lemma exact_error (v x : Q) : 0 <= x -> v == x -> Qabs (v - x) <= x * u53.
Proof.
  intros Hx Hv. setoid_replace (v - x) with 0 by lra. cbn [Qabs Z.abs].
  apply Qmult_le_0_compat; [exact Hx|discriminate].
Qed.

Lemma value_nonneg (m : positive) (e : Z) : 0 <= inject_Z (Zpos m) * 2 ^ e.
Proof.
  apply Qmult_le_0_compat; [discriminate|apply Qlt_le_weak, pow2_pos].
Qed.

(** The digits of a number bounded by a power of two. *)
Lemma digits_below (m : positive) (e b : Z) :
  inject_Z (Zpos m) * 2 ^ e <= 2 ^ b -> (Zpos (digits2_pos m) + e <= b + 1)%Z.
Proof.
  intros H. destruct (digits2_pos_bounds m) as [Hlo _].
  assert (H1 : 2 ^ (Zpos (digits2_pos m) - 1 + e) <= 2 ^ b).
  { rewrite pow2_split. eapply Qle_trans; [|exact H].
    apply Qmult_le_compat_r; [|apply Qlt_le_weak, pow2_pos].
    rewrite <- inject_pow2 by lia. rewrite <- Zle_Qle. exact Hlo. }
  apply Qpower_le_compat_l_inv in H1; [lia|reflexivity].
Qed.

Lemma round_Q (mx : positive) (ex : Z) :
  (-1074 <= ex)%Z -> (Zpos (digits2_pos mx) + ex <= 1023)%Z ->
  let x := inject_Z (Zpos mx) * 2 ^ ex in
  let r := binary_round prec emax false mx ex in
  nonneg_sf r /\ valid_binary r = true
  /\ Qabs (SFvalue r - x) <= x * u53
  /\ ((fexp prec emax (Zpos (digits2_pos mx) + ex) <= ex)%Z -> SFvalue r == x).
Proof.
  intros Hex Hd x r. unfold r, binary_round, shl_align.
  set (e1 := fexp prec emax (Zpos (digits2_pos mx) + ex)).
  assert (He1 : (e1 < 971)%Z) by (unfold e1; rewrite fexp_max; lia).
  assert (Hx : 0 <= x) by apply value_nonneg.
  destruct (e1 - ex)%Z as [|p|p] eqn:Hp.
  - destruct (@round_aux_Q (Zpos mx) ex loc_Exact (Zpos mx) 1)
      as (Hnn & Hv & Hexact & _); try lia.
    { cbn. lia. }
    { cbn [Zdigits2]. fold e1. lia. }
    { cbn [Zdigits2]. fold e1. lia. }
    cbn [Zdigits2] in Hexact. fold e1 in Hexact.
    assert (HV : SFvalue (binary_round_aux prec emax false (Zpos mx) ex loc_Exact) == x).
    { rewrite Hexact by lia. unfold x. field. }
    split; [assumption|]. split; [assumption|].
    split; [apply exact_error; assumption|intros _; exact HV].
  - destruct (@round_aux_Q (Zpos mx) ex loc_Exact (Zpos mx) 1)
      as (Hnn & Hv & _ & Herr); try lia.
    { cbn. lia. }
    { cbn [Zdigits2]. fold e1. lia. }
    { cbn [Zdigits2]. fold e1. lia. }
    cbn [Zdigits2] in Herr. fold e1 in Herr.
    assert (Hxx : inject_Z (Zpos mx) / inject_Z 1 * 2 ^ ex == x) by (unfold x; field).
    split; [assumption|]. split; [assumption|]. split; [|lia].
    destruct Herr as [Herr|[Hmin _]]; [|lia].
    rewrite Hxx in Herr. exact Herr.
  - cbn [Zdigits2].
    assert (Hdig : (Zpos (digits2_pos (Pos.iter xO mx p)) + e1
                    = Zpos (digits2_pos mx) + ex)%Z).
    { rewrite digits2_iter_xO. lia. }
    destruct (@round_aux_Q (Zpos (Pos.iter xO mx p)) e1 loc_Exact (Zpos (Pos.iter xO mx p)) 1)
      as (Hnn & Hv & Hexact & _); try lia.
    { cbn. lia. }
    { cbn [Zdigits2]. rewrite Hdig. fold e1. lia. }
    { cbn [Zdigits2]. rewrite Hdig. fold e1. lia. }
    cbn [Zdigits2] in Hexact. rewrite Hdig in Hexact. fold e1 in Hexact.
    assert (HV : SFvalue (binary_round_aux prec emax false (Zpos (Pos.iter xO mx p)) e1
                                           loc_Exact) == x).
    { assert (Hpow : 2 ^ ex == 2 ^ Zpos p * 2 ^ e1).
      { rewrite <- pow2_split. replace (Zpos p + e1)%Z with ex by lia. reflexivity. }
      rewrite Hexact by lia. unfold x. rewrite iter_xO_value, inject_Z_mult.
      rewrite inject_pow2 by lia. rewrite Hpow. field. }
    split; [assumption|]. split; [assumption|].
    split; [apply exact_error; assumption|intros _; exact HV].
Qed.

Lemma bounded_exponent (m : positive) (e : Z) :
  bounded prec emax m e = true ->
  (-1074 <= e <= 971)%Z /\ fexp prec emax (Zpos (digits2_pos m) + e) = e.
Proof.
  unfold bounded, canonical_mantissa. intros H.
  apply andb_true_iff in H. destruct H as [H1 H2].
  apply Z.eqb_eq in H1. apply Z.leb_le in H2. unfold emax, prec in H2.
  split; [|exact H1]. split; [rewrite <- H1, fexp_max; lia|lia].
Qed.

Lemma shl_align_value (mx : positive) (ex ez : Z) :
  (ez <= ex)%Z ->
  inject_Z (Zpos (fst (shl_align mx ex ez))) * 2 ^ ez == inject_Z (Zpos mx) * 2 ^ ex.
Proof.
  intros H. unfold shl_align. destruct (ez - ex)%Z as [|p|p] eqn:Hp; cbn [fst].
  - replace ez with ex by lia. reflexivity.
  - lia.
  - assert (Hpow : 2 ^ ex == 2 ^ Zpos p * 2 ^ ez).
    { rewrite <- pow2_split. replace (Zpos p + ez)%Z with ex by lia. reflexivity. }
    rewrite iter_xO_value, inject_Z_mult, inject_pow2 by lia. rewrite Hpow. ring.
Qed.

(** Addition of two non-negative doubles: the relative error is at most
    [2^-53]. *)
Lemma SFadd_Q (a b : spec_float) :
  valid_binary a = true -> valid_binary b = true ->
  nonneg_sf a -> nonneg_sf b ->
  SFvalue a + SFvalue b <= 2 ^ 1000 ->
  nonneg_sf (SFadd prec emax a b)
  /\ Qabs (SFvalue (SFadd prec emax a b) - (SFvalue a + SFvalue b))
     <= (SFvalue a + SFvalue b) * u53.
Proof.
  intros Hva Hvb Hna Hnb Hsum.
  destruct a as [sa|sa| |sa ma ea]; cbn [nonneg_sf] in Hna; try contradiction;
    destruct b as [sb|sb| |sb mb eb]; cbn [nonneg_sf] in Hnb; try contradiction.
  - subst sa sb. split; [reflexivity|].
    apply exact_error; [cbn; discriminate|]. reflexivity.
  - subst sb. cbn [SFadd]. split; [reflexivity|].
    apply exact_error; [|cbn [SFvalue]; ring].
    cbn [SFvalue]. rewrite Qplus_0_l. apply value_nonneg.
  - subst sa. cbn [SFadd]. split; [reflexivity|].
    apply exact_error; [|cbn [SFvalue]; ring].
    cbn [SFvalue]. rewrite Qplus_0_r. apply value_nonneg.
  - subst sa sb. cbn [valid_binary] in Hva, Hvb.
    destruct (bounded_exponent Hva) as [Hea _]. destruct (bounded_exponent Hvb) as [Heb _].
    cbn [SFadd cond_Zopp SFvalue] in *.
    set (ez := Z.min ea eb) in *.
    set (ma' := fst (shl_align ma ea ez)). set (mb' := fst (shl_align mb eb ez)).
    cbn [Z.add binary_normalize].
    assert (Hx : inject_Z (Zpos (ma' + mb')) * 2 ^ ez
                 == inject_Z (Zpos ma) * 2 ^ ea + inject_Z (Zpos mb) * 2 ^ eb).
    { rewrite Pos2Z.inj_add, inject_Z_plus, Qmult_plus_distr_l.
      unfold ma', mb'. rewrite !shl_align_value by (unfold ez; lia). reflexivity. }
    destruct (@round_Q (ma' + mb') ez) as (Hnn & _ & Herr & _).
    { unfold ez. lia. }
    { assert (Hd := @digits_below (ma' + mb') ez 1000). rewrite Hx in Hd.
      specialize (Hd Hsum). lia. }
    split; [exact Hnn|]. rewrite Hx in Herr. exact Herr.
Qed.

Lemma new_location_ok (N D q r : Z) :
  (0 < D)%Z -> (0 <= r < D)%Z -> N = (D * q + r)%Z ->
  loc_ok N D q (new_location D r).
Proof.
  intros HD Hr HN. unfold new_location.
  destruct (Z.even D) eqn:Hev.
  - unfold new_location_even. destruct (Z.eqb_spec r 0) as [->|Hr0]; cbn [loc_ok]; [lia|].
    split; [lia|].
    destruct (Z.compare_spec (2 * r) D); cmp_facts; lia.
  - unfold new_location_odd. destruct (Z.eqb_spec r 0) as [->|Hr0]; cbn [loc_ok]; [lia|].
    split; [lia|].
    assert (Hodd : Z.odd D = true) by (rewrite <- Z.negb_even, Hev; reflexivity).
    apply Z.odd_spec in Hodd. destruct Hodd as [c Hc].
    destruct (Z.compare_spec (2 * r + 1) D); cmp_facts; lia.
Qed.

Lemma pow2_lt_inv (a b : Z) : (0 <= b)%Z -> (2 ^ a < 2 ^ b)%Z -> (a < b)%Z.
Proof.
  intros Hb H. destruct (Z.lt_ge_cases a b) as [|Hge]; [assumption|].
  assert (2 ^ b <= 2 ^ a)%Z by (apply Z.pow_le_mono_r; lia). lia.
Qed.

(** The quotient of the division has its exponent, or is in the subnormal
    range. *)
Lemma div_digits (m1 m2 : positive) (e1 e2 q r : Z) :
  let d1 := Zpos (digits2_pos m1) in
  let d2 := Zpos (digits2_pos m2) in
  let e' := Z.min (fexp prec emax (d1 + e1 - (d2 + e2))) (e1 - e2) in
  let s := (e1 - e2 - e')%Z in
  (Zpos m1 * 2 ^ s = Zpos m2 * q + r)%Z -> (0 <= r < Zpos m2)%Z ->
  (0 <= q)%Z /\ (e' <= fexp prec emax (Zdigits2 q + e'))%Z.
Proof.
  intros d1 d2 e' s Hdiv Hr.
  assert (Hs : (0 <= s)%Z) by (unfold s, e'; lia).
  assert (HP : (0 < 2 ^ s)%Z) by (apply Z.pow_pos_nonneg; lia).
  assert (Hq : (0 <= q)%Z) by nia.
  split; [exact Hq|].
  destruct (digits2_pos_bounds m1) as [Hlo1 Hhi1]. fold d1 in Hlo1, Hhi1.
  destruct (digits2_pos_bounds m2) as [Hlo2 Hhi2]. fold d2 in Hlo2, Hhi2.
  assert (Hd1 : (0 < d1)%Z) by (unfold d1; lia).
  assert (Hd2 : (0 < d2)%Z) by (unfold d2; lia).
  assert (Hlow : (2 ^ (d1 - 1 + s) <= Zpos m1 * 2 ^ s)%Z).
  { rewrite Z.pow_add_r by lia. nia. }
  destruct (Z.eq_dec q 0) as [->|Hq0].
  - cbn [Zdigits2]. rewrite fexp_max.
    assert (H1 : (2 ^ (d1 - 1 + s) < 2 ^ d2)%Z) by lia.
    apply pow2_lt_inv in H1; [|lia].
    assert (He' : (e' <= fexp prec emax (d1 + e1 - (d2 + e2)))%Z) by (unfold e'; lia).
    rewrite fexp_max in He'. unfold s in H1. lia.
  - assert (Hqpos : (0 < q)%Z) by lia.
    destruct (Zdigits2_bounds Hqpos) as [[Hloq Hhiq] Hdq].
    set (dq := Zdigits2 q) in *.
    assert (Hdig : (d1 + s - d2 <= dq)%Z).
    { destruct (Z.le_gt_cases (d1 + s - d2) dq) as [|Hgt]; [assumption|exfalso].
      assert (H2 : (2 ^ (dq + d2) <= 2 ^ (d1 + s - 1))%Z) by (apply Z.pow_le_mono_r; lia).
      rewrite Z.pow_add_r in H2 by lia.
      replace (d1 + s - 1)%Z with (d1 - 1 + s)%Z in H2 by lia.
      assert (H3 : ((q + 1) * Zpos m2 < 2 ^ dq * 2 ^ d2)%Z) by nia.
      nia. }
    assert (He' : (e' <= fexp prec emax (d1 + e1 - (d2 + e2)))%Z) by (unfold e'; lia).
    revert He'. rewrite !fexp_max. unfold s in Hdig. lia.
Qed.

Lemma digits_below_Z (q e b : Z) :
  (0 < q)%Z -> inject_Z q * 2 ^ e <= 2 ^ b -> (Zdigits2 q + e <= b + 1)%Z.
Proof. destruct q as [|p|p]; try lia. intros _. apply digits_below. Qed.

Lemma inject_pos (p : positive) : 0 < inject_Z (Zpos p).
Proof. reflexivity. Qed.

Lemma pow2_nonzero (e : Z) : ~ 2 ^ e == 0.
Proof. intros H. pose proof (pow2_pos e) as Hp. rewrite H in Hp. discriminate Hp. Qed.

Lemma inject_nonzero (p : positive) : ~ inject_Z (Zpos p) == 0.
Proof. intros H. discriminate H. Qed.

(** Division of positive binary numbers, whatever their mantissas: the
    relative error is at most [2^-53], or the result is subnormal and the
    error at most [2^-1075]. *)
Lemma SFdiv_Q (m1 : positive) (e1 : Z) (m2 : positive) (e2 : Z) :
  let x := (inject_Z (Zpos m1) * 2 ^ e1) / (inject_Z (Zpos m2) * 2 ^ e2) in
  let r := SFdiv prec emax (S754_finite false m1 e1) (S754_finite false m2 e2) in
  x <= 2 ^ 1000 ->
  nonneg_sf r /\ valid_binary r = true /\ Qabs (SFvalue r - x) <= x * u53 + eta.
Proof.
  intros x r Hx. unfold r. cbn [SFdiv xorb]. unfold SFdiv_core_binary. cbn [Zdigits2].
  set (d1 := Zpos (digits2_pos m1)). set (d2 := Zpos (digits2_pos m2)).
  set (e' := Z.min (fexp prec emax (d1 + e1 - (d2 + e2))) (e1 - e2)).
  set (s := (e1 - e2 - e')%Z).
  assert (Hs : (0 <= s)%Z) by (unfold s, e'; lia).
  set (m' := match s with
             | 0%Z => Zpos m1
             | Zpos _ => Z.shiftl (Zpos m1) s
             | Zneg _ => 0%Z
             end).
  assert (Hm' : m' = (Zpos m1 * 2 ^ s)%Z).
  { unfold m'. destruct s as [|p|p] eqn:Hp; [cbn; lia| |lia].
    rewrite Z.shiftl_mul_pow2 by lia. reflexivity. }
  pose proof (Z_div_mod m' (Zpos m2) ltac:(reflexivity)) as Hdm.
  destruct (Z.div_eucl m' (Zpos m2)) as [q rem]. destruct Hdm as [Hdiv Hrem].
  destruct (@div_digits m1 m2 e1 e2 q rem) as [Hq Hex].
  { fold d1 d2 e' s. rewrite <- Hm'. exact Hdiv. }
  { exact Hrem. }
  fold d1 d2 e' in Hex.
  assert (Hxq : inject_Z m' / inject_Z (Zpos m2) * 2 ^ e' == x).
  { rewrite Hm', inject_Z_mult, inject_pow2 by lia. unfold x.
    assert (Hpow : 2 ^ e1 == 2 ^ s * 2 ^ e' * 2 ^ e2).
    { rewrite <- !pow2_split. replace (s + e' + e2)%Z with e1 by (unfold s; lia).
      reflexivity. }
    rewrite Hpow. field. split; [apply pow2_nonzero|apply inject_nonzero]. }
  assert (Hx0 : 0 <= x).
  { unfold x. apply Qle_shift_div_l.
    - apply Qmult_lt_0_compat; [apply inject_pos|apply pow2_pos].
    - rewrite Qmult_0_l. apply value_nonneg. }
  assert (He1 : (fexp prec emax (Zdigits2 q + e') < 971)%Z).
  { destruct (Z.eq_dec q 0) as [Hq0|Hq0].
    - revert Hex. rewrite Hq0. cbn [Zdigits2]. rewrite !fexp_max. lia.
    - assert (Hd : (Zdigits2 q + e' <= 1000 + 1)%Z).
      { apply digits_below_Z; [lia|]. eapply Qle_trans; [|exact Hx].
        rewrite <- Hxq. apply Qmult_le_compat_r; [|apply Qlt_le_weak, pow2_pos].
        apply Qle_shift_div_l; [apply inject_pos|].
        rewrite <- inject_Z_mult, <- Zle_Qle. lia. }
      rewrite fexp_max. lia. }
  destruct (@round_aux_Q q e' (new_location (Zpos m2) rem) m' (Zpos m2))
    as (Hnn & Hv & _ & Herr); try assumption; try lia.
  { apply new_location_ok; [lia|exact Hrem|exact Hdiv]. }
  split; [exact Hnn|]. split; [exact Hv|].
  assert (Hu : 0 <= x * u53) by (apply Qmult_le_0_compat; [exact Hx0|discriminate]).
  assert (Heta : 0 <= eta) by discriminate.
  rewrite Hxq in Herr. destruct Herr as [H|[_ H]]; lra.
Qed.

Lemma digits_mul (a b : positive) :
  (Zpos (digits2_pos a) + Zpos (digits2_pos b) - 1 <= Zpos (digits2_pos (a * b)))%Z.
Proof.
  destruct (digits2_pos_bounds a) as [Hla _]. destruct (digits2_pos_bounds b) as [Hlb _].
  destruct (digits2_pos_bounds (a * b)) as [_ Hh]. rewrite Pos2Z.inj_mul in Hh.
  assert (H : (2 ^ (Zpos (digits2_pos a) - 1 + (Zpos (digits2_pos b) - 1))
               < 2 ^ Zpos (digits2_pos (a * b)))%Z).
  { rewrite Z.pow_add_r by lia. nia. }
  apply pow2_lt_inv in H; lia.
Qed.

(** Multiplication of two non-negative doubles. *)
Lemma SFmul_Q (a b : spec_float) :
  valid_binary a = true -> valid_binary b = true ->
  nonneg_sf a -> nonneg_sf b ->
  SFvalue a * SFvalue b <= 2 ^ 1000 ->
  nonneg_sf (SFmul prec emax a b)
  /\ Qabs (SFvalue (SFmul prec emax a b) - SFvalue a * SFvalue b)
     <= SFvalue a * SFvalue b * u53 + eta.
Proof.
  intros Hva Hvb Hna Hnb Hprod.
  assert (Hzero : forall v, v == 0 -> Qabs (0 - v) <= v * u53 + eta).
  { intros v Hv. rewrite Hv. cbn. discriminate. }
  destruct a as [sa|sa| |sa ma ea]; cbn [nonneg_sf] in Hna; try contradiction;
    destruct b as [sb|sb| |sb mb eb]; cbn [nonneg_sf] in Hnb; try contradiction;
    cbn [SFmul].
  - subst sa sb. split; [reflexivity|]. apply Hzero. cbn [SFvalue]. ring.
  - subst sa sb. split; [reflexivity|]. apply Hzero. cbn [SFvalue]. ring.
  - subst sa sb. split; [reflexivity|]. apply Hzero. cbn [SFvalue]. ring.
  - subst sa sb. cbn [xorb valid_binary SFvalue] in *.
    destruct (bounded_exponent Hva) as [Hea Hca]. destruct (bounded_exponent Hvb) as [Heb Hcb].
    pose proof (@digits_mul ma mb) as Hdig.
    assert (Hx : inject_Z (Zpos (ma * mb)) / inject_Z 1 * 2 ^ (ea + eb)
                 == inject_Z (Zpos ma) * 2 ^ ea * (inject_Z (Zpos mb) * 2 ^ eb)).
    { rewrite Pos2Z.inj_mul, inject_Z_mult, pow2_split. field. }
    assert (Hd : (Zpos (digits2_pos (ma * mb)) + (ea + eb) <= 1000 + 1)%Z).
    { apply digits_below. eapply Qle_trans; [|exact Hprod].
      rewrite <- Hx. apply Qle_lteq. right. field. }
    destruct (@round_aux_Q (Zpos (ma * mb)) (ea + eb) loc_Exact (Zpos (ma * mb)) 1)
      as (Hnn & _ & _ & Herr); try lia.
    { cbn. lia. }
    { cbn [Zdigits2]. revert Hca Hcb. rewrite !fexp_max. lia. }
    { cbn [Zdigits2]. rewrite fexp_max. lia. }
    split; [exact Hnn|].
    assert (Hx0 : 0 <= inject_Z (Zpos ma) * 2 ^ ea * (inject_Z (Zpos mb) * 2 ^ eb))
      by (apply Qmult_le_0_compat; apply value_nonneg).
    assert (Hu : 0 <= inject_Z (Zpos ma) * 2 ^ ea * (inject_Z (Zpos mb) * 2 ^ eb) * u53)
      by (apply Qmult_le_0_compat; [exact Hx0|discriminate]).
    assert (Heta : 0 <= eta) by discriminate.
    rewrite Hx in Herr. destruct Herr as [H|[_ H]]; lra.
Qed.

End Operations.


(** *** Rounding to hundredths *)

(** [div_half_even n d] is an integer nearest to [n / d]. *)
Lemma div_half_even_nearest (n d : Z) :
  0 < d -> 2 * Z.abs (n - d * PyFloat.div_half_even n d) <= d.
Proof.
  intros Hd. unfold PyFloat.div_half_even.
  pose proof (Z.div_mod n d ltac:(lia)) as Hdm.
  pose proof (Z.mod_pos_bound n d Hd) as Hm.
  destruct (Z.compare_spec (2 * (n mod d)) d) as [Hc|Hc|Hc];
    [destruct (Z.even (n / d))| |]; lia.
Qed.

(** The number of hundredths [format_2f] and [round2] show for [m * 2^e]
    is within half a hundredth of it. *)
Lemma hundredths_nearest (m : positive) (e : Z) :
  let h := PyFloat.hundredths m e in
  if 0 <=? e
  then h = Zpos m * 2 ^ e * 100
  else 2 * Z.abs (Zpos m * 100 - 2 ^ (- e) * h) <= 2 ^ (- e).
Proof.
  unfold PyFloat.hundredths. destruct (0 <=? e) eqn:He.
  - lia.
  - apply div_half_even_nearest. apply Z.pow_pos_nonneg; lia.
Qed.

(** *** The report *)

(** A row of the reporting API, as the data model has it. *)
Record report_row : Type := {
  row_key : pyval;                 (* the first key *)
  row_more_keys : list pyval;      (* the keys of the other dimensions *)
  row_clicks : Z;
  row_impressions : Z;
  row_ctr : float;
  row_position : float
}.

(** The typed reading of a row of the response, when it has one. *)
Definition view (row : pyval) : option report_row :=
  match row with
  | PDict d =>
      match Py.lookup d "keys", Py.lookup d "clicks", Py.lookup d "impressions",
            Py.lookup d "ctr", Py.lookup d "position" with
      | Some (PList (k :: ks)), Some (PInt c), Some (PInt i),
        Some (PFloat x), Some (PFloat p) =>
          Some {| row_key := k; row_more_keys := ks; row_clicks := c;
                  row_impressions := i; row_ctr := x; row_position := p |}
      | _, _, _, _, _ => None
      end
  | _ => None
  end.

Definition views (rows : list pyval) (rs : list report_row) : Prop :=
  Forall2 (fun row r => view row = Some r) rows rs.

(** Exact integer sums. *)
Definition total_clicks (rs : list report_row) : Z :=
  fold_right (fun r acc => row_clicks r + acc) 0 rs.

Definition total_impressions (rs : list report_row) : Z :=
  fold_right (fun r acc => row_impressions r + acc) 0 rs.

(** The sum of doubles, added one by one from the left, and their
    arithmetic mean. *)
Definition float_sum (xs : list float) : float :=
  fold_left PrimFloat.add xs 0%float.

Definition mean (xs : list float) : float :=
  (float_sum xs / float_of_count (List.length xs))%float.

(** The line of the table for a row. *)
Definition row_line (r : report_row) : string :=
  Py.str (row_key r) ++ " | " ++ Text.of_Z (row_clicks r)
    ++ " | " ++ Text.of_Z (row_impressions r)
    ++ " | " ++ PyFloat.repr (PyFloat.round2 (row_ctr r * 100)%float)
    ++ "% | " ++ PyFloat.repr (PyFloat.round2 (row_position r)).

Section Report.

Lemma view_fields (row : pyval) (r : report_row) :
  view row = Some r ->
  Py.getkey row "keys" = Return (PList (row_key r :: row_more_keys r))
  /\ Py.getkey row "clicks" = Return (PInt (row_clicks r))
  /\ Py.getkey row "impressions" = Return (PInt (row_impressions r))
  /\ Py.getkey row "ctr" = Return (PFloat (row_ctr r))
  /\ Py.getkey row "position" = Return (PFloat (row_position r)).
Proof.
  unfold view, Py.getkey. destruct row as [| | | | | |d]; try discriminate.
  cbn [Py.getitem].
  destruct (Py.lookup d "keys") as [[| | | | |[|k ks]|]|]; try discriminate.
  destruct (Py.lookup d "clicks") as [[]|]; try discriminate.
  destruct (Py.lookup d "impressions") as [[]|]; try discriminate.
  destruct (Py.lookup d "ctr") as [[]|]; try discriminate.
  destruct (Py.lookup d "position") as [[]|]; try discriminate.
  intros [= <-]. cbn. repeat split; reflexivity.
Qed.

Lemma sum_clicks (rows : list pyval) (rs : list report_row) (acc : Z) :
  views rows rs ->
  Py.sum_from (fun row => Py.getkey row "clicks") rows (Py.NInt acc)
  = Return (Py.NInt (acc + total_clicks rs)).
Proof.
  intros H. revert acc. induction H as [|row r rows rs Hv _ IH]; intros acc.
  - cbn. rewrite Z.add_0_r. reflexivity.
  - destruct (view_fields Hv) as (_ & Hc & _).
    cbn [Py.sum_from]. rewrite Hc. cbn [Py.add Py.as_num].
    rewrite IH. cbn [total_clicks fold_right]. rewrite Z.add_assoc. reflexivity.
Qed.

Lemma sum_impressions (rows : list pyval) (rs : list report_row) (acc : Z) :
  views rows rs ->
  Py.sum_from (fun row => Py.getkey row "impressions") rows (Py.NInt acc)
  = Return (Py.NInt (acc + total_impressions rs)).
Proof.
  intros H. revert acc. induction H as [|row r rows rs Hv _ IH]; intros acc.
  - cbn. rewrite Z.add_0_r. reflexivity.
  - destruct (view_fields Hv) as (_ & _ & Hi & _).
    cbn [Py.sum_from]. rewrite Hi. cbn [Py.add Py.as_num].
    rewrite IH. cbn [total_impressions fold_right]. rewrite Z.add_assoc. reflexivity.
Qed.

(** Once the accumulator is a float, every row adds one double. *)
Lemma sum_floats_from (f : pyval -> outcome pyval) (g : report_row -> float)
      (rows : list pyval) (rs : list report_row) (acc : float) :
  Forall2 (fun row r => f row = Return (PFloat (g r))) rows rs ->
  Py.sum_from f rows (Py.NFloat acc)
  = Return (Py.NFloat (fold_left PrimFloat.add (map g rs) acc)).
Proof.
  intros H. revert acc. induction H as [|row r rows rs Hf _ IH]; intros acc.
  - reflexivity.
  - cbn [Py.sum_from]. rewrite Hf. cbn [Py.add Py.as_num map fold_left].
    apply IH.
Qed.

Lemma sum_floats (f : pyval -> outcome pyval) (g : report_row -> float)
      (rows : list pyval) (rs : list report_row) :
  Forall2 (fun row r => f row = Return (PFloat (g r))) rows rs ->
  rs <> [] ->
  Py.sum f rows = Return (Py.NFloat (float_sum (map g rs))).
Proof.
  intros H Hne. destruct H as [|row r rows rs Hf H]; [congruence|].
  unfold Py.sum. cbn [Py.sum_from]. rewrite Hf.
  cbn [Py.add Py.as_num]. rewrite of_int_0. cbn [obind].
  rewrite (sum_floats_from (g := g) _ H). reflexivity.
Qed.

Lemma views_field (rows : list pyval) (rs : list report_row)
      (f : pyval -> outcome pyval) (g : report_row -> float) :
  (forall row r, view row = Some r -> f row = Return (PFloat (g r))) ->
  views rows rs ->
  Forall2 (fun row r => f row = Return (PFloat (g r))) rows rs.
Proof.
  intros Hf H. induction H; constructor; auto.
Qed.

Lemma views_length (rows : list pyval) (rs : list report_row) :
  views rows rs -> List.length rows = List.length rs.
Proof. intros H. induction H; cbn; congruence. Qed.

Lemma table_row_line (row : pyval) (r : report_row) :
  view row = Some r -> table_row row = Return (row_line r).
Proof.
  intros Hv. destruct (view_fields Hv) as (Hk & Hc & Hi & Hx & Hp).
  unfold table_row. rewrite Hk. cbn [obind]. cbn [Py.getidx Py.getitem Py.as_index].
  cbn [Py.seq_index List.length Z.of_nat]. cbn.
  rewrite Hc, Hi, Hx, Hp. cbn [obind Py.mul]. unfold Py.fmul_int.
  rewrite of_int_100. reflexivity.
Qed.

Lemma table_rows_lines (rows : list pyval) (rs : list report_row) :
  views rows rs -> omap table_row rows = Return (map row_line rs).
Proof.
  intros H. induction H as [|row r rows rs Hv _ IH].
  - reflexivity.
  - cbn [omap map]. rewrite (table_row_line Hv), IH. reflexivity.
Qed.

End Report.

Section ReportTotals.

Variables (timestamp : string) (data query start_date end_date api_query_obj : pyval).
Variables (rows : list pyval) (rs : list report_row).

Hypothesis rows_given : Py.getkey data "rows" = Return (PList rows).
Hypothesis rows_typed : views rows rs.
Hypothesis rows_present : rs <> [].
Hypothesis rows_counted : Z.of_nat (List.length rs) < 2 ^ 53.

(** The summary block for the exact totals and the means in floating
    point, each written with two decimals. *)
Definition summary_of (rs : list report_row) : string :=
  "Summary of metrics across selected period:" ++ Text.nl
    ++ "  - Total Impressions: " ++ Text.of_Z (total_impressions rs) ++ Text.nl
    ++ "  - Total Clicks: " ++ Text.of_Z (total_clicks rs) ++ Text.nl
    ++ "  - Average CTR: "
    ++ PyFloat.format_2f (mean (map row_ctr rs) * 100)%float ++ "%" ++ Text.nl
    ++ "  - Average Rank: "
    ++ PyFloat.format_2f (mean (map row_position rs)) ++ Text.nl.

Lemma rows_of_given : rows_of data = Return rows.
Proof. unfold rows_of. rewrite rows_given. reflexivity. Qed.

Lemma row_count_given : row_count data = Return (Z.of_nat (List.length rs)).
Proof.
  unfold row_count. rewrite rows_given. cbn. rewrite (views_length rows_typed).
  reflexivity.
Qed.

Lemma mean_of_sum (xs : list float) :
  List.length xs = List.length rs ->
  Py.truediv (Py.NFloat (float_sum xs)) (Z.of_nat (List.length rs)) = Return (mean xs).
Proof.
  intros Hlen. unfold Py.truediv, PyFloat.truediv_int, mean.
  destruct (Z.eqb_spec (Z.of_nat (List.length rs)) 0) as [H0|_].
  - destruct rs; [congruence|discriminate].
  - rewrite (of_int_count rows_counted), Hlen. reflexivity.
Qed.

Lemma format_body_typed :
  format_body timestamp data query start_date end_date api_query_obj
  = Return (report_text timestamp query start_date end_date api_query_obj
                        (summary_of rs) (Text.join Text.nl (map row_line rs))).
Proof.
  unfold format_body. rewrite rows_of_given, row_count_given. cbn [obind].
  unfold Py.sum at 1. rewrite (sum_clicks 0 rows_typed). cbn [obind].
  unfold Py.sum at 1. rewrite (sum_impressions 0 rows_typed). cbn [obind].
  rewrite (sum_floats (g := row_ctr)
             (views_field (fun row r Hv => proj1 (proj2 (proj2 (proj2 (view_fields Hv)))))
                          rows_typed) rows_present).
  cbn [obind]. rewrite mean_of_sum by apply length_map. cbn [obind].
  unfold Py.fmul_int. rewrite of_int_100. cbn [obind].
  rewrite (sum_floats (g := row_position)
             (views_field (fun row r Hv => proj2 (proj2 (proj2 (proj2 (view_fields Hv)))))
                          rows_typed) rows_present).
  cbn [obind]. rewrite mean_of_sum by apply length_map. cbn [obind].
  rewrite (table_rows_lines rows_typed). cbn [obind].
  reflexivity.
Qed.

End ReportTotals.

(** *** Doubles as rationals *)

(** The exact value of a double (0 for an infinity or a NaN). *)
Definition float_value (f : float) : Q := SFvalue (Prim2SF f).

(** A finite double with its sign bit clear. *)
Definition nonneg_float (f : float) : Prop := nonneg_sf (Prim2SF f).

Section FloatErrors.

Local Open Scope Q_scope.

Lemma nonneg_not_inf (r : spec_float) : nonneg_sf r -> PyFloat.is_inf_sf r = false.
Proof. destruct r; cbn; intros H; try reflexivity; contradiction. Qed.

Lemma nonneg_value (r : spec_float) : nonneg_sf r -> 0 <= SFvalue r.
Proof.
  destruct r as [s|s| |s m e]; cbn; intros H; try discriminate; try contradiction.
  subst s. apply value_nonneg.
Qed.

(** [float(z)] is exact below [2^53]. *)
Lemma of_int_exact (z : Z) :
  (0 <= z < 2 ^ 53)%Z ->
  exists f, PyFloat.of_int z = Return f /\ nonneg_float f /\ float_value f == inject_Z z.
Proof.
  intros Hz. destruct z as [|p|p]; [| |lia].
  - exists 0%float. split; [reflexivity|]. split; reflexivity.
  - unfold PyFloat.of_int. cbn [binary_normalize].
    destruct (@round_Q p 0) as (Hnn & Hv & _ & Hexact); [lia| |].
    { pose proof (@digits2_bound p ltac:(lia)). lia. }
    rewrite (nonneg_not_inf Hnn).
    exists (SF2Prim (binary_round prec emax false p 0)).
    unfold nonneg_float, float_value. rewrite (Prim2SF_SF2Prim _ Hv).
    split; [reflexivity|]. split; [exact Hnn|].
    rewrite Hexact.
    + cbn. ring.
    + pose proof (@digits2_bound p ltac:(lia)). rewrite fexp_max. lia.
Qed.

Lemma float_add_error (a b : float) :
  nonneg_float a -> nonneg_float b ->
  float_value a + float_value b <= 2 ^ 1000 ->
  nonneg_float (a + b)
  /\ Qabs (float_value (a + b) - (float_value a + float_value b))
     <= (float_value a + float_value b) * u53.
Proof.
  unfold nonneg_float, float_value. intros Ha Hb H. rewrite add_spec.
  apply SFadd_Q; try assumption; apply Prim2SF_valid.
Qed.

Lemma float_mul_error (a b : float) :
  nonneg_float a -> nonneg_float b ->
  float_value a * float_value b <= 2 ^ 1000 ->
  nonneg_float (a * b)
  /\ Qabs (float_value (a * b) - float_value a * float_value b)
     <= float_value a * float_value b * u53 + eta.
Proof.
  unfold nonneg_float, float_value. intros Ha Hb H. rewrite mul_spec.
  apply SFmul_Q; try assumption; apply Prim2SF_valid.
Qed.

(** Division of binary numbers that are zero or positive. *)
Lemma SFdiv_nonneg (a b : spec_float) :
  nonneg_sf a -> nonneg_sf b -> 0 < SFvalue b ->
  SFvalue a / SFvalue b <= 2 ^ 1000 ->
  nonneg_sf (SFdiv prec emax a b)
  /\ valid_binary (SFdiv prec emax a b) = true
  /\ Qabs (SFvalue (SFdiv prec emax a b) - SFvalue a / SFvalue b)
     <= SFvalue a / SFvalue b * u53 + eta.
Proof.
  intros Ha Hb Hpos Hq.
  destruct b as [sb|sb| |sb mb eb]; cbn [nonneg_sf] in Hb; try contradiction;
    [cbn in Hpos; discriminate Hpos|]. subst sb.
  destruct a as [sa|sa| |sa ma ea]; cbn [nonneg_sf] in Ha; try contradiction; subst sa.
  - cbn [SFdiv xorb nonneg_sf valid_binary]. split; [reflexivity|]. split; [reflexivity|].
    change (SFvalue (S754_zero false)) with 0.
    set (v := SFvalue (S754_finite false mb eb)) in *.
    assert (Hz : 0 / v == 0) by (unfold Qdiv; ring).
    rewrite Hz. cbn. discriminate.
  - cbn [SFvalue] in *. apply SFdiv_Q. exact Hq.
Qed.

Lemma float_div_error (a b : float) :
  nonneg_float a -> nonneg_float b -> 0 < float_value b ->
  float_value a / float_value b <= 2 ^ 1000 ->
  nonneg_float (a / b)
  /\ Qabs (float_value (a / b) - float_value a / float_value b)
     <= float_value a / float_value b * u53 + eta.
Proof.
  unfold nonneg_float, float_value. intros Ha Hb Hpos H. rewrite div_spec.
  destruct (SFdiv_nonneg Ha Hb Hpos H) as (H1 & _ & H2). split; assumption.
Qed.

End FloatErrors.

(** *** Rows with numeric metrics *)

(** The number a metric holds: JSON gives an [int] for [0] or [91] and a
    [float] for [0.05]. *)
Definition number (v : pyval) : option Py.num :=
  match v with
  | PInt z => Some (Py.NInt z)
  | PFloat f => Some (Py.NFloat f)
  | _ => None
  end.

(** What the formatter reads of a row: the first key and the four
    metrics. *)
Record metrics : Type := {
  m_key : pyval;
  m_clicks : Z;
  m_impressions : Z;
  m_ctr : Py.num;
  m_position : Py.num
}.

Definition metrics_of (row : pyval) : option metrics :=
  match row with
  | PDict d =>
      match Py.lookup d "keys", Py.lookup d "clicks", Py.lookup d "impressions",
            Py.lookup d "ctr", Py.lookup d "position" with
      | Some (PList (k :: _)), Some (PInt c), Some (PInt i), Some x, Some p =>
          match number x, number p with
          | Some nx, Some np =>
              Some {| m_key := k; m_clicks := c; m_impressions := i;
                      m_ctr := nx; m_position := np |}
          | _, _ => None
          end
      | _, _, _, _, _ => None
      end
  | _ => None
  end.

Definition measured (rows : list pyval) (rs : list metrics) : Prop :=
  Forall2 (fun row r => metrics_of row = Some r) rows rs.

(** The exact value of a metric. *)
Definition num_value (a : Py.num) : Q :=
  match a with
  | Py.NInt z => inject_Z z
  | Py.NFloat f => float_value f
  end.

(** A metric of the data model: not negative and at most [2^32]. *)
Definition in_range (a : Py.num) : Prop :=
  match a with
  | Py.NInt z => 0 <= z <= 2 ^ 32
  | Py.NFloat f => nonneg_float f /\ (float_value f <= 4294967296)%Q
  end.

(** The arithmetic mean, exactly. *)
Definition exact_mean (xs : list Q) : Q :=
  (fold_right Qplus 0 xs / inject_Z (Z.of_nat (List.length xs)))%Q.

(** [a] is [t] up to the rounding of the double operations: a relative
    error of [2^-30], and [2^-1000] for a result in the subnormal range. *)
Definition close (a t : Q) : Prop :=
  (Qabs (a - t) <= t * (1 # 2 ^ 30) + (1 # 2 ^ 1000))%Q.

(** [k] hundredths is [x] rounded to two decimals: the nearest, and the even
    one of two that are equally near. *)
Definition nearest_hundredth (x : Q) (k : Z) : Prop :=
  (Qabs (inject_Z k - 100 * x) <= 1 # 2)%Q
  /\ ((Qabs (inject_Z k - 100 * x) == 1 # 2)%Q -> Z.even k = true).

(** An integer in decimal, and a number of hundredths with two decimals. *)
Definition decimal (z : Z) : string := NilZero.string_of_int (Z.to_int z).

Definition digit (d : Z) : string := String (ascii_of_nat (48 + Z.to_nat d)) "".

Definition two_decimals (k : Z) : string :=
  decimal (k / 100) ++ "." ++ digit ((k / 10) mod 10) ++ digit (k mod 10).

(** Text within ASCII, where a byte is a character. *)
Definition ascii_text (s : string) : bool :=
  forallb (fun c => Text.code c <? 128) (Text.chars s).

(** [repr(v)] is the text CPython 3.11 gives: every integer stays within the
    limit of 4300 digits that it puts on the conversion of an integer to
    text, and every string is ASCII, so that [repr] escapes it byte by
    byte. *)
Fixpoint repr_defined (v : pyval) : bool :=
  match v with
  | PInt z => Z.abs z <? 10 ^ 4300
  | PStr s => ascii_text s
  | PList l => forallb repr_defined l
  | PDict d => forallb (fun kv => ascii_text (fst kv) && repr_defined (snd kv)) d
  | _ => true
  end.

(** The same for [str(v)], which leaves a string as it is. *)
Definition str_defined (v : pyval) : bool :=
  match v with
  | PStr _ => true
  | _ => repr_defined v
  end.

Section NumericSum.

Local Open Scope Q_scope.

Lemma u53_small : 0 < u53 /\ u53 <= 1 # 9007199254740992.
Proof. split; [reflexivity|discriminate]. Qed.

Lemma widen (S x c v s : Q) :
  0 <= S -> 0 <= x -> 0 <= c <= 1 ->
  (1 - c) * S <= s <= (1 + c) * S ->
  Qabs (v - (s + x)) <= (s + x) * u53 ->
  (1 - (c + 2 * u53)) * (S + x) <= v <= (1 + (c + 2 * u53)) * (S + x).
Proof.
  intros HS Hx Hc Hs Hv. apply Qabs_Qle_condition in Hv.
  destruct u53_small as [Hu0 Hu1]. generalize dependent u53. intros u Hv Hu0 Hu1.
  assert (P1 : 0 <= u * S) by (apply Qmult_le_0_compat; lra).
  assert (P2 : 0 <= u * x) by (apply Qmult_le_0_compat; lra).
  assert (P3 : 0 <= c * x) by (apply Qmult_le_0_compat; lra).
  assert (P4 : 0 <= u * S * (1 - c)) by (apply Qmult_le_0_compat; lra).
  assert (P5 : 0 <= u * (s - (1 - c) * S)) by (apply Qmult_le_0_compat; lra).
  assert (P6 : 0 <= u * ((1 + c) * S - s)) by (apply Qmult_le_0_compat; lra).
  split; lra.
Qed.

Lemma below_overflow (q : Q) : q <= 1152921504606846976 -> q <= 2 ^ 1000.
Proof.
  intros H. eapply Qle_trans; [exact H|]. vm_compute. discriminate.
Qed.

(** The running sum: an exact integer, or a double within [c] of the exact
    sum [S], relatively. *)
Definition acc_ok (acc : Py.num) (S c : Q) : Prop :=
  match acc with
  | Py.NInt z => (0 <= z)%Z /\ inject_Z z == S
  | Py.NFloat f => nonneg_float f /\ (1 - c) * S <= float_value f <= (1 + c) * S
  end.

Lemma acc_ok_eq (acc : Py.num) (S S' c c' : Q) :
  S == S' -> c == c' -> acc_ok acc S c -> acc_ok acc S' c'.
Proof.
  intros HS Hc. destruct acc as [z|f]; cbn [acc_ok].
  - intros [Hz H]. split; [exact Hz|]. rewrite <- HS. exact H.
  - intros [Hn H]. split; [exact Hn|]. rewrite <- HS, <- Hc. exact H.
Qed.

Lemma in_range_value (x : Py.num) : in_range x -> 0 <= num_value x <= 4294967296.
Proof.
  destruct x as [z|f]; cbn [in_range num_value].
  - intros [H0 H1]. split.
    + change 0 with (inject_Z 0). rewrite <- Zle_Qle. exact H0.
    + change 4294967296 with (inject_Z (2 ^ 32)). rewrite <- Zle_Qle. exact H1.
  - intros [Hn H]. split; [apply nonneg_value; exact Hn|exact H].
Qed.

Lemma add_step (acc x : Py.num) (S c : Q) :
  acc_ok acc S c -> 0 <= c <= 1 -> 0 <= S <= 4503599627370496 -> in_range x ->
  exists acc',
    Py.add acc (Py.of_num x) = Return acc'
    /\ acc_ok acc' (S + num_value x) (c + 2 * u53).
Proof.
  intros Hacc Hc HS Hx. pose proof (in_range_value Hx) as Hxv.
  assert (HcS : 0 <= c * S) by (apply Qmult_le_0_compat; lra).
  assert (HcS' : 0 <= (1 - c) * S) by (apply Qmult_le_0_compat; lra).
  destruct acc as [z|a]; cbn [acc_ok] in Hacc.
  - destruct Hacc as [Hz HzS].
    assert (Hz53 : (0 <= z < 2 ^ 53)%Z).
    { split; [exact Hz|]. assert (H : inject_Z z <= inject_Z (2 ^ 52)).
      { rewrite HzS. change (inject_Z (2 ^ 52)) with 4503599627370496. lra. }
      rewrite <- Zle_Qle in H. lia. }
    destruct x as [y|b]; cbn [Py.of_num num_value in_range] in *.
    + exists (Py.NInt (z + y)). split; [reflexivity|]. cbn [acc_ok]. split; [lia|].
      rewrite inject_Z_plus, HzS. reflexivity.
    + destruct (of_int_exact Hz53) as (fz & Hof & Hnn & Hval).
      unfold Py.add. cbn [Py.as_num]. rewrite Hof. cbn [obind].
      exists (Py.NFloat (fz + b)). split; [reflexivity|]. cbn [acc_ok].
      destruct Hx as [Hb Hbv].
      destruct (@float_add_error fz b Hnn Hb) as [Hn' Herr].
      { apply below_overflow. rewrite Hval, HzS. lra. }
      split; [exact Hn'|]. apply widen with (s := float_value fz); lra.
  - destruct Hacc as [Ha Hav].
    destruct x as [y|b]; cbn [Py.of_num num_value in_range] in *.
    + assert (Hy53 : (0 <= y < 2 ^ 53)%Z) by lia.
      destruct (of_int_exact Hy53) as (fy & Hof & Hnn & Hval).
      unfold Py.add. cbn [Py.as_num]. rewrite Hof. cbn [obind].
      exists (Py.NFloat (a + fy)). split; [reflexivity|]. cbn [acc_ok].
      destruct (@float_add_error a fy Ha Hnn) as [Hn' Herr].
      { apply below_overflow. rewrite Hval. lra. }
      split; [exact Hn'|]. rewrite <- Hval. apply widen with (s := float_value a); lra.
    + destruct Hx as [Hb Hbv].
      exists (Py.NFloat (a + b)). split; [reflexivity|]. cbn [acc_ok].
      destruct (@float_add_error a b Ha Hb) as [Hn' Herr].
      { apply below_overflow. lra. }
      split; [exact Hn'|]. apply widen with (s := float_value a); lra.
Qed.

End NumericSum.

Section Sums.

Local Open Scope Q_scope.

Variables (f : pyval -> outcome pyval) (g : metrics -> Py.num).

Definition exact_sum (rs : list metrics) : Q :=
  fold_right Qplus 0 (map (fun r => num_value (g r)) rs).

Definition count (rs : list metrics) : Q := inject_Z (Z.of_nat (List.length rs)).

Lemma count_nonneg (rs : list metrics) : 0 <= count rs.
Proof.
  unfold count. change 0 with (inject_Z 0). rewrite <- Zle_Qle. apply Nat2Z.is_nonneg.
Qed.

Lemma count_cons (r : metrics) (rs : list metrics) : count (r :: rs) == count rs + 1.
Proof.
  unfold count. cbn [List.length]. rewrite Nat2Z.inj_succ. unfold Z.succ.
  rewrite inject_Z_plus. reflexivity.
Qed.

Lemma exact_sum_bounds (rs : list metrics) :
  Forall (fun r => in_range (g r)) rs ->
  0 <= exact_sum rs <= count rs * 4294967296.
Proof.
  induction 1 as [|r rs Hr _ IH].
  - cbn. split; discriminate.
  - pose proof (in_range_value Hr) as Hv. rewrite count_cons.
    unfold exact_sum in *. cbn [map fold_right]. lra.
Qed.

Lemma sum_from_ok (rows : list pyval) (rs : list metrics) :
  Forall2 (fun row r => f row = Return (Py.of_num (g r))) rows rs ->
  Forall (fun r => in_range (g r)) rs ->
  forall (acc : Py.num) (S c : Q),
    acc_ok acc S c -> 0 <= c -> c + count rs * (2 * u53) <= 1 ->
    0 <= S -> S + count rs * 4294967296 <= 4503599627370496 ->
    exists acc',
      Py.sum_from f rows acc = Return acc'
      /\ acc_ok acc' (S + exact_sum rs) (c + count rs * (2 * u53)).
Proof.
  intros H. induction H as [|row r rows rs Hf _ IH]; intros Hr acc S c Hacc Hc Hc1 HS HS1.
  - exists acc. split; [reflexivity|].
    apply acc_ok_eq with (S := S) (c := c); [| |exact Hacc].
    + unfold exact_sum. cbn [map fold_right]. ring.
    + unfold count. cbn [List.length]. change (inject_Z (Z.of_nat 0)) with 0. ring.
  - inversion Hr as [|r' rs' Hx Hrest]; subst r' rs'.
    pose proof (in_range_value Hx) as Hxv. pose proof (@count_nonneg rs) as Hn.
    destruct u53_small as [Hu0 _].
    assert (Hnu : 0 <= count rs * (2 * u53)) by (apply Qmult_le_0_compat; lra).
    rewrite count_cons in Hc1, HS1.
    destruct (@add_step acc (g r) S c Hacc) as (acc' & Hadd & Hok'); try lra; [exact Hx|].
    cbn [Py.sum_from]. rewrite Hf, Hadd.
    destruct (IH Hrest acc' (S + num_value (g r)) (c + 2 * u53) Hok')
      as (acc'' & Hsum & Hok''); try lra.
    exists acc''. split; [exact Hsum|].
    eapply acc_ok_eq; [| |exact Hok''].
    + unfold exact_sum. cbn [map fold_right]. ring.
    + rewrite count_cons. ring.
Qed.

Lemma acc_ok_weaken (acc : Py.num) (S c c' : Q) :
  0 <= S -> c <= c' -> acc_ok acc S c -> acc_ok acc S c'.
Proof.
  intros HS Hc. destruct acc as [z|a]; cbn [acc_ok]; [tauto|].
  intros [Hn H]. split; [exact Hn|].
  assert (0 <= (c' - c) * S) by (apply Qmult_le_0_compat; lra). lra.
Qed.

(** [sum(f(row) for row in rows)] over at most [2^20] rows. *)
Lemma sum_ok (rows : list pyval) (rs : list metrics) :
  Forall2 (fun row r => f row = Return (Py.of_num (g r))) rows rs ->
  Forall (fun r => in_range (g r)) rs ->
  (Z.of_nat (List.length rs) <= 2 ^ 20)%Z ->
  exists acc,
    Py.sum f rows = Return acc
    /\ acc_ok acc (exact_sum rs) (1 # 4294967296)
    /\ 0 <= exact_sum rs <= 4503599627370496.
Proof.
  intros Hf Hr Hlen.
  assert (Hn : count rs <= 1048576).
  { unfold count. change 1048576 with (inject_Z (2 ^ 20)). rewrite <- Zle_Qle. exact Hlen. }
  pose proof (@count_nonneg rs) as Hn0.
  pose proof (exact_sum_bounds Hr) as Hs.
  assert (Hcu : count rs * (2 * u53) <= 1 # 4294967296).
  { eapply Qle_trans; [apply Qmult_le_compat_r; [exact Hn|discriminate]|].
    vm_compute. discriminate. }
  destruct (@sum_from_ok rows rs Hf Hr (Py.NInt 0) 0 0) as (acc & Hsum & Hok); try lra.
  { split; [lia|reflexivity]. }
  exists acc. split; [exact Hsum|]. split; [|lra].
  apply acc_ok_weaken with (c := 0 + count rs * (2 * u53)); [lra|lra|].
  eapply acc_ok_eq; [| |exact Hok]; [ring|reflexivity].
Qed.

End Sums.

Section Means.

Local Open Scope Q_scope.

Lemma exact_value (z : Z) :
  (0 <= z)%Z -> nonneg_sf (PyFloat.exact z) /\ SFvalue (PyFloat.exact z) == inject_Z z.
Proof.
  destruct z as [|p|p]; [| |lia]; intros _; cbn [PyFloat.exact nonneg_sf SFvalue].
  - split; reflexivity.
  - split; [reflexivity|]. change (2 ^ 0) with 1. ring.
Qed.

Lemma eta_small : 0 <= eta /\ 201 * eta <= 1 # 2 ^ 1000.
Proof. split; [discriminate|]. vm_compute. discriminate. Qed.

Lemma inv_count (n : Z) :
  (0 < n)%Z ->
  0 < / inject_Z n <= 1 /\ inject_Z n * / inject_Z n == 1 /\ 0 < inject_Z n.
Proof.
  intros Hn. assert (H1 : 1 <= inject_Z n).
  { change 1 with (inject_Z 1). rewrite <- Zle_Qle. lia. }
  assert (Hpos : 0 < inject_Z n) by lra.
  split; [split|split].
  - apply Qinv_lt_0_compat. exact Hpos.
  - apply Qle_shift_inv_r; [exact Hpos|]. lra.
  - apply Qmult_inv_r. intros H0. rewrite H0 in Hpos. discriminate Hpos.
  - exact Hpos.
Qed.

(** [sum / len]: the double is within [2^-31] of the exact mean, or within
    [2^-1075] when it is subnormal. *)
Lemma truediv_ok (acc : Py.num) (S : Q) (n : Z) :
  acc_ok acc S (1 # 4294967296) -> 0 <= S <= 4503599627370496 ->
  (0 < n <= 2 ^ 20)%Z ->
  exists M,
    Py.truediv acc n = Return M /\ nonneg_float M
    /\ Qabs (float_value M - S / inject_Z n) <= S / inject_Z n * (1 # 2147483648) + eta.
Proof.
  intros Hacc HS Hn.
  destruct (inv_count (proj1 Hn)) as ([Hq0 Hq1] & Hqn & Hnpos).
  assert (Hn53 : (0 <= n < 2 ^ 53)%Z) by lia.
  assert (Hn0 : (n =? 0)%Z = false) by (apply Z.eqb_neq; lia).
  destruct u53_small as [Hu0 Hu1]. destruct eta_small as [He0 _].
  unfold Qdiv. set (q := / inject_Z n) in *.
  assert (Hmu : 0 <= S * q) by (apply Qmult_le_0_compat; lra).
  destruct acc as [z|a]; cbn [acc_ok Py.truediv] in *.
  - destruct Hacc as [Hz HzS].
    unfold PyFloat.int_truediv. rewrite Hn0.
    destruct (exact_value Hz) as [Hzn Hzv].
    destruct (@exact_value n ltac:(lia)) as [Hnn Hnv].
    assert (Hquot : SFvalue (PyFloat.exact z) / SFvalue (PyFloat.exact n) == S * q).
    { rewrite Hzv, Hnv, HzS. reflexivity. }
    assert (HSq : S * q <= S).
    { assert (0 <= S * (1 - q)) by (apply Qmult_le_0_compat; lra). lra. }
    destruct (@SFdiv_nonneg (PyFloat.exact z) (PyFloat.exact n) Hzn Hnn)
      as (Hrn & Hrv & Herr).
    { rewrite Hnv. exact Hnpos. }
    { rewrite Hquot. apply below_overflow. lra. }
    rewrite (nonneg_not_inf Hrn).
    exists (SF2Prim (SFdiv prec emax (PyFloat.exact z) (PyFloat.exact n))).
    split; [reflexivity|]. unfold nonneg_float, float_value.
    rewrite (Prim2SF_SF2Prim _ Hrv). split; [exact Hrn|].
    rewrite Hquot in Herr.
    assert (0 <= S * q * u53) by (apply Qmult_le_0_compat; lra).
    assert (0 <= S * q * ((1 # 9007199254740992) - u53)) by (apply Qmult_le_0_compat; lra).
    lra.
  - destruct Hacc as [Ha Hav].
    unfold PyFloat.truediv_int. rewrite Hn0.
    destruct (of_int_exact Hn53) as (fn & Hof & Hfn & Hfv). rewrite Hof.
    exists (a / fn)%float. split; [reflexivity|].
    pose proof (nonneg_value Ha) as Ha0. fold (float_value a) in Ha0.
    assert (Hquot : float_value a / float_value fn == float_value a * q).
    { rewrite Hfv. reflexivity. }
    assert (HcS : 0 <= (1 # 4294967296) * S) by (apply Qmult_le_0_compat; lra).
    assert (P0 : 0 <= float_value a * (1 - q)) by (apply Qmult_le_0_compat; lra).
    destruct (@float_div_error a fn Ha Hfn) as [HMn Herr].
    { rewrite Hfv. exact Hnpos. }
    { rewrite Hquot. apply below_overflow. lra. }
    split; [exact HMn|]. rewrite Hquot in Herr.
    assert (P1 : 0 <= q * (float_value a - (1 - (1 # 4294967296)) * S))
      by (apply Qmult_le_0_compat; lra).
    assert (P2 : 0 <= q * ((1 + (1 # 4294967296)) * S - float_value a))
      by (apply Qmult_le_0_compat; lra).
    assert (P3 : 0 <= float_value a * q) by (apply Qmult_le_0_compat; lra).
    assert (P4 : 0 <= float_value a * q * u53) by (apply Qmult_le_0_compat; lra).
    assert (P5 : 0 <= float_value a * q * ((1 # 9007199254740992) - u53))
      by (apply Qmult_le_0_compat; lra).
    apply Qabs_Qle_condition in Herr. apply Qabs_Qle_condition. split; lra.
Qed.

(** The mean as a percentage: one more rounding. *)
Lemma times_100_ok (M : float) (mu : Q) :
  nonneg_float M -> 0 <= mu <= 4503599627370496 ->
  Qabs (float_value M - mu) <= mu * (1 # 2147483648) + eta ->
  exists A,
    Py.fmul_int M 100 = Return A /\ nonneg_float A
    /\ close (float_value A) (100 * mu).
Proof.
  intros HM Hmu Herr.
  destruct u53_small as [Hu0 Hu1]. destruct eta_small as [He0 He1].
  unfold Py.fmul_int. rewrite of_int_100. cbn [obind].
  exists (M * 100)%float. split; [reflexivity|].
  pose proof (nonneg_value HM) as HM0. fold (float_value M) in HM0.
  assert (H100n : nonneg_float 100%float) by (vm_compute; reflexivity).
  assert (H100v : float_value 100%float == 100) by (vm_compute; reflexivity).
  apply Qabs_Qle_condition in Herr.
  assert (He2 : eta <= 1) by (vm_compute; discriminate).
  destruct (@float_mul_error M 100%float HM H100n) as [HAn HAerr].
  { rewrite H100v. apply below_overflow. lra. }
  split; [exact HAn|]. rewrite H100v in HAerr.
  assert (P1 : 0 <= float_value M * 100 * u53) by (apply Qmult_le_0_compat; lra).
  assert (P2 : 0 <= float_value M * 100 * ((1 # 9007199254740992) - u53))
    by (apply Qmult_le_0_compat; lra).
  unfold close. change (1 # 2 ^ 30) with (1 # 1073741824).
  set (t := 1 # 2 ^ 1000) in *.
  apply Qabs_Qle_condition in HAerr. apply Qabs_Qle_condition. split; lra.
Qed.

Lemma close_mean (v mu : Q) :
  0 <= mu -> Qabs (v - mu) <= mu * (1 # 2147483648) + eta -> close v mu.
Proof.
  intros Hmu H. destruct eta_small as [He0 He1].
  unfold close. change (1 # 2 ^ 30) with (1 # 1073741824).
  set (t := 1 # 2 ^ 1000) in *.
  apply Qabs_Qle_condition in H. apply Qabs_Qle_condition. split; lra.
Qed.

End Means.

(** *** Two decimals *)

Section TwoDecimals.

Lemma div_half_even_nonneg (n d : Z) : 0 <= n -> 0 < d -> 0 <= PyFloat.div_half_even n d.
Proof.
  intros Hn Hd. unfold PyFloat.div_half_even.
  pose proof (Z.div_pos n d Hn Hd).
  destruct (2 * (n mod d) ?= d); [destruct (Z.even (n / d))| |]; lia.
Qed.

(** Of two integers equally near to [n / d], the even one is taken. *)
Lemma div_half_even_tie (n d : Z) :
  0 < d -> 2 * Z.abs (n - d * PyFloat.div_half_even n d) = d ->
  Z.even (PyFloat.div_half_even n d) = true.
Proof.
  intros Hd. unfold PyFloat.div_half_even.
  pose proof (Z.div_mod n d ltac:(lia)) as Hdm.
  pose proof (Z.mod_pos_bound n d Hd) as Hm.
  destruct (Z.compare_spec (2 * (n mod d)) d) as [Hc|Hc|Hc]; [|lia|lia].
  destruct (Z.even (n / d)) eqn:He; intros _; [exact He|].
  rewrite Z.even_add, He. reflexivity.
Qed.

Lemma two_digits_text (j : Z) :
  0 <= j < 100 ->
  Text.pad_left 2 (Text.of_Z j) = digit (j / 10) ++ digit (j mod 10).
Proof.
  intros Hj.
  assert (Hall : forallb (fun n : nat =>
                            String.eqb (Text.pad_left 2 (Text.of_Z (Z.of_nat n)))
                                       (digit (Z.of_nat n / 10) ++ digit (Z.of_nat n mod 10)))
                         (seq 0 100) = true) by (vm_compute; reflexivity).
  rewrite forallb_forall in Hall.
  specialize (Hall (Z.to_nat j)). rewrite Z2Nat.id in Hall by lia.
  apply String.eqb_eq, Hall, in_seq. lia.
Qed.

Local Open Scope Q_scope.

Lemma hundredths_nearest_even (m : positive) (e : Z) :
  (0 <= PyFloat.hundredths m e)%Z
  /\ nearest_hundredth (inject_Z (Zpos m) * 2 ^ e) (PyFloat.hundredths m e).
Proof.
  unfold PyFloat.hundredths, nearest_hundredth. destruct (Z.leb_spec 0 e) as [He|He].
  - assert (Hp : (0 < 2 ^ e)%Z) by (apply Z.pow_pos_nonneg; lia).
    split; [nia|].
    assert (Hz : inject_Z (Zpos m * 100 * 2 ^ e) - 100 * (inject_Z (Zpos m) * 2 ^ e) == 0).
    { rewrite !inject_Z_mult, inject_pow2 by lia. change (inject_Z 100) with 100. ring. }
    rewrite Hz. split; [discriminate|]. intros H. discriminate H.
  - set (D := (2 ^ (- e))%Z).
    assert (HD : (0 < D)%Z) by (apply Z.pow_pos_nonneg; lia).
    set (k := PyFloat.div_half_even (Zpos m * 100) D).
    assert (Hk : (0 <= k)%Z) by (apply div_half_even_nonneg; lia).
    split; [exact Hk|].
    assert (Hd : 0 < inject_Z D) by (change 0 with (inject_Z 0); rewrite <- Zlt_Qlt; exact HD).
    assert (Hpow : 2 ^ e == / inject_Z D).
    { unfold D. rewrite inject_pow2 by lia. rewrite <- Qpower_opp.
      replace (- - e)%Z with e by lia. reflexivity. }
    assert (Hdiff : inject_Z k - 100 * (inject_Z (Zpos m) * 2 ^ e)
                    == inject_Z (k * D - Zpos m * 100) / inject_Z D * 1).
    { rewrite Hpow. unfold Zminus. rewrite inject_Z_plus, inject_Z_opp, !inject_Z_mult.
      change (inject_Z 100) with 100. field.
      intros H0. rewrite H0 in Hd. discriminate Hd. }
    rewrite Hdiff, Qabs_scaled by (assumption || reflexivity).
    pose proof (@div_half_even_nearest (Zpos m * 100) D HD) as Hnear. fold k in Hnear.
    pose proof (@div_half_even_tie (Zpos m * 100) D HD) as Htie. fold k in Htie.
    replace (Z.abs (Zpos m * 100 - D * k)) with (Z.abs (k * D - Zpos m * 100)) in Hnear, Htie by lia.
    set (a := Z.abs (k * D - Zpos m * 100)) in *.
    assert (Hscale : inject_Z a / inject_Z D * 1 == inject_Z (2 * a) / inject_Z (2 * D)).
    { rewrite !inject_Z_mult. change (inject_Z 2) with 2. field.
      intros H0. rewrite H0 in Hd. discriminate Hd. }
    assert (H2D : 0 < inject_Z (2 * D))
      by (change 0 with (inject_Z 0); rewrite <- Zlt_Qlt; lia).
    split.
    + rewrite Hscale. apply Qle_shift_div_r; [exact H2D|].
      assert (H : inject_Z (2 * a) <= inject_Z D) by (rewrite <- Zle_Qle; exact Hnear).
      assert (H' : inject_Z (2 * D) == 2 * inject_Z D)
        by (rewrite inject_Z_mult; reflexivity).
      lra.
    + intros Heq. apply Htie. rewrite Hscale in Heq.
      assert (H : inject_Z (2 * a) == inject_Z D).
      { apply Qmult_inj_r with (z := / inject_Z (2 * D)).
        - intros H0. apply Qinv_lt_0_compat in H2D. rewrite H0 in H2D. discriminate H2D.
        - fold (Qdiv (inject_Z (2 * a)) (inject_Z (2 * D))). rewrite Heq.
          rewrite inject_Z_mult. change (inject_Z 2) with 2. field.
          intros H0. rewrite H0 in Hd. discriminate Hd. }
      unfold Qeq in H. cbn [inject_Z Qnum Qden] in H. lia.
Qed.

(** [format(x, ".2f")] of a double with its sign bit clear. *)
Lemma format_2f_nearest (f : float) :
  nonneg_float f ->
  exists k,
    (0 <= k)%Z /\ PyFloat.format_2f f = two_decimals k
    /\ nearest_hundredth (float_value f) k.
Proof.
  unfold nonneg_float, float_value, PyFloat.format_2f.
  destruct (Prim2SF f) as [s|s| |s m e]; cbn [nonneg_sf SFvalue]; try contradiction;
    intros ->.
  - exists 0%Z. split; [lia|]. split; [reflexivity|].
    split; [discriminate|]. intros H. discriminate H.
  - destruct (hundredths_nearest_even m e) as [Hk Hnear].
    set (k := PyFloat.hundredths m e) in *.
    exists k. split; [exact Hk|]. split; [|exact Hnear].
    unfold two_decimals. cbn [append].
    rewrite two_digits_text by (apply Z.mod_pos_bound; lia).
    unfold decimal, Text.of_Z.
    replace (k mod 100 / 10)%Z with ((k / 10) mod 10)%Z
      by (clear; Z.div_mod_to_equations; lia).
    replace (k mod 100 mod 10)%Z with (k mod 10)%Z
      by (clear; Z.div_mod_to_equations; lia).
    reflexivity.
Qed.

End TwoDecimals.

(** *** The report for rows with numeric metrics *)

Section MeasuredReport.

Lemma string_app_assoc (a b c : string) : (a ++ b) ++ c = a ++ b ++ c.
Proof. induction a as [|ch a IH]; cbn; [reflexivity|]. rewrite IH. reflexivity. Qed.

Lemma string_app_nil (a : string) : a ++ "" = a.
Proof. induction a as [|ch a IH]; cbn; [reflexivity|]. rewrite IH. reflexivity. Qed.

Lemma cat_cons (x : string) (l : list string) : Text.cat (x :: l) = x ++ Text.cat l.
Proof.
  unfold Text.cat. destruct l; cbn [String.concat].
  - rewrite string_app_nil. reflexivity.
  - reflexivity.
Qed.

Lemma cat_app (l1 l2 : list string) : Text.cat (l1 ++ l2) = Text.cat l1 ++ Text.cat l2.
Proof.
  induction l1 as [|x l1 IH]; cbn [app].
  - reflexivity.
  - rewrite !cat_cons, IH, string_app_assoc. reflexivity.
Qed.

Lemma metrics_fields (row : pyval) (r : metrics) :
  metrics_of row = Some r ->
  (exists ks, Py.getkey row "keys" = Return (PList (m_key r :: ks)))
  /\ Py.getkey row "clicks" = Return (PInt (m_clicks r))
  /\ Py.getkey row "impressions" = Return (PInt (m_impressions r))
  /\ Py.getkey row "ctr" = Return (Py.of_num (m_ctr r))
  /\ Py.getkey row "position" = Return (Py.of_num (m_position r)).
Proof.
  unfold metrics_of, Py.getkey. destruct row as [| | | | | |d]; try discriminate.
  cbn [Py.getitem].
  destruct (Py.lookup d "keys") as [[| | | | |[|k ks]|]|]; try discriminate.
  destruct (Py.lookup d "clicks") as [[]|]; try discriminate.
  destruct (Py.lookup d "impressions") as [[]|]; try discriminate.
  destruct (Py.lookup d "ctr") as [x|]; try discriminate.
  destruct (Py.lookup d "position") as [p|]; try discriminate.
  destruct x; cbn [number]; try discriminate;
    destruct p; cbn [number]; try discriminate;
    intros [= <-]; cbn; (split; [eexists; reflexivity|]); repeat split; reflexivity.
Qed.

Lemma measured_length (rows : list pyval) (rs : list metrics) :
  measured rows rs -> List.length rows = List.length rs.
Proof. intros H. induction H; cbn; congruence. Qed.

Lemma measured_field (rows : list pyval) (rs : list metrics)
      (f : pyval -> outcome pyval) (v : metrics -> pyval) :
  (forall row r, metrics_of row = Some r -> f row = Return (v r)) ->
  measured rows rs ->
  Forall2 (fun row r => f row = Return (v r)) rows rs.
Proof. intros Hf H. induction H; constructor; auto. Qed.

(** The sum of integers is exact. *)
Lemma sum_ints (f : pyval -> outcome pyval) (h : metrics -> Z)
      (rows : list pyval) (rs : list metrics) (acc : Z) :
  Forall2 (fun row r => f row = Return (PInt (h r))) rows rs ->
  Py.sum_from f rows (Py.NInt acc)
  = Return (Py.NInt (acc + fold_right Z.add 0 (map h rs))).
Proof.
  intros H. revert acc. induction H as [|row r rows rs Hf _ IH]; intros acc.
  - cbn. rewrite Z.add_0_r. reflexivity.
  - cbn [Py.sum_from]. rewrite Hf. cbn [Py.add Py.as_num].
    rewrite IH. cbn [map fold_right]. rewrite Z.add_assoc. reflexivity.
Qed.

Lemma first_of_list (k : pyval) (ks : list pyval) : Py.getidx (PList (k :: ks)) 0 = Return k.
Proof. reflexivity. Qed.

Lemma table_row_measured (row : pyval) (r : metrics) :
  metrics_of row = Some r -> exists line, table_row row = Return line.
Proof.
  intros Hm. destruct (metrics_fields Hm) as ([ks Hk] & Hc & Hi & Hx & Hp).
  unfold table_row. rewrite Hk. cbn [obind]. rewrite first_of_list. cbn [obind].
  rewrite Hc, Hi, Hx, Hp. cbn [obind].
  destruct (m_ctr r) as [z|x], (m_position r) as [y|p];
    cbn [Py.of_num Py.mul Py.round2 obind]; unfold Py.fmul_int;
    rewrite ?of_int_100; cbn [obind Py.round2]; eexists; reflexivity.
Qed.

Lemma table_rows_measured (rows : list pyval) (rs : list metrics) :
  measured rows rs -> exists lines, omap table_row rows = Return lines.
Proof.
  intros H. induction H as [|row r rows rs Hm _ [lines IH]].
  - exists []. reflexivity.
  - destruct (table_row_measured Hm) as [line Hline].
    exists (line :: lines). cbn [omap]. rewrite Hline, IH. reflexivity.
Qed.

(** The text of the report from the line that announces the data on. *)
Lemma report_text_summary
      (timestamp : string) (query start_date end_date api_query_obj : pyval)
      (summary_section table_body : string) :
  report_text timestamp query start_date end_date api_query_obj summary_section table_body
  = Text.cat (firstn 47 (report_items timestamp query start_date end_date api_query_obj "" ""))
      ++ "Please review this data in detail and finalize the user's request with an analysis of the facts presented below:"
      ++ Text.nl ++ Text.nl
      ++ summary_section ++ Text.nl ++ Text.nl
      ++ "Date | Clicks | Impressions | CTR (%) | Average Position" ++ Text.nl
      ++ "--------------------------------------------------------" ++ Text.nl
      ++ table_body ++ Text.nl ++ Text.nl.
Proof.
  unfold report_text.
  change (report_items timestamp query start_date end_date api_query_obj
                       summary_section table_body)
    with (firstn 47 (report_items timestamp query start_date end_date api_query_obj "" "")
            ++ skipn 47 (report_items timestamp query start_date end_date api_query_obj
                                      summary_section table_body))%list.
  rewrite cat_app. reflexivity.
Qed.

End MeasuredReport.

(** A row of the data model: each metric in range, and every integer the
    table shows within the digit limit of [str]. *)
Definition row_in_model (r : metrics) : Prop :=
  in_range (m_ctr r) /\ in_range (m_position r)
  /\ Z.abs (m_clicks r) < 10 ^ 4300 /\ Z.abs (m_impressions r) < 10 ^ 4300
  /\ str_defined (m_key r) = true.


(** *** An empty row set *)

Lemma iter_empty_len (r : pyval) : Py.iter r = Return [] -> Py.len r = Return 0.
Proof.
  destruct r as [| | | |s|l|d]; try discriminate.
  - destruct s; [reflexivity|discriminate].
  - destruct l; [reflexivity|discriminate].
  - destruct d; [reflexivity|discriminate].
Qed.

(** With no row to visit, the sums are the integer 0 and the first mean
    divides 0 by 0. *)
Lemma format_body_no_rows
      (timestamp : string) (data query start_date end_date api_query_obj r : pyval) :
  Py.getkey data "rows" = Return r ->
  Py.iter r = Return [] ->
  format_body timestamp data query start_date end_date api_query_obj
  = Raise (ZeroDivisionError "division by zero").
Proof.
  intros Hr Hiter. unfold format_body, rows_of, row_count.
  rewrite Hr. cbn [obind]. rewrite Hiter, (iter_empty_len Hiter). reflexivity.
Qed.

Lemma format_no_rows
      (w : World) (query start_date end_date api_query_obj : pyval) (t : trace) :
  format_search_console_data w (PDict [("rows", PList [])])
                             query start_date end_date api_query_obj t
  = (Raise (ZeroDivisionError "division by zero"), (t ++ [Now])%list).
Proof. reflexivity. Qed.

(** *** The report as a function of its inputs and of the clock *)

Section Determinism.

Variables (data query start_date end_date api_query_obj : pyval).

(** The text before the timestamp, and the text after it. *)
Definition report_head : string :=
  Text.cat (firstn 32 (report_items "" PNone PNone PNone PNone "" "")).

Definition report_tail (summary_section table_body : string) : string :=
  Text.cat (skipn 33 (report_items "" query start_date end_date api_query_obj
                                   summary_section table_body)).

Lemma report_text_split (timestamp summary_section table_body : string) :
  report_text timestamp query start_date end_date api_query_obj
              summary_section table_body
  = report_head ++ timestamp ++ report_tail summary_section table_body.
Proof. reflexivity. Qed.

(** The summary and the table do not depend on the timestamp. *)
Lemma format_body_shape :
  exists r : outcome (string * string),
    forall timestamp,
      format_body timestamp data query start_date end_date api_query_obj
      = match r with
        | Return (summary_section, table_body) =>
            Return (report_text timestamp query start_date end_date api_query_obj
                                summary_section table_body)
        | Raise e => Raise e
        end.
Proof.
  unfold format_body.
  repeat
    match goal with
    | |- exists r, forall ts, obind ?o _ = _ =>
        destruct o as [?|e]; cbn [obind];
        [| exists (Raise e); reflexivity]
    end.
  eexists (Return (_, _)). intros ts. reflexivity.
Qed.

End Determinism.

(** C8: the report is a function of the rows, the query, the date range, the
    structured query and the reading of the clock.  Whatever the world and the
    calls made before, the formatter reads the clock once and does nothing
    else; it either raises the same exception everywhere, or returns a text
    that is the same everywhere but for the timestamp embedded in it. *)
Theorem report_depends_on_inputs_and_clock
        (data query start_date end_date api_query_obj : pyval) :
  exists r : outcome (string * string),
    forall (w : World) (t : trace),
      format_search_console_data w data query start_date end_date api_query_obj t
      = (match r with
         | Return (before, after) =>
             Return (before ++ strftime (clock w (reads t)) ++ after)
         | Raise e => Raise e
         end, (t ++ [Now])%list).
Proof.
  destruct (format_body_shape data query start_date end_date api_query_obj)
    as ([[summary_section table_body]|e] & Hshape).
  - exists (Return (report_head,
                    report_tail query start_date end_date api_query_obj
                                summary_section table_body)).
    intros w t. unfold format_search_console_data, bind, datetime_now, lift.
    rewrite Hshape, report_text_split. reflexivity.
  - exists (Raise e). intros w t.
    unfold format_search_console_data, bind, datetime_now, lift.
    rewrite Hshape. reflexivity.
Qed.

(** Two runs that read the same time give the same outcome. *)
Lemma report_same_clock_same_text
      (w1 w2 : World) (t1 t2 : trace)
      (data query start_date end_date api_query_obj : pyval) :
  strftime (clock w1 (reads t1)) = strftime (clock w2 (reads t2)) ->
  fst (format_search_console_data w1 data query start_date end_date api_query_obj t1)
  = fst (format_search_console_data w2 data query start_date end_date api_query_obj t2).
Proof.
  intros H. unfold format_search_console_data, bind, datetime_now, lift.
  cbv beta iota delta [fst]. rewrite H. reflexivity.
Qed.

(** *** A small logic for traces *)

(** [hoare P m Q]: run after a trace of events that all satisfy [P], the
    computation [m] leaves such a trace again, and a value it returns
    satisfies [Q]. *)
Section TraceLogic.

Variable P : event -> Prop.

Definition hoare {A} (m : M A) (Q : A -> Prop) : Prop :=
  forall t, Forall P t ->
    Forall P (snd (m t)) /\ (forall a, fst (m t) = Return a -> Q a).

Lemma hoare_ret {A} (a : A) (Q : A -> Prop) : Q a -> hoare (ret a) Q.
Proof.
  intros Ha t Ht. split; [exact Ht|]. cbn. intros b [= <-]. exact Ha.
Qed.

Lemma hoare_raise {A} (e : exn) (Q : A -> Prop) : hoare (raise e) Q.
Proof.
  intros t Ht. split; [exact Ht|]. cbn. discriminate.
Qed.

Lemma hoare_lift {A} (o : outcome A) (Q : A -> Prop) :
  (forall a, o = Return a -> Q a) -> hoare (lift o) Q.
Proof.
  intros Ho t Ht. split; [exact Ht|]. cbn. exact Ho.
Qed.

Lemma hoare_emit (ev : event) : P ev -> hoare (emit ev) (fun _ => True).
Proof.
  intros Hev t Ht. split; [|trivial]. cbn.
  apply Forall_app. split; [exact Ht|]. constructor; [exact Hev|constructor].
Qed.

Lemma hoare_bind {A B} (m : M A) (k : A -> M B) (Q1 : A -> Prop) (Q2 : B -> Prop) :
  hoare m Q1 -> (forall a, Q1 a -> hoare (k a) Q2) -> hoare (bind m k) Q2.
Proof.
  intros Hm Hk t Ht. destruct (Hm t Ht) as [Htr Hval].
  unfold bind. destruct (m t) as [[a|e] t']; cbn in *.
  - exact (Hk a (Hval a eq_refl) t' Htr).
  - split; [exact Htr|discriminate].
Qed.

Lemma hoare_try {A} (m : M A) (h : exn -> M A) (Q : A -> Prop) :
  hoare m Q -> (forall e, hoare (h e) Q) -> hoare (try_except m h) Q.
Proof.
  intros Hm Hh t Ht. destruct (Hm t Ht) as [Htr Hval].
  unfold try_except. destruct (m t) as [[a|e] t']; cbn in *.
  - split; [exact Htr|]. intros b [= <-]. exact (Hval a eq_refl).
  - exact (Hh e t' Htr).
Qed.

Lemma hoare_weaken {A} (m : M A) (Q Q' : A -> Prop) :
  hoare m Q -> (forall a, Q a -> Q' a) -> hoare m Q'.
Proof.
  intros Hm HQ t Ht. destruct (Hm t Ht) as [Htr Hval].
  split; [exact Htr|]. intros a Ha. exact (HQ a (Hval a Ha)).
Qed.

Lemma hoare_if {A} (b : bool) (m1 m2 : M A) (Q : A -> Prop) :
  hoare m1 Q -> hoare m2 Q -> hoare (if b then m1 else m2) Q.
Proof. destruct b; auto. Qed.

(** The collaborators. *)
Variable w : World.

Hypothesis P_getenv : forall name, P (Getenv name).
Hypothesis P_now : P Now.
Hypothesis P_post : forall url body timeout, P (HttpPost url body timeout).
Hypothesis P_build : forall name version creds, P (Build name version creds).

Lemma hoare_os_getenv (name : string) : hoare (os_getenv w name) (fun _ => True).
Proof.
  unfold os_getenv. eapply hoare_bind; [apply hoare_emit, P_getenv|].
  intros _ _. apply hoare_ret. trivial.
Qed.

Lemma hoare_now : hoare (datetime_now w) (fun _ => True).
Proof.
  intros t Ht. split; [|trivial]. cbn.
  apply Forall_app. split; [exact Ht|]. constructor; [exact P_now|constructor].
Qed.

Lemma hoare_post (url : string) (body : pyval) (timeout : Z) :
  hoare (requests_post_json w url body timeout)
        (fun response => http_post_json w url body timeout = inr response).
Proof.
  unfold requests_post_json. eapply hoare_bind; [apply hoare_emit, P_post|].
  intros _ _. destruct (http_post_json w url body timeout).
  - apply hoare_raise.
  - apply hoare_ret. reflexivity.
Qed.

Lemma hoare_system_prompt : hoare (gsc_system_prompt w) (fun _ => True).
Proof.
  unfold gsc_system_prompt.
  eapply hoare_bind; [apply hoare_now|]. intros now1 _.
  eapply hoare_bind with (Q1 := fun _ => True); [apply hoare_lift; trivial|]. intros domain _.
  eapply hoare_bind; [apply hoare_now|]. intros now2 _.
  apply hoare_ret. trivial.
Qed.

Lemma hoare_credentials (key : pyval) (scopes : list string) :
  hoare (credentials_from_base64_env w key scopes) (fun _ => True).
Proof.
  unfold credentials_from_base64_env.
  apply hoare_if; [apply hoare_raise|].
  destruct (gsc_base64_key w); try apply hoare_raise.
  eapply hoare_bind with (Q1 := fun _ => True); [apply hoare_lift; trivial|]. intros bytes _.
  eapply hoare_bind with (Q1 := fun _ => True); [apply hoare_lift; trivial|]. intros text _.
  eapply hoare_bind with (Q1 := fun _ => True); [apply hoare_lift; trivial|]. intros info _.
  eapply hoare_bind with (Q1 := fun _ => True).
  - unfold from_service_account_info.
    destruct (service_account_info w info scopes);
      [apply hoare_raise|apply hoare_ret; trivial].
  - intros c _. apply hoare_ret. trivial.
Qed.

Lemma hoare_service (key : pyval) :
  hoare (create_gsc_service_obj w key) (fun _ => True).
Proof.
  unfold create_gsc_service_obj.
  eapply hoare_bind; [apply hoare_credentials|]. intros c _.
  eapply hoare_bind with (Q1 := fun _ => True).
  - unfold build. eapply hoare_bind; [apply hoare_emit, P_build|].
    intros _ _. destruct (discovery w "webmasters" "v3" c);
      [apply hoare_raise|apply hoare_ret; trivial].
  - intros s _. apply hoare_ret. trivial.
Qed.

Lemma hoare_format (data query start_date end_date api_query_obj : pyval) :
  hoare (format_search_console_data w data query start_date end_date api_query_obj)
        (fun _ => True).
Proof.
  unfold format_search_console_data.
  eapply hoare_bind; [apply hoare_now|]. intros now _.
  apply hoare_lift. trivial.
Qed.

(** The one place where the reporting API is called. *)
Lemma hoare_api_request (svc : service) (site : string) (payload : pyval) :
  P (Execute svc site payload) ->
  hoare (make_gsc_api_request w svc site payload) (fun _ => True).
Proof.
  intros Hev. unfold make_gsc_api_request, execute_query.
  eapply hoare_bind with (Q1 := fun _ => True).
  - eapply hoare_bind; [apply hoare_emit, Hev|].
    intros _ _. apply hoare_lift. trivial.
  - intros response _.
    eapply hoare_bind with (Q1 := fun _ => True); [apply hoare_lift; trivial|]. intros rows0 _.
    eapply hoare_bind with (Q1 := fun _ => True); [apply hoare_lift; trivial|]. intros rows _.
    eapply hoare_bind with (Q1 := fun _ => True); [apply hoare_lift; trivial|]. intros results _.
    apply hoare_ret. trivial.
Qed.

End TraceLogic.

(** *** The query sent to the reporting API *)

(** The trend rule, as the specification words it.  Dates are ISO calendar
    dates; [days_from_civil] counts days in the proleptic Gregorian
    calendar. *)
Section TrendRule.

Definition two_digits (a b : ascii) : option Z :=
  if Text.is_digit a && Text.is_digit b
  then Some (Text.digit_val a * 10 + Text.digit_val b) else None.

(** [YYYY-MM-DD] *)
Definition parse_date (s : string) : option (Z * Z * Z) :=
  match Text.chars s with
  | [y1; y2; y3; y4; h1; m1; m2; h2; d1; d2] =>
      if Ascii.eqb h1 "-" && Ascii.eqb h2 "-" then
        match two_digits y1 y2, two_digits y3 y4, two_digits m1 m2, two_digits d1 d2 with
        | Some yh, Some yl, Some m, Some d => Some (yh * 100 + yl, m, d)
        | _, _, _, _ => None
        end
      else None
  | _ => None
  end.

Definition days_from_civil (y m d : Z) : Z :=
  let y' := if m <=? 2 then y - 1 else y in
  let era := y' / 400 in
  let yoe := y' - era * 400 in
  let mp := (m + 9) mod 12 in
  let doy := (153 * mp + 2) / 5 + d - 1 in
  let doe := yoe * 365 + yoe / 4 - yoe / 100 + doy in
  era * 146097 + doe - 719468.

(** The number of days of the span, both ends included. *)
Definition day_span (start_date end_date : string) : option Z :=
  match parse_date start_date, parse_date end_date with
  | Some (y1, m1, d1), Some (y2, m2, d2) =>
      Some (days_from_civil y2 m2 d2 - days_from_civil y1 m1 d1 + 1)
  | _, _ => None
  end.

Definition groups_by_date (q : pyval) : bool :=
  match Py.getkey q "dimensions" with
  | Return (PList dims) =>
      existsb (fun x => match x with PStr s => String.eqb s "date" | _ => false end) dims
  | _ => false
  end.

(** [rowLimit] is at least the inclusive day count of the span. *)
Definition covers_span (q : pyval) : bool :=
  match Py.getkey q "startDate", Py.getkey q "endDate", Py.getkey q "rowLimit" with
  | Return (PStr s), Return (PStr e), Return (PInt limit) =>
      match day_span s e with
      | Some n => n <=? limit
      | None => false
      end
  | _, _, _ => false
  end.

Definition obeys_trend_rule (q : pyval) : bool :=
  if groups_by_date q then covers_span q else true.

End TrendRule.

(** The sentence of the instructions that states the rule. *)
Definition trend_rule_sentence : string :=
  "), you MUST ensure the `rowLimit` is at least equal to the number of days in the requested date range.".

Lemma trend_rule_in_instructions (t1 domain t2 : string) :
  In trend_rule_sentence (system_prompt_items t1 domain t2).
Proof.
  unfold system_prompt_items, trend_rule_sentence.
  repeat (first [left; reflexivity | right]).
Qed.

Section SentQuery.

Variable w : World.

(** [q] is what the model's answer parses to once [clean_query] has been
    applied, for a request that carried the instructions. *)
Definition from_model (q : pyval) : Prop :=
  exists url t1 t2 message response generated cleaned,
    http_post_json w url
      (gemini_payload (system_prompt_text t1 "www.yourdomain.ai" t2) message) 30
    = inr response
    /\ candidate_text response = Return generated
    /\ clean_query generated = Return cleaned
    /\ Json.loads cleaned = Return q.

Definition sent_as_parsed (ev : event) : Prop :=
  match ev with
  | Execute _ site q => site = site_url /\ from_model q
  | _ => True
  end.

Local Abbreviation ok := (hoare sent_as_parsed).

Ltac pure_step :=
  eapply hoare_bind with (Q1 := fun _ => True); [apply hoare_lift; trivial|].

Lemma prompt_shape :
  ok (gsc_system_prompt w)
     (fun p => exists t1 t2, p = system_prompt_text t1 "www.yourdomain.ai" t2).
Proof.
  intros t Ht. split.
  - apply (hoare_system_prompt (P := sent_as_parsed) w I); assumption.
  - cbn. intros p [= <-]. eexists. eexists. reflexivity.
Qed.

Lemma query_search_console_sends_parsed
      (query : pyval) (url t1 t2 message : string) :
  ok (query_search_console w query url
        (gemini_payload (system_prompt_text t1 "www.yourdomain.ai" t2) message))
     (fun _ => True).
Proof.
  unfold query_search_console.
  eapply hoare_bind; [apply hoare_post; intros; exact I|].
  intros response Hpost. cbv beta in Hpost.
  pure_step. intros found _.
  destruct found; [|apply hoare_ret; trivial].
  eapply hoare_bind with (Q1 := fun g => candidate_text response = Return g);
    [apply hoare_lift; trivial|].
  intros generated Hgen.
  eapply hoare_bind with (Q1 := fun c => clean_query generated = Return c);
    [apply hoare_lift; trivial|].
  intros cleaned Hclean.
  eapply hoare_bind with (Q1 := fun q => Json.loads cleaned = Return q);
    [apply hoare_lift; trivial|].
  intros q Hq.
  pure_step. intros start_date _.
  pure_step. intros end_date _.
  eapply hoare_bind; [apply hoare_service; intros; exact I|].
  intros svc _.
  eapply hoare_bind.
  - apply hoare_api_request. split; [reflexivity|].
    exists url, t1, t2, message, response, generated, cleaned. auto.
  - intros api_response _.
    eapply hoare_bind; [apply hoare_format; exact I|].
    intros llm_response _. apply hoare_ret. trivial.
Qed.

Lemma get_search_console_data_sends_parsed (arguments : pyval) :
  ok (get_search_console_data w arguments) (fun _ => True).
Proof.
  unfold get_search_console_data.
  pure_step. intros query _.
  apply hoare_if; [apply hoare_raise|].
  eapply hoare_bind; [apply hoare_os_getenv; intros; exact I|].
  intros key _.
  apply hoare_if; [apply hoare_raise|].
  eapply hoare_bind; [apply prompt_shape|].
  intros p (t1 & t2 & ->).
  apply hoare_try.
  - apply query_search_console_sends_parsed.
  - intros e. apply hoare_if; apply hoare_raise.
Qed.

Lemma handle_tool_call_sends_parsed (params : pyval) :
  ok (handle_tool_call w params) (fun _ => True).
Proof.
  unfold handle_tool_call.
  pure_step. intros tool_name _.
  pure_step. intros arguments0 _.
  assert (Hdispatch : forall arguments,
    ok (if Py.ne_str tool_name "search_console_query"
        then ret (tool_error ("Tool not found: " ++ Py.str tool_name))
        else call_tool w arguments) (fun _ => True)).
  { intros arguments. apply hoare_if; [apply hoare_ret; trivial|].
    unfold call_tool. eapply hoare_bind with (Q1 := fun _ => True).
    - apply hoare_try.
      + eapply hoare_bind; [apply get_search_console_data_sends_parsed|].
        intros r _. apply hoare_ret. trivial.
      + intros e. apply hoare_ret. trivial.
    - intros [error_result|r] _; [apply hoare_ret; trivial|].
      pure_step. intros text_value _. apply hoare_ret. trivial. }
  destruct arguments0; try apply Hdispatch.
  destruct (Json.loads s); [apply Hdispatch|apply hoare_ret; trivial].
Qed.

End SentQuery.

(** C2, amended: every query the pipeline sends to the reporting API is,
    unchanged, the object that [json.loads] gives for the model's answer
    after [clean_query], for a request that carried the instructions; the
    module checks neither [rowLimit] nor the dates. *)
Theorem sent_query_is_model_output
        (w : World) (params : pyval) (svc : service) (site : string) (q : pyval) :
  In (Execute svc site q) (calls (handle_tool_call w params)) ->
  site = site_url /\ from_model w q.
Proof.
  intros Hin.
  pose proof (@handle_tool_call_sends_parsed w params) as Hok.
  destruct (Hok [] (Forall_nil _)) as [Htrace _].
  rewrite Forall_forall in Htrace.
  exact (Htrace _ Hin).
Qed.

(* ================================================================== *)
(** ** Worked requests *)
(* ================================================================== *)

Module Examples.

Local Abbreviation dq := Text.dq.

(** A model answer that groups by date over ten days and asks for three
    rows. *)
Definition trend_answer : string :=
  Text.cat ["{"; dq; "startDate"; dq; ": "; dq; "2025-10-01"; dq; ", ";
            dq; "endDate"; dq; ": "; dq; "2025-10-10"; dq; ", ";
            dq; "dimensions"; dq; ": ["; dq; "date"; dq; "], ";
            dq; "rowLimit"; dq; ": 3}"].

Definition trend_query : pyval :=
  PDict [("startDate", PStr "2025-10-01"); ("endDate", PStr "2025-10-10");
         ("dimensions", PList [PStr "date"]); ("rowLimit", PInt 3)].

(** The same answer inside a code fence. *)
Definition fenced_answer : string :=
  "```json" ++ Text.nl ++ trend_answer ++ Text.nl ++ "```".

Definition gemini_response (text : string) : pyval :=
  PDict [("candidates",
          PList [PDict [("content",
                         PDict [("parts", PList [PDict [("text", PStr text)]])])]])].

Definition api_row (date : string) (clicks impressions : Z) (ctr position : float)
  : pyval :=
  PDict [("keys", PList [PStr date]); ("clicks", PInt clicks);
         ("impressions", PInt impressions); ("ctr", PFloat ctr);
         ("position", PFloat position)].

(** Three days: CTR 0.05, 0.05, 0.07 and positions 3.0, 5.0, 4.2. *)
Definition three_rows : list pyval :=
  [api_row "2025-10-01" 10 200 0x1.999999999999ap-5 0x1.8p+1;
   api_row "2025-10-02" 12 240 0x1.999999999999ap-5 0x1.4p+2;
   api_row "2025-10-03" 7 100 0x1.1eb851eb851ecp-4 0x1.0cccccccccccdp+2].

(** Two days as the API's JSON decodes them: a day with no click, whose CTR
    and position arrive as the integers 0 and 91, and a day with CTR 0.075
    and position 4.2. *)
Definition mixed_rows : list pyval :=
  [PDict [("keys", PList [PStr "2025-10-01"]); ("clicks", PInt 0);
          ("impressions", PInt 12); ("ctr", PInt 0); ("position", PInt 91)];
   api_row "2025-10-02" 3 40 0x1.3333333333333p-4 0x1.0cccccccccccdp+2].

Definition mixed_metrics : list metrics :=
  [{| m_key := PStr "2025-10-01"; m_clicks := 0; m_impressions := 12;
      m_ctr := Py.NInt 0; m_position := Py.NInt 91 |};
   {| m_key := PStr "2025-10-02"; m_clicks := 3; m_impressions := 40;
      m_ctr := Py.NFloat 0x1.3333333333333p-4;
      m_position := Py.NFloat 0x1.0cccccccccccdp+2 |}].

(** Two days at positions 1.0 and 1.01. *)
Definition close_rows : list pyval :=
  [api_row "2025-10-01" 3 10 0x1.999999999999ap-4 0x1p+0;
   api_row "2025-10-02" 1 10 0x1.999999999999ap-4 0x1.028f5c28f5c29p+0].

Definition close_metrics : list metrics :=
  [{| m_key := PStr "2025-10-01"; m_clicks := 3; m_impressions := 10;
      m_ctr := Py.NFloat 0x1.999999999999ap-4; m_position := Py.NFloat 0x1p+0 |};
   {| m_key := PStr "2025-10-02"; m_clicks := 1; m_impressions := 10;
      m_ctr := Py.NFloat 0x1.999999999999ap-4;
      m_position := Py.NFloat 0x1.028f5c28f5c29p+0 |}].

Definition three_views : list report_row :=
  [{| row_key := PStr "2025-10-01"; row_more_keys := []; row_clicks := 10;
      row_impressions := 200; row_ctr := 0x1.999999999999ap-5;
      row_position := 0x1.8p+1 |};
   {| row_key := PStr "2025-10-02"; row_more_keys := []; row_clicks := 12;
      row_impressions := 240; row_ctr := 0x1.999999999999ap-5;
      row_position := 0x1.4p+2 |};
   {| row_key := PStr "2025-10-03"; row_more_keys := []; row_clicks := 7;
      row_impressions := 100; row_ctr := 0x1.1eb851eb851ecp-4;
      row_position := 0x1.0cccccccccccdp+2 |}].

(** A world with both keys set, whose model gives [response] and whose
    reporting API gives [rows]. *)
Definition world (response : pyval) (rows : list pyval) : World := {|
  getenv := fun name =>
    if String.eqb name "GEMINI_API_KEY" then Some "test-key"
    else if String.eqb name "SEARCH_CONSOLE_KEY" then Some "e30="
    else None;
  clock := fun n =>
    {| year := 2025; month := 11; day := 3; hour := 9; minute := 5;
       second := Z.of_nat n |};
  http_post_json := fun _ _ _ => inr response;
  b64decode := fun s =>
    if String.eqb s "e30=" then Return "{}"
    else Raise (LibraryError "Incorrect padding");
  utf8_decode := fun s => Return s;
  service_account_info := fun _ _ => None;
  discovery := fun _ _ _ => None;
  searchanalytics_query := fun _ _ _ => Return (PDict [("rows", PList rows)])
|}.

Definition tool_call (query : string) : pyval :=
  PDict [("name", PStr "search_console_query");
         ("arguments", PDict [("query", PStr query)])].

Definition readonly_service : service :=
  Service "webmasters" "v3"
          (Credentials (PDict [])
                       ["https://www.googleapis.com/auth/webmasters.readonly"]).

Definition kind (ev : event) : string :=
  match ev with
  | Getenv _ => "getenv"
  | Now => "now"
  | HttpPost _ _ _ => "post"
  | Build _ _ _ => "build"
  | Execute _ _ _ => "execute"
  end.

Example trend_answer_parses : Json.loads trend_answer = Return trend_query.
Proof. vm_compute. reflexivity. Qed.

Example trend_query_breaks_rule :
  day_span "2025-10-01" "2025-10-10" = Some 10
  /\ obeys_trend_rule trend_query = false.
Proof. split; vm_compute; reflexivity. Qed.

Example ninety_days : day_span "2025-08-05" "2025-11-03" = Some 91.
Proof. vm_compute. reflexivity. Qed.

Example three_rows_report :
  result (handle_tool_call (world (gemini_response trend_answer) three_rows)
                           (tool_call "daily clicks"))
  = Return
      (tool_success
         (report_text "2025-11-03 09:05:02" (PStr "daily clicks")
            (PStr "2025-10-01") (PStr "2025-10-10") trend_query
            (Text.cat ["Summary of metrics across selected period:"; Text.nl;
                       "  - Total Impressions: 540"; Text.nl;
                       "  - Total Clicks: 29"; Text.nl;
                       "  - Average CTR: 5.67%"; Text.nl;
                       "  - Average Rank: 4.07"; Text.nl])
            (Text.cat ["2025-10-01 | 10 | 200 | 5.0% | 3.0"; Text.nl;
                       "2025-10-02 | 12 | 240 | 5.0% | 5.0"; Text.nl;
                       "2025-10-03 | 7 | 100 | 7.0% | 4.2"]))).
Proof. vm_compute. reflexivity. Qed.

Example api_query_echo :
  Py.str trend_query
  = "{'startDate': '2025-10-01', 'endDate': '2025-10-10', 'dimensions': ['date'], 'rowLimit': 3}".
Proof. vm_compute. reflexivity. Qed.

End Examples.

(** C2, as stated, does not hold: when the model answers with a query that
    groups by date over ten days and has [rowLimit] 3, that query is sent to
    the reporting API as it is. *)
Lemma trend_rule_not_enforced :
  ~ (forall (w : World) (params : pyval) (svc : service) (site : string) (q : pyval),
        In (Execute svc site q) (calls (handle_tool_call w params)) ->
        obeys_trend_rule q = true).
Proof.
  intros H.
  assert (Hin : In (Execute Examples.readonly_service site_url Examples.trend_query)
                   (calls (handle_tool_call
                             (Examples.world (Examples.gemini_response Examples.trend_answer)
                                             Examples.three_rows)
                             (Examples.tool_call "daily clicks")))).
  { vm_compute. do 5 right. left. reflexivity. }
  apply H in Hin. vm_compute in Hin. discriminate Hin.
Qed.

Lemma sent_query_is_model_output_witness :
  site_url = site_url
  /\ from_model (Examples.world (Examples.gemini_response Examples.trend_answer)
                                Examples.three_rows)
                Examples.trend_query.
Proof.
  apply (@sent_query_is_model_output
           (Examples.world (Examples.gemini_response Examples.trend_answer)
                           Examples.three_rows)
           (Examples.tool_call "daily clicks")
           Examples.readonly_service site_url Examples.trend_query).
  vm_compute. do 5 right. left. reflexivity.
Defined.

(** C1 fails on the code: when the reporting API returns zero rows the
    pipeline has no [no_results] branch.  The formatter is entered (the clock
    is read after the API call), the mean divides 0 by 0, and the tool call
    ends as an error result. *)
Theorem zero_rows_division_fault :
  let call :=
    handle_tool_call (Examples.world (Examples.gemini_response Examples.trend_answer) [])
                     (Examples.tool_call "daily clicks") in
  result call
  = Return (tool_error "Tool error (search_console_query): Error processing Gemini API response: division by zero")
  /\ map Examples.kind (calls call)
     = ["getenv"; "now"; "now"; "post"; "build"; "execute"; "now"].
Proof. split; vm_compute; reflexivity. Qed.

(** A response without the [rows] key faults earlier, in
    [make_gsc_api_request]. *)
Example missing_rows_key_fault :
  let w := {| getenv := getenv (Examples.world PNone []);
              clock := clock (Examples.world PNone []);
              http_post_json := fun _ _ _ =>
                inr (Examples.gemini_response Examples.trend_answer);
              b64decode := b64decode (Examples.world PNone []);
              utf8_decode := utf8_decode (Examples.world PNone []);
              service_account_info := fun _ _ => None;
              discovery := fun _ _ _ => None;
              searchanalytics_query := fun _ _ _ => Return (PDict []) |} in
  result (handle_tool_call w (Examples.tool_call "daily clicks"))
  = Return (tool_error "Tool error (search_console_query): Error processing Gemini API response: 'rows'").
Proof. vm_compute. reflexivity. Qed.

(** The fenced answer of the model ends the tool call as an error, where
    the same answer without the fence gives the report. *)
Example fenced_answer_is_tool_error :
  result (handle_tool_call
            (Examples.world (Examples.gemini_response Examples.fenced_answer)
                            Examples.three_rows)
            (Examples.tool_call "daily clicks"))
  = Return (tool_error "Tool error (search_console_query): Error processing Gemini API response: Expecting value: line 1 column 1 (char 0)").
Proof. vm_compute. reflexivity. Qed.

(** *** The theorems at concrete requests *)

(** *** The claim read to the letter *)

(** What the report shows on the line that starts with [label]. *)
Definition shown (label report : string) : option string :=
  match filter (String.prefix label) (Text.split Text.nl_char report) with
  | line :: _ =>
      Some (substring (String.length label) (String.length line - String.length label) line)
  | [] => None
  end.

(** The summary of [report] shows the exact sums, and the exact means
    rounded to the nearest hundredth. *)
Definition shows_exact_means (rs : list metrics) (report : string) : Prop :=
  shown "  - Total Impressions: " report
  = Some (NilZero.string_of_int (Z.to_int (fold_right Z.add 0 (map m_impressions rs))))
  /\ shown "  - Total Clicks: " report
     = Some (NilZero.string_of_int (Z.to_int (fold_right Z.add 0 (map m_clicks rs))))
  /\ (exists kc,
         nearest_hundredth (100 * exact_mean (map (fun r => num_value (m_ctr r)) rs)) kc
         /\ shown "  - Average CTR: " report = Some (two_decimals kc ++ "%"))
  /\ (exists kp,
         nearest_hundredth (exact_mean (map (fun r => num_value (m_position r)) rs)) kp
         /\ shown "  - Average Rank: " report = Some (two_decimals kp)).

(** The mean of the positions 1.0 and 1.01 as the doubles hold them. *)
Lemma close_rows_mean :
  (exact_mean (map (fun r => num_value (m_position r)) Examples.close_metrics)
   == 9052235251014697 # 9007199254740992)%Q.
Proof. vm_compute. reflexivity. Qed.



Lemma missing_query_is_tool_error_witness :
  handle_tool_call (Examples.world PNone [])
                   (PDict [("name", PStr "search_console_query");
                           ("arguments", PDict [])]) []
  = (Return (tool_error "Tool error (search_console_query): query is required"), []).
Proof.
  apply (@missing_query_is_tool_error
           (Examples.world PNone [])
           [("name", PStr "search_console_query"); ("arguments", PDict [])] []).
  vm_compute. exact I.
Defined.

Lemma unknown_tool_not_found_witness :
  handle_tool_call (Examples.world PNone [])
                   (PDict [("name", PStr "nonexistent_tool");
                           ("arguments", PDict [("query", PStr "top queries")])]) []
  = (Return (tool_error "Tool not found: nonexistent_tool"), []).
Proof.
  apply (@unknown_tool_not_found
           (Examples.world PNone [])
           [("name", PStr "nonexistent_tool");
            ("arguments", PDict [("query", PStr "top queries")])]
           "nonexistent_tool" []).
  - reflexivity.
  - vm_compute. discriminate.
  - vm_compute. discriminate.
Defined.

Lemma no_candidates_empty_success_witness :
  let w := Examples.world (PDict []) [] in
  result (get_search_console_data w (PDict [("query", PStr "top queries")]))
  = Return (no_results (PStr "top queries"))
  /\ result (handle_tool_call w (Examples.tool_call "top queries"))
     = Return (tool_success "").
Proof.
  destruct (@no_candidates_empty_success
              (Examples.world (PDict []) [])
              [("name", PStr "search_console_query");
               ("arguments", PDict [("query", PStr "top queries")])]
              [("query", PStr "top queries")]
              (PStr "top queries") "test-key" (PDict []))
    as (Hdata & _ & _ & Hcall & _).
  - reflexivity.
  - reflexivity.
  - reflexivity.
  - reflexivity.
  - reflexivity.
  - vm_compute. discriminate.
  - reflexivity.
  - exists []. split; [reflexivity|left; reflexivity].
  - split; [exact Hdata|exact Hcall].
Defined.

(* ================================================================== *)
(** ** Further properties of the module *)
(* ================================================================== *)

Module Cases.

(** A world given by its environment, the answer of the model endpoint and
    the answer of the reporting API. *)
Definition world_with (env : string -> option string) (post : string + pyval)
           (api : outcome pyval) : World := {|
  getenv := env;
  clock := fun n =>
    {| year := 2025; month := 11; day := 3; hour := 9; minute := 5;
       second := Z.of_nat n |};
  http_post_json := fun _ _ _ => post;
  b64decode := fun s =>
    if String.eqb s "e30=" then Return "{}"
    else Raise (LibraryError "Incorrect padding");
  utf8_decode := fun s => Return s;
  service_account_info := fun _ _ => None;
  discovery := fun _ _ _ => None;
  searchanalytics_query := fun _ _ _ => api
|}.

Definition no_env : string -> option string := fun _ => None.

Definition both_keys : string -> option string :=
  fun name =>
    if String.eqb name "GEMINI_API_KEY" then Some "test-key"
    else if String.eqb name "SEARCH_CONSOLE_KEY" then Some "e30="
    else None.

Definition readonly_credentials : credentials :=
  Credentials (PDict []) ["https://www.googleapis.com/auth/webmasters.readonly"].

End Cases.

(** *** Routing *)

(** X1: every method other than [initialize], [tools/list] and [tools/call]
    raises [ValueError] with the text [Method not found: <method>]; nothing
    outside the module is called. *)
Theorem unknown_method_raises (w : World) (method : string) (params : pyval) (t : trace) :
  method <> "initialize" ->
  method <> "tools/list" ->
  method <> "tools/call" ->
  handle_request w method params t
  = (Raise (ValueError ("Method not found: " ++ method)), t).
Proof.
  intros H1 H2 H3. unfold handle_request.
  destruct (String.eqb_spec method "initialize"); [contradiction|].
  destruct (String.eqb_spec method "tools/list"); [contradiction|].
  destruct (String.eqb_spec method "tools/call"); [contradiction|].
  reflexivity.
Qed.

Lemma unknown_method_raises_witness :
  handle_request (Cases.world_with Cases.no_env (inl "") (Return PNone))
                 "notifications/initialized" PNone []
  = (Raise (ValueError "Method not found: notifications/initialized"), []).
Proof.
  apply (@unknown_method_raises
           (Cases.world_with Cases.no_env (inl "") (Return PNone))
           "notifications/initialized" PNone []); vm_compute; discriminate.
Defined.

(** X2: only [tools/call] reaches the world.  For any other method the
    trace is left as it was, and the outcome is the same in every world and
    for every [params]. *)
Theorem only_tool_calls_reach_the_world
        (w w' : World) (method : string) (params params' : pyval) (t : trace) :
  method <> "tools/call" ->
  snd (handle_request w method params t) = t
  /\ fst (handle_request w method params t) = fst (handle_request w' method params' t).
Proof.
  intros H. unfold handle_request.
  destruct (String.eqb method "initialize"); [split; reflexivity|].
  destruct (String.eqb method "tools/list"); [split; reflexivity|].
  destruct (String.eqb_spec method "tools/call"); [contradiction|].
  split; reflexivity.
Qed.

Lemma only_tool_calls_reach_the_world_witness :
  snd (handle_request (Cases.world_with Cases.both_keys (inl "") (Return PNone))
                      "initialize" PNone [Now]) = [Now]
  /\ fst (handle_request (Cases.world_with Cases.both_keys (inl "") (Return PNone))
                         "initialize" PNone [Now])
     = fst (handle_request (Cases.world_with Cases.no_env (inr PNone) (Return PNone))
                           "initialize" (PDict []) [Now]).
Proof.
  apply (@only_tool_calls_reach_the_world
           (Cases.world_with Cases.both_keys (inl "") (Return PNone))
           (Cases.world_with Cases.no_env (inr PNone) (Return PNone))
           "initialize" PNone (PDict []) [Now]).
  vm_compute. discriminate.
Defined.

(** X3: a [tools/call] whose [params] are not an object is not contained:
    the first [params.get] raises [AttributeError], and the exception leaves
    [handle_request]. *)
Theorem params_not_an_object_raise (w : World) (params : pyval) (t : trace) :
  (forall d, params <> PDict d) ->
  handle_request w "tools/call" params t
  = (Raise (AttributeError
              (Py.quoted (Py.type_name params) ++ " object has no attribute 'get'")), t).
Proof.
  intros H. change (handle_request w "tools/call" params t)
    with (handle_tool_call w params t).
  apply handle_tool_call_not_dict. exact H.
Qed.

Lemma params_not_an_object_raise_witness :
  handle_request (Cases.world_with Cases.both_keys (inl "") (Return PNone))
                 "tools/call" PNone []
  = (Raise (AttributeError "'NoneType' object has no attribute 'get'"), []).
Proof.
  apply (@params_not_an_object_raise
           (Cases.world_with Cases.both_keys (inl "") (Return PNone)) PNone []).
  intros d. discriminate.
Defined.

(** *** String arguments *)

(** X4: arguments given as a JSON string are the same call as the object
    they decode to (when that is not itself a string): the result and the
    calls made are equal. *)
Theorem string_arguments_are_decoded
        (w : World) (d1 d2 : list (string * pyval)) (s : string) (a : pyval) (t : trace) :
  tool_name_of d1 = tool_name_of d2 ->
  arguments_of d1 = PStr s ->
  arguments_of d2 = a ->
  Json.loads s = Return a ->
  Py.is_str a = false ->
  handle_tool_call w (PDict d1) t = handle_tool_call w (PDict d2) t.
Proof.
  intros Hname H1 H2 Hs Ha.
  rewrite !handle_tool_call_cases. unfold decoded_arguments.
  rewrite H1, H2, Hs, Hname.
  destruct a; try reflexivity. discriminate Ha.
Qed.

Lemma string_arguments_are_decoded_witness :
  handle_tool_call
    (Cases.world_with Cases.no_env (inl "") (Return PNone))
    (PDict [("name", PStr "search_console_query");
            ("arguments", PStr (Text.cat ["{"; Text.dq; "query"; Text.dq; ": ";
                                          Text.dq; "top pages"; Text.dq; "}"]))]) []
  = handle_tool_call
      (Cases.world_with Cases.no_env (inl "") (Return PNone))
      (PDict [("name", PStr "search_console_query");
              ("arguments", PDict [("query", PStr "top pages")])]) [].
Proof.
  apply (@string_arguments_are_decoded
           (Cases.world_with Cases.no_env (inl "") (Return PNone))
           [("name", PStr "search_console_query");
            ("arguments", PStr (Text.cat ["{"; Text.dq; "query"; Text.dq; ": ";
                                          Text.dq; "top pages"; Text.dq; "}"]))]
           [("name", PStr "search_console_query");
            ("arguments", PDict [("query", PStr "top pages")])]
           (Text.cat ["{"; Text.dq; "query"; Text.dq; ": ";
                      Text.dq; "top pages"; Text.dq; "}"])
           (PDict [("query", PStr "top pages")]) []);
    vm_compute; reflexivity.
Defined.

(** *** The pipeline up to the model request *)

Section ModelRequest.

Variable w : World.

(** The [except] clauses of [get_search_console_data]. *)
Definition wrap_errors (e : exn) : M pyval :=
  if Py.is_request_exception e
  then raise (PyException ("Gemini API request failed: " ++ Py.str_exn e))
  else raise (PyException ("Error processing Gemini API response: " ++ Py.str_exn e)).

(** The instructions never fail: they take two readings of the clock. *)
Lemma gsc_system_prompt_run (t : trace) :
  gsc_system_prompt w t
  = (Return (system_prompt_text (strftime (clock w (reads t))) "www.yourdomain.ai"
                                (strftime (clock w (S (reads t))))),
     (t ++ [Now; Now])%list).
Proof.
  unfold gsc_system_prompt, bind, datetime_now, lift, ret.
  rewrite site_domain_value, reads_app. cbn [reads filter is_now List.length].
  rewrite Nat.add_1_r, <- app_assoc. reflexivity.
Qed.

Lemma truthy_key (key : string) : key <> "" -> Py.truthy (PStr key) = true.
Proof.
  intros H. cbn. destruct (String.eqb_spec key ""); [contradiction|reflexivity].
Qed.

(** With a query and a key, the function gets as far as its [try] block. *)
Lemma get_search_console_data_reaches_model
      (a : list (string * pyval)) (query : pyval) (key : string) :
  Py.lookup a "query" = Some query ->
  Py.truthy query = true ->
  getenv w "GEMINI_API_KEY" = Some key ->
  key <> "" ->
  run (get_search_console_data w (PDict a))
  = try_except (query_search_console w query (gemini_url key) (first_payload w query))
               wrap_errors [Getenv "GEMINI_API_KEY"; Now; Now].
Proof.
  intros Hq Htrue Hkey Hne.
  unfold run, get_search_console_data.
  rewrite bind_lift. cbn [Py.get]. rewrite Hq, Htrue. cbn [negb].
  unfold os_getenv. rewrite bind_assoc, bind_emit. cbv beta. rewrite bind_ret.
  rewrite Hkey, (truthy_key Hne). cbn [negb app].
  rewrite (bind_result _ (gsc_system_prompt_run [Getenv "GEMINI_API_KEY"])).
  reflexivity.
Qed.

End ModelRequest.

(** X5: with a query but without a usable [GEMINI_API_KEY] (unset or
    empty), the tool call ends as an error that names the variable; the
    environment is read and no request is sent. *)
Theorem model_key_is_required
        (w : World) (d a : list (string * pyval)) (query : pyval) (t : trace) :
  Py.lookup d "name" = Some (PStr "search_console_query") ->
  decoded_arguments d = Some (PDict a) ->
  Py.lookup a "query" = Some query ->
  Py.truthy query = true ->
  getenv w "GEMINI_API_KEY" = None \/ getenv w "GEMINI_API_KEY" = Some "" ->
  handle_tool_call w (PDict d) t
  = (Return (tool_error "Tool error (search_console_query): GEMINI_API_KEY environment variable is not set"),
     (t ++ [Getenv "GEMINI_API_KEY"])%list).
Proof.
  intros Hname Hdec Hq Htrue Hkey.
  rewrite handle_tool_call_cases, Hdec. unfold tool_name_of. rewrite Hname.
  cbn [Py.ne_str String.eqb Ascii.eqb Bool.eqb negb].
  rewrite (@call_tool_result w (PDict a) t (t ++ [Getenv "GEMINI_API_KEY"])%list
             (Raise (ValueError "GEMINI_API_KEY environment variable is not set"))).
  - reflexivity.
  - unfold get_search_console_data.
    rewrite bind_lift. cbn [Py.get]. rewrite Hq, Htrue. cbn [negb].
    unfold os_getenv. rewrite bind_assoc, bind_emit. cbv beta. rewrite bind_ret.
    destruct Hkey as [-> | ->]; reflexivity.
Qed.

Lemma model_key_is_required_witness :
  handle_tool_call (Cases.world_with Cases.no_env (inl "") (Return PNone))
                   (Examples.tool_call "top pages") []
  = (Return (tool_error "Tool error (search_console_query): GEMINI_API_KEY environment variable is not set"),
     [Getenv "GEMINI_API_KEY"]).
Proof.
  apply (@model_key_is_required
           (Cases.world_with Cases.no_env (inl "") (Return PNone))
           [("name", PStr "search_console_query");
            ("arguments", PDict [("query", PStr "top pages")])]
           [("query", PStr "top pages")] (PStr "top pages") []).
  - reflexivity.
  - reflexivity.
  - reflexivity.
  - reflexivity.
  - left. reflexivity.
Defined.

(** X6: when the request to the model fails, the tool call ends as an error
    that starts with [Gemini API request failed:], and the calls stop at the
    request: neither the credentials nor the reporting API are touched. *)
Theorem request_failure_stops_the_pipeline
        (w : World) (d a : list (string * pyval)) (query : pyval) (key msg : string) :
  Py.lookup d "name" = Some (PStr "search_console_query") ->
  decoded_arguments d = Some (PDict a) ->
  Py.lookup a "query" = Some query ->
  Py.truthy query = true ->
  getenv w "GEMINI_API_KEY" = Some key ->
  key <> "" ->
  http_post_json w (gemini_url key) (first_payload w query) 30 = inl msg ->
  run (handle_tool_call w (PDict d))
  = (Return (tool_error ("Tool error (search_console_query): Gemini API request failed: "
                           ++ msg)),
     [Getenv "GEMINI_API_KEY"; Now; Now;
      HttpPost (gemini_url key) (first_payload w query) 30]).
Proof.
  intros Hname Hdec Hq Htrue Hkey Hne Hpost.
  unfold run. rewrite handle_tool_call_cases, Hdec. unfold tool_name_of. rewrite Hname.
  cbn [Py.ne_str String.eqb Ascii.eqb Bool.eqb negb].
  rewrite (@call_tool_result w (PDict a) []
             [Getenv "GEMINI_API_KEY"; Now; Now;
              HttpPost (gemini_url key) (first_payload w query) 30]
             (Raise (PyException ("Gemini API request failed: " ++ msg)))).
  - reflexivity.
  - pose proof (get_search_console_data_reaches_model Hq Htrue Hkey Hne) as Hrun.
    unfold run in Hrun. rewrite Hrun.
    unfold try_except, query_search_console, requests_post_json.
    rewrite bind_assoc, bind_emit. cbv beta. rewrite Hpost. reflexivity.
Qed.

Lemma request_failure_stops_the_pipeline_witness :
  run (handle_tool_call
         (Cases.world_with Cases.both_keys (inl "503 Server Error") (Return PNone))
         (Examples.tool_call "top pages"))
  = (Return (tool_error "Tool error (search_console_query): Gemini API request failed: 503 Server Error"),
     [Getenv "GEMINI_API_KEY"; Now; Now;
      HttpPost (gemini_url "test-key")
               (first_payload
                  (Cases.world_with Cases.both_keys (inl "503 Server Error") (Return PNone))
                  (PStr "top pages")) 30]).
Proof.
  apply (@request_failure_stops_the_pipeline
           (Cases.world_with Cases.both_keys (inl "503 Server Error") (Return PNone))
           [("name", PStr "search_console_query");
            ("arguments", PDict [("query", PStr "top pages")])]
           [("query", PStr "top pages")] (PStr "top pages") "test-key" "503 Server Error").
  - reflexivity.
  - reflexivity.
  - reflexivity.
  - reflexivity.
  - reflexivity.
  - vm_compute. discriminate.
  - reflexivity.
Defined.

(** The exceptions [get_search_console_data] can raise. *)
Definition pipeline_error (e : exn) : Prop :=
  e = ValueError "query is required"
  \/ (exists m, e = AttributeError m)
  \/ e = ValueError "GEMINI_API_KEY environment variable is not set"
  \/ (exists m, e = PyException ("Gemini API request failed: " ++ m))
  \/ (exists m, e = PyException ("Error processing Gemini API response: " ++ m)).

(** X7: whatever goes wrong inside [get_search_console_data], the exception
    that leaves it is one of five: the two input errors, the missing key, or
    a plain [Exception] whose text starts with [Gemini API request failed:] or
    with [Error processing Gemini API response:].  So a failure of the
    credentials, of the reporting API or of the formatter is reported under
    one of these two headings: the second, unless the exception is a
    [RequestException]. *)
Theorem pipeline_errors_are_wrapped
        (w : World) (arguments : pyval) (t : trace) (e : exn) :
  fst (get_search_console_data w arguments t) = Raise e -> pipeline_error e.
Proof.
  unfold get_search_console_data, pipeline_error. rewrite bind_lift.
  destruct arguments as [| | | | | |a]; cbn [Py.get fst];
    try (intros [= <-]; right; left; eexists; reflexivity).
  destruct (negb (Py.truthy _)).
  { intros [= <-]. left. reflexivity. }
  unfold os_getenv. rewrite bind_assoc, bind_emit. cbv beta. rewrite bind_ret.
  destruct (negb (Py.truthy _)).
  { intros [= <-]. right. right. left. reflexivity. }
  rewrite (bind_result _ (gsc_system_prompt_run w _)).
  unfold try_except.
  destruct (query_search_console _ _ _ _ _) as [[r|e'] t']; cbn [fst].
  - discriminate.
  - destruct (Py.is_request_exception e'); intros [= <-].
    + right. right. right. left. eexists. reflexivity.
    + right. right. right. right. eexists. reflexivity.
Qed.

Lemma pipeline_errors_are_wrapped_witness :
  pipeline_error (PyException "Error processing Gemini API response: division by zero").
Proof.
  apply (@pipeline_errors_are_wrapped
           (Examples.world (Examples.gemini_response Examples.trend_answer) [])
           (PDict [("query", PStr "daily clicks")]) []).
  vm_compute. reflexivity.
Defined.

(** *** Credentials and the service object *)

Definition readonly_scope : list string :=
  ["https://www.googleapis.com/auth/webmasters.readonly"].

(** Building credentials calls nothing that is traced. *)
Lemma credentials_leave_no_trace
      (w : World) (key : pyval) (scopes : list string) (t : trace) :
  snd (credentials_from_base64_env w key scopes t) = t.
Proof.
  unfold credentials_from_base64_env.
  destruct (negb (Py.truthy (gsc_base64_key w))); [reflexivity|].
  destruct (gsc_base64_key w); try reflexivity.
  unfold bind, lift, from_service_account_info, ret, raise.
  destruct (b64decode w s); [|reflexivity].
  destruct (utf8_decode w a); [|reflexivity].
  destruct (Json.loads a0); [|reflexivity].
  destruct (service_account_info w a1 scopes); reflexivity.
Qed.

(** X8: without [SEARCH_CONSOLE_KEY] in the environment both functions
    raise [ValueError] before anything is decoded or built; the text quotes
    the value read, [None], where the name of the variable is meant. *)
Theorem service_key_is_required (w : World) (key : pyval) (scopes : list string) (t : trace) :
  getenv w "SEARCH_CONSOLE_KEY" = None ->
  credentials_from_base64_env w key scopes t
  = (Raise (ValueError "Environment variable 'None' not found or is empty."), t)
  /\ create_gsc_service_obj w key t
     = (Raise (ValueError "Environment variable 'None' not found or is empty."), t).
Proof.
  intros H.
  assert (Hc : forall k s,
             credentials_from_base64_env w k s t
             = (Raise (ValueError "Environment variable 'None' not found or is empty."), t)).
  { intros k s. unfold credentials_from_base64_env, gsc_base64_key. rewrite H. reflexivity. }
  split; [apply Hc|].
  unfold create_gsc_service_obj. rewrite (bind_result _ (Hc _ _)). reflexivity.
Qed.

Lemma service_key_is_required_witness :
  credentials_from_base64_env (Cases.world_with Cases.no_env (inl "") (Return PNone))
                              (PStr "e30=") readonly_scope []
  = (Raise (ValueError "Environment variable 'None' not found or is empty."), [])
  /\ create_gsc_service_obj (Cases.world_with Cases.no_env (inl "") (Return PNone))
                            (PStr "e30=") []
     = (Raise (ValueError "Environment variable 'None' not found or is empty."), []).
Proof.
  apply (@service_key_is_required
           (Cases.world_with Cases.no_env (inl "") (Return PNone))
           (PStr "e30=") readonly_scope []).
  reflexivity.
Defined.

Lemma create_service_run
      (w : World) (key : pyval) (t t' : trace) (svc : service) :
  create_gsc_service_obj w key t = (Return svc, t') ->
  exists k bytes text info,
    getenv w "SEARCH_CONSOLE_KEY" = Some k
    /\ b64decode w k = Return bytes
    /\ utf8_decode w bytes = Return text
    /\ Json.loads text = Return info
    /\ svc = Service "webmasters" "v3" (Credentials info readonly_scope)
    /\ t' = (t ++ [Build "webmasters" "v3" (Credentials info readonly_scope)])%list.
Proof.
  unfold create_gsc_service_obj.
  pose proof (credentials_leave_no_trace w (gsc_base64_key w) readonly_scope t) as Htr.
  destruct (credentials_from_base64_env w (gsc_base64_key w) readonly_scope t)
    as [[c|e] t1] eqn:Hc; cbn in Htr; subst t1.
  - destruct (credentials_come_from_environment Hc)
      as (k & bytes & text & info & Hk & Hb & Hu & Hj & ->).
    fold readonly_scope. rewrite (bind_result _ Hc).
    unfold build. rewrite bind_assoc, bind_emit. cbv beta.
    destruct (discovery w "webmasters" "v3" (Credentials info readonly_scope)).
    + discriminate.
    + rewrite bind_ret. intros [= <- <-].
      exists k, bytes, text, info. repeat split; assumption.
  - fold readonly_scope. rewrite (bind_result _ Hc). discriminate.
Qed.

(** X9: a service object that [create_gsc_service_obj] returns is the
    [webmasters] [v3] service, built once, with credentials decoded from the
    key of the environment and limited to the read-only scope. *)
Theorem service_is_read_only
        (w : World) (key : pyval) (t t' : trace) (svc : service) :
  create_gsc_service_obj w key t = (Return svc, t') ->
  exists k bytes text info,
    getenv w "SEARCH_CONSOLE_KEY" = Some k
    /\ b64decode w k = Return bytes
    /\ utf8_decode w bytes = Return text
    /\ Json.loads text = Return info
    /\ svc = Service "webmasters" "v3" (Credentials info readonly_scope)
    /\ t' = (t ++ [Build "webmasters" "v3" (Credentials info readonly_scope)])%list.
Proof. apply create_service_run. Qed.

Lemma service_is_read_only_witness :
  exists k bytes text info,
    getenv (Cases.world_with Cases.both_keys (inl "") (Return PNone)) "SEARCH_CONSOLE_KEY"
    = Some k
    /\ b64decode (Cases.world_with Cases.both_keys (inl "") (Return PNone)) k = Return bytes
    /\ utf8_decode (Cases.world_with Cases.both_keys (inl "") (Return PNone)) bytes
       = Return text
    /\ Json.loads text = Return info
    /\ Service "webmasters" "v3" Cases.readonly_credentials
       = Service "webmasters" "v3" (Credentials info readonly_scope)
    /\ [Build "webmasters" "v3" Cases.readonly_credentials]
       = ([] ++ [Build "webmasters" "v3" (Credentials info readonly_scope)])%list.
Proof.
  apply (@service_is_read_only
           (Cases.world_with Cases.both_keys (inl "") (Return PNone))
           PNone [] [Build "webmasters" "v3" Cases.readonly_credentials]
           (Service "webmasters" "v3" Cases.readonly_credentials)).
  vm_compute. reflexivity.
Defined.

(** *** The request to the reporting API *)

Lemma api_response_is_returned_as_is_aux
      (w : World) (svc : service) (site : string) (payload : pyval) (t : trace) :
  snd (make_gsc_api_request w svc site payload t) = (t ++ [Execute svc site payload])%list
  /\ forall response,
       fst (make_gsc_api_request w svc site payload t) = Return response ->
       searchanalytics_query w svc site payload = Return response.
Proof.
  unfold make_gsc_api_request, execute_query.
  rewrite bind_assoc, bind_emit. cbv beta. rewrite bind_lift.
  destruct (searchanalytics_query w svc site payload) as [response|e].
  - cbv beta iota. rewrite bind_lift.
    destruct (Py.getkey response "rows") as [rows0|]; [|split; [reflexivity|discriminate]].
    rewrite bind_lift.
    destruct (Py.iter rows0) as [rows|]; [|split; [reflexivity|discriminate]].
    rewrite bind_lift.
    destruct (omap (clean_row payload) rows); [|split; [reflexivity|discriminate]].
    split; [reflexivity|]. cbn. intros r [= <-]. reflexivity.
  - split; [reflexivity|discriminate].
Qed.

(** X10: [make_gsc_api_request] queries the reporting API exactly once,
    with the site and the payload it was given, and what it returns is the
    response of the API itself: the rows it cleans are thrown away. *)
Theorem api_response_is_returned_as_is
        (w : World) (svc : service) (site : string) (payload : pyval) (t : trace) :
  snd (make_gsc_api_request w svc site payload t) = (t ++ [Execute svc site payload])%list
  /\ forall response,
       fst (make_gsc_api_request w svc site payload t) = Return response ->
       searchanalytics_query w svc site payload = Return response.
Proof. apply api_response_is_returned_as_is_aux. Qed.

(** X11: a response without the [rows] key (what the API sends when nothing
    matches) makes [make_gsc_api_request] raise [KeyError('rows')], after the
    query has been made. *)
Theorem response_without_rows_raises
        (w : World) (svc : service) (site : string) (payload : pyval) (t : trace)
        (r : list (string * pyval)) :
  searchanalytics_query w svc site payload = Return (PDict r) ->
  Py.lookup r "rows" = None ->
  make_gsc_api_request w svc site payload t
  = (Raise (KeyError (PStr "rows")), (t ++ [Execute svc site payload])%list).
Proof.
  intros Hq Hrows. unfold make_gsc_api_request, execute_query.
  rewrite bind_assoc, bind_emit. cbv beta. rewrite bind_lift, Hq. cbv beta iota.
  rewrite bind_lift. unfold Py.getkey. cbn [Py.getitem]. rewrite Hrows. reflexivity.
Qed.

Lemma response_without_rows_raises_witness :
  make_gsc_api_request
    (Cases.world_with Cases.both_keys (inl "") (Return (PDict [("responseAggregationType", PStr "byProperty")])))
    (Service "webmasters" "v3" Cases.readonly_credentials)
    site_url Examples.trend_query []
  = (Raise (KeyError (PStr "rows")),
     [Execute (Service "webmasters" "v3" Cases.readonly_credentials)
              site_url Examples.trend_query]).
Proof.
  apply (@response_without_rows_raises
           (Cases.world_with Cases.both_keys (inl "")
              (Return (PDict [("responseAggregationType", PStr "byProperty")])))
           (Service "webmasters" "v3" Cases.readonly_credentials)
           site_url Examples.trend_query []
           [("responseAggregationType", PStr "byProperty")]).
  - reflexivity.
  - reflexivity.
Defined.

(** *** Cleaning rows that are well formed *)

Section CleanRows.

Variables (payload row : pyval) (dims keys : list pyval).

Hypothesis payload_dims : Py.getkey payload "dimensions" = Return (PList dims).
Hypothesis dims_hashable : Forall (fun x => Py.hashable x = true) dims.
Hypothesis row_keys : Py.getkey row "keys" = Return (PList keys).

Lemma seq_index_nat {A} (l : list A) (i : nat) :
  (i < List.length l)%nat ->
  exists x, Py.seq_index l (Z.of_nat i) = Some x /\ nth_error l i = Some x.
Proof.
  intros Hi. unfold Py.seq_index.
  destruct (Z.ltb_spec (Z.of_nat i) 0) as [Hneg|_]; [lia|].
  destruct (Z.leb_spec 0 (Z.of_nat i)) as [_|Hneg]; [|lia].
  destruct (Z.ltb_spec (Z.of_nat i) (Z.of_nat (List.length l))) as [_|Hge]; [|lia].
  cbn [andb]. rewrite Nat2Z.id.
  destruct (nth_error l i) as [x|] eqn:Hx.
  - exists x. split; reflexivity.
  - apply nth_error_None in Hx. lia.
Qed.

Lemma copy_keys_succeeds (n i : nat) :
  (i + n <= List.length dims)%nat ->
  (i + n <= List.length keys)%nat ->
  exists data, copy_keys payload row (Z.of_nat i) n = Return data.
Proof.
  revert i. induction n as [|n IH]; intros i Hd Hk.
  - exists []. reflexivity.
  - cbn [copy_keys]. rewrite row_keys. cbn [obind].
    destruct (@seq_index_nat _ keys i ltac:(lia)) as (value & Hv & _).
    unfold Py.getidx at 1. cbn [Py.getitem Py.as_index]. rewrite Hv. cbn [obind].
    rewrite payload_dims. cbn [obind].
    destruct (@seq_index_nat _ dims i ltac:(lia)) as (name & Hn & Hnth).
    unfold Py.getidx at 1. cbn [Py.getitem Py.as_index]. rewrite Hn. cbn [obind].
    rewrite Forall_forall in dims_hashable.
    rewrite (dims_hashable _ (nth_error_In _ _ Hnth)).
    replace (Z.of_nat i + 1) with (Z.of_nat (S i)) by lia.
    destruct (IH (S i) ltac:(lia) ltac:(lia)) as (rest & ->).
    eexists. reflexivity.
Qed.

End CleanRows.

Lemma clean_row_succeeds (payload row : pyval) (dims : list pyval) (r : report_row) :
  Py.getkey payload "dimensions" = Return (PList dims) ->
  Forall (fun x => Py.hashable x = true) dims ->
  view row = Some r ->
  (List.length dims <= S (List.length (row_more_keys r)))%nat ->
  exists data, clean_row payload row = Return data.
Proof.
  intros Hdims Hhash Hv Hlen.
  destruct (view_fields Hv) as (Hk & Hc & Hi & Hx & Hp).
  unfold clean_row. rewrite Hdims. cbn [obind Py.len]. rewrite Nat2Z.id.
  destruct (@copy_keys_succeeds payload row dims (row_key r :: row_more_keys r)
              Hdims Hhash Hk (List.length dims) 0%nat) as (data & Hdata).
  { lia. }
  { cbn [List.length]. lia. }
  cbn [Z.of_nat] in Hdata. rewrite Hdata. cbn [obind].
  rewrite Hc, Hi, Hx, Hp. cbn [obind Py.mul]. unfold Py.fmul_int.
  rewrite of_int_100. cbn [obind Py.round2].
  eexists. reflexivity.
Qed.

(** X12: when the rows of the response are well formed and each has a key
    for every dimension of the payload, [make_gsc_api_request] returns the
    response. *)
Theorem well_formed_rows_are_accepted
        (w : World) (svc : service) (site : string) (payload response : pyval)
        (dims rows : list pyval) (rs : list report_row) (t : trace) :
  searchanalytics_query w svc site payload = Return response ->
  Py.getkey response "rows" = Return (PList rows) ->
  views rows rs ->
  Py.getkey payload "dimensions" = Return (PList dims) ->
  Forall (fun x => Py.hashable x = true) dims ->
  Forall (fun r => (List.length dims <= S (List.length (row_more_keys r)))%nat) rs ->
  make_gsc_api_request w svc site payload t
  = (Return response, (t ++ [Execute svc site payload])%list).
Proof.
  intros Hq Hrows Hviews Hdims Hhash Hlen.
  unfold make_gsc_api_request, execute_query.
  rewrite bind_assoc, bind_emit. cbv beta. rewrite bind_lift, Hq. cbv beta iota.
  rewrite bind_lift, Hrows, bind_lift. cbn [Py.iter].
  assert (Hall : exists results, omap (clean_row payload) rows = Return results).
  { clear Hrows. induction Hviews as [|row r rows rs Hv _ IH].
    - exists []. reflexivity.
    - inversion Hlen as [|? ? Hr Hrest]; subst.
      destruct (clean_row_succeeds Hdims Hhash Hv Hr) as (data & Hdata).
      destruct (IH Hrest) as (results & Hres).
      cbn [omap]. rewrite Hdata, Hres. eexists. reflexivity. }
  destruct Hall as (results & Hres). rewrite bind_lift, Hres. reflexivity.
Qed.

Lemma well_formed_rows_are_accepted_witness :
  make_gsc_api_request
    (Cases.world_with Cases.both_keys (inl "")
                      (Return (PDict [("rows", PList Examples.three_rows)])))
    (Service "webmasters" "v3" Cases.readonly_credentials)
    site_url Examples.trend_query []
  = (Return (PDict [("rows", PList Examples.three_rows)]),
     ([] ++ [Execute (Service "webmasters" "v3" Cases.readonly_credentials)
                     site_url Examples.trend_query])%list).
Proof.
  apply (@well_formed_rows_are_accepted
           (Cases.world_with Cases.both_keys (inl "")
                             (Return (PDict [("rows", PList Examples.three_rows)])))
           (Service "webmasters" "v3" Cases.readonly_credentials)
           site_url Examples.trend_query
           (PDict [("rows", PList Examples.three_rows)])
           [PStr "date"] Examples.three_rows Examples.three_views []).
  - reflexivity.
  - reflexivity.
  - repeat constructor.
  - reflexivity.
  - repeat constructor.
  - repeat constructor.
Defined.

(** *** The formatter on edge inputs *)

(** X13: whenever the [rows] of the response are empty (an empty list, but
    also an empty dict or string), the formatter reads the clock and then
    raises [ZeroDivisionError('division by zero')], in every world. *)
Theorem formatter_divides_by_row_count
        (w : World) (data query start_date end_date api_query_obj r : pyval) (t : trace) :
  Py.getkey data "rows" = Return r ->
  Py.iter r = Return [] ->
  format_search_console_data w data query start_date end_date api_query_obj t
  = (Raise (ZeroDivisionError "division by zero"), (t ++ [Now])%list).
Proof.
  intros Hr Hiter. unfold format_search_console_data, bind, datetime_now, lift.
  rewrite (format_body_no_rows _ _ _ _ _ Hr Hiter). reflexivity.
Qed.

Lemma formatter_divides_by_row_count_witness :
  format_search_console_data
    (Cases.world_with Cases.no_env (inl "") (Return PNone))
    (PDict [("rows", PDict [])]) (PStr "top pages") (PStr "2025-10-01") (PStr "2025-10-03")
    Examples.trend_query []
  = (Raise (ZeroDivisionError "division by zero"), ([] ++ [Now])%list).
Proof.
  apply (@formatter_divides_by_row_count
           (Cases.world_with Cases.no_env (inl "") (Return PNone))
           (PDict [("rows", PDict [])]) (PStr "top pages")
           (PStr "2025-10-01") (PStr "2025-10-03") Examples.trend_query (PDict []) []).
  - reflexivity.
  - reflexivity.
Defined.

(** A row with only its first key. *)
Definition first_key_only (r : report_row) : report_row :=
  {| row_key := row_key r; row_more_keys := []; row_clicks := row_clicks r;
     row_impressions := row_impressions r; row_ctr := row_ctr r;
     row_position := row_position r |}.

Lemma total_clicks_first_key_only (rs : list report_row) :
  total_clicks (map first_key_only rs) = total_clicks rs.
Proof.
  induction rs as [|r rs IH]; [reflexivity|].
  cbn [map total_clicks fold_right first_key_only row_clicks].
  fold (total_clicks (map first_key_only rs)). fold (total_clicks rs).
  rewrite IH. reflexivity.
Qed.

Lemma total_impressions_first_key_only (rs : list report_row) :
  total_impressions (map first_key_only rs) = total_impressions rs.
Proof.
  induction rs as [|r rs IH]; [reflexivity|].
  cbn [map total_impressions fold_right first_key_only row_impressions].
  fold (total_impressions (map first_key_only rs)). fold (total_impressions rs).
  rewrite IH. reflexivity.
Qed.

Lemma summary_first_key_only (rs : list report_row) :
  summary_of rs = summary_of (map first_key_only rs).
Proof.
  unfold summary_of, mean.
  rewrite total_clicks_first_key_only, total_impressions_first_key_only.
  rewrite !length_map, !map_map. reflexivity.
Qed.

Lemma lines_first_key_only (rs : list report_row) :
  map row_line rs = map row_line (map first_key_only rs).
Proof. rewrite map_map. reflexivity. Qed.

(** X14: the report shows the first key of each row and nothing of the
    others: two responses whose rows agree on the first key and on the four
    metrics give the same report. *)
Theorem report_uses_first_key_only
        (w : World) (data1 data2 query start_date end_date api_query_obj : pyval)
        (rows1 rows2 : list pyval) (rs1 rs2 : list report_row) (t : trace) :
  Py.getkey data1 "rows" = Return (PList rows1) ->
  Py.getkey data2 "rows" = Return (PList rows2) ->
  views rows1 rs1 ->
  views rows2 rs2 ->
  map first_key_only rs1 = map first_key_only rs2 ->
  rs1 <> [] ->
  Z.of_nat (List.length rs1) < 2 ^ 53 ->
  format_search_console_data w data1 query start_date end_date api_query_obj t
  = format_search_console_data w data2 query start_date end_date api_query_obj t.
Proof.
  intros H1 H2 Hv1 Hv2 Hsame Hne Hlen.
  assert (Hl : List.length rs2 = List.length rs1).
  { rewrite <- (length_map first_key_only rs2), <- Hsame. apply length_map. }
  assert (Hne2 : rs2 <> []).
  { destruct rs2; [|discriminate]. destruct rs1; [congruence|discriminate]. }
  unfold format_search_console_data, bind, datetime_now, lift.
  rewrite (format_body_typed _ _ _ _ _ H1 Hv1 Hne Hlen).
  rewrite (format_body_typed _ _ _ _ _ H2 Hv2 Hne2 ltac:(rewrite Hl; exact Hlen)).
  rewrite (summary_first_key_only rs1), (lines_first_key_only rs1), Hsame.
  rewrite <- (summary_first_key_only rs2), <- (lines_first_key_only rs2).
  reflexivity.
Qed.

Lemma report_uses_first_key_only_witness :
  format_search_console_data
    (Cases.world_with Cases.no_env (inl "") (Return PNone))
    (PDict [("rows", PList [PDict [("keys", PList [PStr "2025-10-01"; PStr "MOBILE"]);
                                   ("clicks", PInt 10); ("impressions", PInt 200);
                                   ("ctr", PFloat 0x1.999999999999ap-5);
                                   ("position", PFloat 0x1.8p+1)]])])
    (PStr "daily clicks") (PStr "2025-10-01") (PStr "2025-10-01") Examples.trend_query []
  = format_search_console_data
      (Cases.world_with Cases.no_env (inl "") (Return PNone))
      (PDict [("rows", PList [Examples.api_row "2025-10-01" 10 200
                                0x1.999999999999ap-5 0x1.8p+1])])
      (PStr "daily clicks") (PStr "2025-10-01") (PStr "2025-10-01") Examples.trend_query [].
Proof.
  apply (@report_uses_first_key_only
           (Cases.world_with Cases.no_env (inl "") (Return PNone))
           (PDict [("rows", PList [PDict [("keys", PList [PStr "2025-10-01"; PStr "MOBILE"]);
                                          ("clicks", PInt 10); ("impressions", PInt 200);
                                          ("ctr", PFloat 0x1.999999999999ap-5);
                                          ("position", PFloat 0x1.8p+1)]])])
           (PDict [("rows", PList [Examples.api_row "2025-10-01" 10 200
                                     0x1.999999999999ap-5 0x1.8p+1])])
           (PStr "daily clicks") (PStr "2025-10-01") (PStr "2025-10-01") Examples.trend_query
           [PDict [("keys", PList [PStr "2025-10-01"; PStr "MOBILE"]);
                   ("clicks", PInt 10); ("impressions", PInt 200);
                   ("ctr", PFloat 0x1.999999999999ap-5);
                   ("position", PFloat 0x1.8p+1)]]
           [Examples.api_row "2025-10-01" 10 200 0x1.999999999999ap-5 0x1.8p+1]
           [{| row_key := PStr "2025-10-01"; row_more_keys := [PStr "MOBILE"];
               row_clicks := 10; row_impressions := 200;
               row_ctr := 0x1.999999999999ap-5; row_position := 0x1.8p+1 |}]
           [{| row_key := PStr "2025-10-01"; row_more_keys := [];
               row_clicks := 10; row_impressions := 200;
               row_ctr := 0x1.999999999999ap-5; row_position := 0x1.8p+1 |}]
           []).
  - reflexivity.
  - reflexivity.
  - repeat constructor.
  - repeat constructor.
  - reflexivity.
  - discriminate.
  - vm_compute. reflexivity.
Defined.

(** *** What [clean_query] leaves *)

Section Fences.

Definition fence : string := "```".

Definition strip_fences (s : string) : string := Text.replace_from fence "" s 0.

Lemma replace_is_strip (s : string) : Text.replace fence "" s = strip_fences s.
Proof. reflexivity. Qed.

Lemma strip_hit (r : string) : strip_fences (fence ++ r) = strip_fences r.
Proof. destruct r; reflexivity. Qed.

Lemma strip_miss (c : ascii) (r : string) :
  prefix fence (String c r) = false ->
  strip_fences (String c r) = String c (strip_fences r).
Proof.
  intros H. unfold strip_fences. cbn [Text.replace_from]. rewrite H. reflexivity.
Qed.

Lemma prefix_cons_inv (c : ascii) (p s : string) :
  prefix (String c p) s = true -> exists s', s = String c s' /\ prefix p s' = true.
Proof.
  destruct s as [|c' s']; [discriminate|]. cbn [prefix].
  destruct (ascii_dec c c') as [<-|]; [|discriminate].
  intros H. exists s'. split; [reflexivity|exact H].
Qed.

Lemma prefix_fence_inv (s : string) :
  prefix fence s = true -> exists r, s = fence ++ r.
Proof.
  unfold fence. intros H.
  destruct (prefix_cons_inv H) as (s1 & -> & H1).
  destruct (prefix_cons_inv H1) as (s2 & -> & H2).
  destruct (prefix_cons_inv H2) as (s3 & -> & _).
  exists s3. reflexivity.
Qed.

Lemma prefix_empty (s : string) : prefix "" s = true.
Proof. destruct s; reflexivity. Qed.

Lemma prefix_tick_cons (c : ascii) (r : string) :
  prefix "`" (String c r) = if ascii_dec "`" c then true else false.
Proof. cbn [prefix]. rewrite prefix_empty. reflexivity. Qed.

Lemma prefix_two_cons (c : ascii) (r : string) :
  prefix "``" (String c r) = if ascii_dec "`" c then prefix "`" r else false.
Proof. reflexivity. Qed.

Lemma prefix_fence_cons (c : ascii) (r : string) :
  prefix fence (String c r) = if ascii_dec "`" c then prefix "``" r else false.
Proof. reflexivity. Qed.

(** A text that does not start with a backquote keeps that after
    cleaning, and likewise for two backquotes. *)
Lemma strip_keeps_no_tick (s : string) :
  prefix "`" s = false -> prefix "`" (strip_fences s) = false.
Proof.
  destruct s as [|c r]; [reflexivity|]. rewrite prefix_tick_cons. intros H.
  rewrite strip_miss.
  - rewrite prefix_tick_cons. exact H.
  - rewrite prefix_fence_cons. destruct (ascii_dec "`" c); [discriminate|reflexivity].
Qed.

Lemma strip_keeps_no_two_ticks (s : string) :
  prefix "``" s = false -> prefix "``" (strip_fences s) = false.
Proof.
  destruct s as [|c r]; [reflexivity|]. rewrite prefix_two_cons. intros H.
  rewrite strip_miss.
  - rewrite prefix_two_cons. destruct (ascii_dec "`" c); [|reflexivity].
    apply strip_keeps_no_tick. exact H.
  - rewrite prefix_fence_cons. destruct (ascii_dec "`" c); [|reflexivity].
    destruct r as [|c2 r2]; [reflexivity|].
    rewrite prefix_tick_cons in H. rewrite prefix_two_cons.
    destruct (ascii_dec "`" c2); [discriminate|reflexivity].
Qed.

Lemma contains_cons (needle : string) (c : ascii) (s : string) :
  Text.contains needle (String c s)
  = prefix needle (String c s) || Text.contains needle s.
Proof. reflexivity. Qed.

Lemma strip_leaves_no_fence_upto (n : nat) (s : string) :
  (String.length s <= n)%nat -> Text.contains fence (strip_fences s) = false.
Proof.
  revert s. induction n as [|n IH]; intros s Hlen.
  - destruct s; [reflexivity|cbn in Hlen; lia].
  - destruct s as [|c r]; [reflexivity|].
    destruct (prefix fence (String c r)) eqn:Hp.
    + destruct (prefix_fence_inv Hp) as (r3 & Hr3). rewrite Hr3, strip_hit.
      apply IH. rewrite Hr3 in Hlen. cbn in Hlen. lia.
    + rewrite (strip_miss Hp), contains_cons.
      rewrite (IH r ltac:(cbn in Hlen; lia)), orb_false_r.
      rewrite prefix_fence_cons in Hp |- *.
      destruct (ascii_dec "`" c); [|reflexivity].
      apply strip_keeps_no_two_ticks. exact Hp.
Qed.

Lemma strip_leaves_no_fence (s : string) :
  Text.contains fence (strip_fences s) = false.
Proof. apply (@strip_leaves_no_fence_upto (String.length s)). lia. Qed.

Lemma strip_without_fence (s : string) :
  Text.contains fence s = false -> strip_fences s = s.
Proof.
  induction s as [|c r IH]; [reflexivity|].
  rewrite contains_cons. intros H. apply orb_false_elim in H. destruct H as [Hp Hc].
  rewrite (strip_miss Hp), (IH Hc). reflexivity.
Qed.

End Fences.

(** X15: the text [clean_query] returns never contains three backquotes in
    a row. *)
Theorem cleaned_text_has_no_fence (generated : pyval) (cleaned : string) :
  clean_query generated = Return cleaned ->
  Text.contains "```" cleaned = false.
Proof.
  destruct generated; try discriminate.
  rewrite clean_query_str. intros [= <-].
  apply strip_leaves_no_fence.
Qed.

Lemma cleaned_text_has_no_fence_witness :
  Text.contains "```" ("json" ++ Text.nl ++ Examples.trend_answer ++ Text.nl) = false.
Proof.
  apply (@cleaned_text_has_no_fence (PStr Examples.fenced_answer)).
  vm_compute. reflexivity.
Defined.

(** X16: a model answer without three backquotes in a row is returned
    unchanged, so it is parsed exactly as the model wrote it. *)
Theorem unfenced_text_is_unchanged (s : string) :
  Text.contains "```" s = false ->
  clean_query (PStr s) = Return s.
Proof.
  intros H. rewrite clean_query_str.
  change (Text.replace "```" "" s) with (strip_fences s).
  rewrite (strip_without_fence H). reflexivity.
Qed.

Lemma unfenced_text_is_unchanged_witness :
  clean_query (PStr Examples.trend_answer) = Return Examples.trend_answer.
Proof.
  apply (@unfenced_text_is_unchanged Examples.trend_answer).
  vm_compute. reflexivity.
Defined.

(** X17: cleaning is idempotent: cleaning a cleaned text changes nothing. *)
Theorem clean_query_is_idempotent (generated : pyval) (cleaned : string) :
  clean_query generated = Return cleaned ->
  clean_query (PStr cleaned) = Return cleaned.
Proof.
  destruct generated; try discriminate.
  rewrite clean_query_str. intros [= <-].
  rewrite clean_query_str.
  change (Return (strip_fences (strip_fences s)) = Return (strip_fences s)).
  rewrite (strip_without_fence (strip_leaves_no_fence s)). reflexivity.
Qed.

Lemma clean_query_is_idempotent_witness :
  clean_query (PStr ("json" ++ Text.nl ++ Examples.trend_answer ++ Text.nl))
  = Return ("json" ++ Text.nl ++ Examples.trend_answer ++ Text.nl).
Proof.
  apply (@clean_query_is_idempotent (PStr Examples.fenced_answer)).
  vm_compute. reflexivity.
Defined.

(** *** Every tool call is answered *)

(** What [get_search_console_data] returns: the report with status
    [success], or the [no_results] dict. *)
Definition result_shape (r : pyval) : Prop :=
  (exists report generated query,
      r = PDict [("api_response", PStr report); ("api_query", generated);
                 ("user_query", query); ("status", PStr "success")])
  \/ (exists query, r = no_results query).

Lemma all_events (t : trace) : Forall (fun _ : event => True) t.
Proof. apply Forall_forall. trivial. Qed.

Lemma get_search_console_data_returns_shape (w : World) (arguments : pyval) :
  hoare (fun _ => True) (get_search_console_data w arguments) result_shape.
Proof.
  unfold get_search_console_data.
  eapply hoare_bind with (Q1 := fun _ => True); [apply hoare_lift; trivial|].
  intros query _.
  apply hoare_if; [apply hoare_raise|].
  eapply hoare_bind; [apply hoare_os_getenv; trivial|]. intros key _.
  apply hoare_if; [apply hoare_raise|].
  eapply hoare_bind; [apply hoare_system_prompt; trivial|]. intros prompt _.
  apply hoare_try; [|intros e; apply hoare_if; apply hoare_raise].
  unfold query_search_console.
  eapply hoare_bind; [apply hoare_post; trivial|]. intros response _.
  eapply hoare_bind with (Q1 := fun _ => True); [apply hoare_lift; trivial|].
  intros found _.
  destruct found.
  - eapply hoare_bind with (Q1 := fun _ => True); [apply hoare_lift; trivial|].
    intros generated _.
    eapply hoare_bind with (Q1 := fun _ => True); [apply hoare_lift; trivial|].
    intros cleaned _.
    eapply hoare_bind with (Q1 := fun _ => True); [apply hoare_lift; trivial|].
    intros q _.
    eapply hoare_bind with (Q1 := fun _ => True); [apply hoare_lift; trivial|].
    intros start_date _.
    eapply hoare_bind with (Q1 := fun _ => True); [apply hoare_lift; trivial|].
    intros end_date _.
    eapply hoare_bind; [apply hoare_service; trivial|]. intros svc _.
    eapply hoare_bind; [apply hoare_api_request; trivial|]. intros api_response _.
    eapply hoare_bind; [apply hoare_format; trivial|]. intros report _.
    apply hoare_ret. left. eexists. eexists. eexists. reflexivity.
  - apply hoare_ret. right. eexists. reflexivity.
Qed.

(** X18: a tool call whose [params] are an object is always answered: in
    every world [handle_tool_call] returns, and the result is either the
    error shape or the success shape, with a string as its text. *)
Theorem tool_call_is_always_answered
        (w : World) (d : list (string * pyval)) (t : trace) :
  exists text,
    fst (handle_tool_call w (PDict d) t) = Return (tool_error text)
    \/ fst (handle_tool_call w (PDict d) t) = Return (tool_success text).
Proof.
  rewrite handle_tool_call_cases.
  destruct (decoded_arguments d) as [arguments|];
    [|eexists; left; reflexivity].
  destruct (Py.ne_str (tool_name_of d) "search_console_query");
    [eexists; left; reflexivity|].
  destruct (get_search_console_data w arguments t) as [o t'] eqn:Hrun.
  rewrite (call_tool_result Hrun).
  destruct o as [r|e]; [|eexists; left; reflexivity].
  destruct (@get_search_console_data_returns_shape w arguments t (all_events t))
    as [_ Hshape].
  rewrite Hrun in Hshape.
  destruct (Hshape r eq_refl) as [(report & generated & query & ->) | (query & ->)].
  - exists report. right. reflexivity.
  - exists "". right. reflexivity.
Qed.

(** *** What a tool call sends out *)

(** The calls of [create_gsc_service_obj]: none, or one [build]. *)
Lemma create_service_calls (w : World) (key : pyval) (t : trace) :
  snd (create_gsc_service_obj w key t) = t
  \/ exists info,
       snd (create_gsc_service_obj w key t)
       = (t ++ [Build "webmasters" "v3" (Credentials info readonly_scope)])%list.
Proof.
  unfold create_gsc_service_obj. fold readonly_scope.
  pose proof (credentials_leave_no_trace w (gsc_base64_key w) readonly_scope t) as Htr.
  destruct (credentials_from_base64_env w (gsc_base64_key w) readonly_scope t)
    as [[c|e] t1] eqn:Hc; cbn in Htr; subst t1.
  - destruct (credentials_come_from_environment Hc) as (k & b & x & info & _ & _ & _ & _ & ->).
    rewrite (bind_result _ Hc). unfold build. rewrite bind_assoc, bind_emit. cbv beta.
    right. exists info.
    destruct (discovery w "webmasters" "v3" (Credentials info readonly_scope)); reflexivity.
  - rewrite (bind_result _ Hc). left. reflexivity.
Qed.

Section ToolCallEvents.

Variable w : World.
Variable d : list (string * pyval).

(** The calls a tool call for [query] may make. *)
Definition pipeline_event (query : pyval) (ev : event) : Prop :=
  match ev with
  | Getenv name => name = "GEMINI_API_KEY"
  | Now => True
  | HttpPost url body timeout =>
      timeout = 30
      /\ exists key t1 t2,
           getenv w "GEMINI_API_KEY" = Some key
           /\ url = gemini_url key
           /\ body = gemini_payload (system_prompt_text t1 "www.yourdomain.ai" t2)
                                    (Py.str query)
  | Build name version creds =>
      name = "webmasters" /\ version = "v3"
      /\ exists info, creds = Credentials info readonly_scope
  | Execute svc site q =>
      site = site_url
      /\ exists info, svc = Service "webmasters" "v3" (Credentials info readonly_scope)
  end.

Definition call_event (ev : event) : Prop :=
  exists arguments query,
    decoded_arguments d = Some arguments
    /\ query_of arguments = Some query
    /\ Py.truthy query = true
    /\ pipeline_event query ev.

Lemma hoare_service_shape (key : pyval) :
  (forall info, call_event (Build "webmasters" "v3" (Credentials info readonly_scope))) ->
  hoare call_event (create_gsc_service_obj w key)
        (fun svc => exists info,
             svc = Service "webmasters" "v3" (Credentials info readonly_scope)).
Proof.
  intros HP t Ht. split.
  - destruct (create_service_calls w key t) as [-> | (info & ->)]; [exact Ht|].
    apply Forall_app. split; [exact Ht|]. constructor; [apply HP|constructor].
  - intros svc Hsvc.
    destruct (create_gsc_service_obj w key t) as [o t'] eqn:Hrun. cbn in Hsvc. subst o.
    destruct (create_service_run Hrun) as (_ & _ & _ & info & _ & _ & _ & _ & -> & _).
    exists info. reflexivity.
Qed.

Lemma get_search_console_data_events (arguments : pyval) :
  decoded_arguments d = Some arguments ->
  hoare call_event (get_search_console_data w arguments) (fun _ => True).
Proof.
  intros Hdec. unfold get_search_console_data.
  eapply hoare_bind with (Q1 := fun q => Py.get arguments "query" PNone = Return q);
    [apply hoare_lift; trivial|].
  intros query Hget.
  destruct (Py.truthy query) eqn:Htrue; cbn [negb]; [|apply hoare_raise].
  assert (Hq : query_of arguments = Some query).
  { destruct arguments as [| | | | | |a]; try discriminate Hget.
    cbn in Hget. cbn. destruct (Py.lookup a "query") as [q|].
    - congruence.
    - injection Hget as <-. discriminate Htrue. }
  assert (Hev : forall ev, pipeline_event query ev -> call_event ev).
  { intros ev H. exists arguments, query. auto. }
  eapply hoare_bind
    with (Q1 := fun k => k = match getenv w "GEMINI_API_KEY" with
                             | Some s => PStr s
                             | None => PNone
                             end).
  { unfold os_getenv.
    eapply hoare_bind; [apply hoare_emit, Hev; reflexivity|].
    intros _ _. apply hoare_ret. reflexivity. }
  intros key0 ->.
  destruct (getenv w "GEMINI_API_KEY") as [key|] eqn:Hkey; [|apply hoare_raise].
  apply hoare_if; [apply hoare_raise|].
  eapply hoare_bind
    with (Q1 := fun p => exists t1 t2, p = system_prompt_text t1 "www.yourdomain.ai" t2).
  { intros t Ht. split.
    - apply (hoare_system_prompt (P := call_event) w (Hev Now I)); assumption.
    - rewrite gsc_system_prompt_run. cbn. intros p [= <-]. eexists. eexists. reflexivity. }
  intros p (t1 & t2 & ->).
  apply hoare_try; [|intros e; apply hoare_if; apply hoare_raise].
  unfold query_search_console.
  eapply hoare_bind with (Q1 := fun _ => True).
  { unfold requests_post_json.
    eapply hoare_bind.
    - apply hoare_emit, Hev. split; [reflexivity|].
      exists key, t1, t2. auto.
    - intros _ _. destruct (http_post_json w _ _ _);
        [apply hoare_raise|apply hoare_ret; trivial]. }
  intros response _.
  eapply hoare_bind with (Q1 := fun _ => True); [apply hoare_lift; trivial|].
  intros found _. destruct found; [|apply hoare_ret; trivial].
  eapply hoare_bind with (Q1 := fun _ => True); [apply hoare_lift; trivial|].
  intros generated _.
  eapply hoare_bind with (Q1 := fun _ => True); [apply hoare_lift; trivial|].
  intros cleaned _.
  eapply hoare_bind with (Q1 := fun _ => True); [apply hoare_lift; trivial|].
  intros q _.
  eapply hoare_bind with (Q1 := fun _ => True); [apply hoare_lift; trivial|].
  intros start_date _.
  eapply hoare_bind with (Q1 := fun _ => True); [apply hoare_lift; trivial|].
  intros end_date _.
  eapply hoare_bind.
  { apply hoare_service_shape. intros info. apply Hev.
    split; [reflexivity|]. split; [reflexivity|]. exists info. reflexivity. }
  intros svc (info & ->).
  eapply hoare_bind.
  { apply hoare_api_request. apply Hev. split; [reflexivity|]. exists info. reflexivity. }
  intros api_response _.
  eapply hoare_bind; [apply hoare_format, Hev; exact I|].
  intros report _. apply hoare_ret. trivial.
Qed.

Lemma handle_tool_call_events :
  hoare call_event (handle_tool_call w (PDict d)) (fun _ => True).
Proof.
  intros t Ht. rewrite handle_tool_call_cases.
  destruct (decoded_arguments d) as [arguments|] eqn:Hdec; [|split; [exact Ht|trivial]].
  destruct (Py.ne_str (tool_name_of d) "search_console_query");
    [split; [exact Ht|trivial]|].
  revert t Ht. change (hoare call_event (call_tool w arguments) (fun _ => True)).
  unfold call_tool. eapply hoare_bind with (Q1 := fun _ => True).
  - apply hoare_try.
    + eapply hoare_bind; [apply (get_search_console_data_events Hdec)|].
      intros r _. apply hoare_ret. trivial.
    + intros e. apply hoare_ret. trivial.
  - intros [error_result|r] _; [apply hoare_ret; trivial|].
    eapply hoare_bind with (Q1 := fun _ => True); [apply hoare_lift; trivial|].
    intros text_value _. apply hoare_ret. trivial.
Qed.

Lemma tool_call_event (ev : event) :
  In ev (calls (handle_tool_call w (PDict d))) -> call_event ev.
Proof.
  intros Hin.
  destruct (handle_tool_call_events (t := []) (Forall_nil _)) as [Htrace _].
  rewrite Forall_forall in Htrace. exact (Htrace _ Hin).
Qed.

End ToolCallEvents.

(** *** The request to the model *)

Section ModelRequest.

Variable w : World.
Variable d : list (string * pyval).

(** An HTTP request is the one the call builds from its query, the key of
    the environment and the first two readings of the clock. *)
Definition sent_request (ev : event) : Prop :=
  match ev with
  | HttpPost _ _ _ =>
      exists arguments query key,
        decoded_arguments d = Some arguments
        /\ query_of arguments = Some query
        /\ getenv w "GEMINI_API_KEY" = Some key
        /\ ev = HttpPost (gemini_url key) (first_payload w query) 30
  | _ => True
  end.

Lemma hoare_after_request (query : pyval) (url : string) (payload : pyval) :
  sent_request (HttpPost url payload 30) ->
  hoare sent_request (query_search_console w query url payload) (fun _ => True).
Proof.
  intros Hsent. unfold query_search_console.
  eapply hoare_bind with (Q1 := fun _ => True).
  { unfold requests_post_json.
    eapply hoare_bind; [apply hoare_emit, Hsent|].
    intros _ _. destruct (http_post_json w _ _ _);
      [apply hoare_raise|apply hoare_ret; trivial]. }
  intros response _.
  eapply hoare_bind with (Q1 := fun _ => True); [apply hoare_lift; trivial|].
  intros found _. destruct found; [|apply hoare_ret; trivial].
  eapply hoare_bind with (Q1 := fun _ => True); [apply hoare_lift; trivial|].
  intros generated _.
  eapply hoare_bind with (Q1 := fun _ => True); [apply hoare_lift; trivial|].
  intros cleaned _.
  eapply hoare_bind with (Q1 := fun _ => True); [apply hoare_lift; trivial|].
  intros q _.
  eapply hoare_bind with (Q1 := fun _ => True); [apply hoare_lift; trivial|].
  intros start_date _.
  eapply hoare_bind with (Q1 := fun _ => True); [apply hoare_lift; trivial|].
  intros end_date _.
  eapply hoare_bind; [apply hoare_service; intros; exact I|].
  intros svc _.
  eapply hoare_bind; [apply hoare_api_request; exact I|].
  intros api_response _.
  eapply hoare_bind; [apply hoare_format; exact I|].
  intros report _. apply hoare_ret. trivial.
Qed.

Lemma get_search_console_data_request (arguments : pyval) :
  decoded_arguments d = Some arguments ->
  Forall sent_request (calls (get_search_console_data w arguments)).
Proof.
  intros Hdec. unfold calls, run, get_search_console_data.
  rewrite bind_lift.
  destruct (Py.get arguments "query" PNone) as [query|e] eqn:Hget; [|constructor].
  destruct (Py.truthy query) eqn:Htrue; cbn [negb]; [|constructor].
  assert (Hq : query_of arguments = Some query).
  { destruct arguments as [| | | | | |a]; try discriminate Hget.
    cbn in Hget. cbn. destruct (Py.lookup a "query") as [q|].
    - congruence.
    - injection Hget as <-. discriminate Htrue. }
  unfold os_getenv. rewrite bind_assoc, bind_emit. cbv beta. rewrite bind_ret.
  cbn [app].
  destruct (getenv w "GEMINI_API_KEY") as [key|] eqn:Hkey;
    [|repeat constructor].
  destruct (Py.truthy (PStr key)); cbn [negb]; [|repeat constructor].
  rewrite (bind_result _ (gsc_system_prompt_run w [Getenv "GEMINI_API_KEY"])).
  cbn [app reads filter is_now List.length Py.str].
  apply hoare_try with (Q := fun _ : pyval => True).
  - apply hoare_after_request. exists arguments, query, key. auto.
  - intros e. apply hoare_if; apply hoare_raise.
  - repeat constructor.
Qed.

Lemma handle_tool_call_request :
  Forall sent_request (calls (handle_tool_call w (PDict d))).
Proof.
  unfold calls, run. rewrite handle_tool_call_cases.
  destruct (decoded_arguments d) as [arguments|] eqn:Hdec; [|constructor].
  destruct (Py.ne_str (tool_name_of d) "search_console_query"); [constructor|].
  pose proof (get_search_console_data_request Hdec) as Hreq.
  unfold calls, run in Hreq.
  destruct (get_search_console_data w arguments []) as [o t'] eqn:Hrun.
  rewrite (call_tool_result Hrun).
  destruct o as [r|e]; [|exact Hreq].
  destruct (Py.get r "api_response" (PStr "")); exact Hreq.
Qed.

(** The instructions open with the assistant's role and the first reading
    of the clock, and close with the second reading. *)
Lemma first_prompt_text :
  exists rules,
    first_prompt w
    = "You are an expert AI assistant specializing in the Google Search Console API. Your sole function is to act as a precise natural language-to-API translator. You receive user prompts in plain English and your only output is a perfectly structured, valid JSON payload for the searchanalytics.query endpoint."
      ++ Text.nl ++ Text.nl
      ++ "The current time for this request is: " ++ strftime (clock w 0) ++ Text.nl
      ++ "The current property being analyzed is: https://www.yourdomain.ai" ++ Text.nl
      ++ rules
      ++ "Final note:" ++ Text.nl
      ++ "The current time for this request is: " ++ strftime (clock w 1) ++ Text.nl
      ++ "The current property being analyzed is: https://www.yourdomain.ai" ++ Text.nl.
Proof.
  exists (Text.cat (firstn 920 (skipn 9 (system_prompt_items "" "www.yourdomain.ai" "")))).
  unfold first_prompt, system_prompt_text.
  change (system_prompt_items (strftime (clock w 0)) "www.yourdomain.ai"
                              (strftime (clock w 1)))
    with (firstn 9 (system_prompt_items (strftime (clock w 0)) "www.yourdomain.ai" "")
          ++ firstn 920 (skipn 9 (system_prompt_items "" "www.yourdomain.ai" ""))
          ++ skipn 929 (system_prompt_items "" "www.yourdomain.ai"
                                            (strftime (clock w 1))))%list.
  rewrite !cat_app.
  set (rules := Text.cat (firstn 920 (skipn 9 (system_prompt_items "" "www.yourdomain.ai" "")))).
  unfold system_prompt_items. cbn [firstn skipn].
  rewrite !cat_cons. change (Text.cat []) with "".
  rewrite !string_app_assoc, !string_app_nil. reflexivity.
Qed.

End ModelRequest.

(** X19: every HTTP request a tool call sends goes to the [generateContent]
    address of [gemini-2.5-flash] with the [GEMINI_API_KEY] of the environment
    as its [key] parameter, has a timeout of 30, and has the body the source
    writes: the instructions, which open with the assistant's role, the first
    reading of the clock and the property [https://www.yourdomain.ai] and
    close with the second reading of the clock and the property again; one
    [user] message whose text is [str(query)], the query of the decoded
    arguments itself when it is a string; and the generation settings
    (temperature 0.1, topK 40, topP 0.95, at most 2048 output tokens). *)
Theorem model_request_carries_key_and_query
        (w : World) (d : list (string * pyval)) (url : string) (body : pyval) (timeout : Z) :
  In (HttpPost url body timeout) (calls (handle_tool_call w (PDict d))) ->
  exists (arguments query : pyval) (key rules : string),
    decoded_arguments d = Some arguments
    /\ query_of arguments = Some query
    /\ getenv w "GEMINI_API_KEY" = Some key
    /\ url = "https://generativelanguage.googleapis.com/v1beta/models/gemini-2.5-flash:generateContent?key="
             ++ key
    /\ timeout = 30
    /\ body
       = PDict [
           ("system_instruction", PDict [
              ("parts", PList [
                 PDict [("text", PStr (
                   "You are an expert AI assistant specializing in the Google Search Console API. Your sole function is to act as a precise natural language-to-API translator. You receive user prompts in plain English and your only output is a perfectly structured, valid JSON payload for the searchanalytics.query endpoint."
                   ++ Text.nl ++ Text.nl
                   ++ "The current time for this request is: "
                   ++ strftime (clock w 0) ++ Text.nl
                   ++ "The current property being analyzed is: https://www.yourdomain.ai"
                   ++ Text.nl
                   ++ rules
                   ++ "Final note:" ++ Text.nl
                   ++ "The current time for this request is: "
                   ++ strftime (clock w 1) ++ Text.nl
                   ++ "The current property being analyzed is: https://www.yourdomain.ai"
                   ++ Text.nl))]
              ])
           ]);
           ("contents", PList [
              PDict [
                ("role", PStr "user");
                ("parts", PList [PDict [("text", PStr (Py.str query))]])
              ]
           ]);
           ("generationConfig", PDict [
              ("temperature", PFloat 0x1.999999999999ap-4);
              ("topK", PInt 40);
              ("topP", PFloat 0x1.e666666666666p-1);
              ("maxOutputTokens", PInt 2048)
           ])
         ]
    /\ (forall s, query = PStr s -> Py.str query = s).
Proof.
  intros Hin.
  pose proof (handle_tool_call_request w d) as Hall.
  rewrite Forall_forall in Hall.
  destruct (Hall _ Hin) as (arguments & query & key & Hdec & Hq & Hkey & Heq).
  injection Heq as -> -> ->.
  destruct (first_prompt_text w) as [rules Hrules].
  exists arguments, query, key, rules.
  split; [exact Hdec|]. split; [exact Hq|]. split; [exact Hkey|].
  split; [reflexivity|]. split; [reflexivity|]. split.
  - unfold first_payload, gemini_payload. rewrite Hrules. reflexivity.
  - intros s ->. reflexivity.
Qed.

(** X20: every query a tool call makes to the reporting API is for the
    configured property and goes through the [webmasters] [v3] service whose
    credentials have the read-only scope and no other. *)
Theorem reporting_api_is_used_read_only
        (w : World) (d : list (string * pyval)) (svc : service) (site : string) (q : pyval) :
  In (Execute svc site q) (calls (handle_tool_call w (PDict d))) ->
  site = "sc-domain:www.yourdomain.ai"
  /\ exists info,
       svc = Service "webmasters" "v3"
                     (Credentials info
                        ["https://www.googleapis.com/auth/webmasters.readonly"]).
Proof.
  intros Hin.
  destruct (tool_call_event Hin) as (_ & _ & _ & _ & _ & Hsite & info & Hsvc).
  split; [exact Hsite|]. exists info. exact Hsvc.
Qed.

(** *** The order of the calls *)

(** The calls of a complete tool call, by kind. *)
Definition pipeline_order : list string :=
  ["getenv"; "now"; "now"; "post"; "build"; "execute"; "now"].

(** The trace holds the first [n] calls of the pipeline. *)
Definition at_stage (n : nat) (t : trace) : Prop :=
  map Examples.kind t = firstn n pipeline_order /\ (n <= 7)%nat.

(** [staged n m post]: from stage [n], the computation [m] ends at a stage
    [n'] with an outcome that satisfies [post]. *)
Definition staged {A} (n : nat) (m : M A) (post : outcome A -> nat -> Prop) : Prop :=
  forall t, at_stage n t ->
    exists n', at_stage n' (snd (m t)) /\ post (fst (m t)) n'.

Section Stages.

Lemma firstn_snoc {A} (l : list A) (n : nat) (x : A) :
  nth_error l n = Some x -> firstn (S n) l = (firstn n l ++ [x])%list.
Proof.
  revert n. induction l as [|a l IH]; intros [|n] H; try discriminate.
  - injection H as ->. reflexivity.
  - cbn [firstn app]. f_equal. apply IH. exact H.
Qed.

Lemma stage_step (n : nat) (t : trace) (ev : event) :
  at_stage n t ->
  nth_error pipeline_order n = Some (Examples.kind ev) ->
  at_stage (S n) (t ++ [ev])%list.
Proof.
  intros [Hk _] Hnth. split.
  - rewrite map_app, Hk, (firstn_snoc Hnth). reflexivity.
  - assert (n < List.length pipeline_order)%nat
      by (apply nth_error_Some; congruence).
    cbn in H. lia.
Qed.

Lemma staged_ret {A} (n : nat) (a : A) (post : outcome A -> nat -> Prop) :
  post (Return a) n -> staged n (ret a) post.
Proof. intros H t Ht. exists n. split; assumption. Qed.

Lemma staged_raise {A} (n : nat) (e : exn) (post : outcome A -> nat -> Prop) :
  post (Raise e) n -> staged n (raise e) post.
Proof. intros H t Ht. exists n. split; assumption. Qed.

Lemma staged_lift {A} (n : nat) (o : outcome A) (post : outcome A -> nat -> Prop) :
  post o n -> staged n (lift o) post.
Proof. intros H t Ht. exists n. split; assumption. Qed.

Lemma staged_emit (n : nat) (ev : event) (post : outcome unit -> nat -> Prop) :
  nth_error pipeline_order n = Some (Examples.kind ev) ->
  post (Return tt) (S n) ->
  staged n (emit ev) post.
Proof.
  intros Hnth H t Ht. exists (S n). split; [|exact H].
  apply stage_step; assumption.
Qed.

Lemma staged_bind {A B} (n : nat) (m : M A) (k : A -> M B)
      (mid : outcome A -> nat -> Prop) (post : outcome B -> nat -> Prop) :
  staged n m mid ->
  (forall a n', mid (Return a) n' -> staged n' (k a) post) ->
  (forall e n', mid (Raise e) n' -> post (Raise e) n') ->
  staged n (bind m k) post.
Proof.
  intros Hm Hk He t Ht. destruct (Hm t Ht) as (n' & Hst & Hmid).
  unfold bind. destruct (m t) as [[a|e] t']; cbn [fst snd] in *.
  - exact (Hk a n' Hmid t' Hst).
  - exists n'. split; [exact Hst|]. exact (He e n' Hmid).
Qed.

Lemma staged_bind_lift {A B} (n : nat) (o : outcome A) (k : A -> M B)
      (post : outcome B -> nat -> Prop) :
  (forall a, o = Return a -> staged n (k a) post) ->
  (forall e, o = Raise e -> post (Raise e) n) ->
  staged n (bind (lift o) k) post.
Proof.
  intros Hk He t Ht. rewrite bind_lift. destruct o as [a|e].
  - exact (Hk a eq_refl t Ht).
  - exists n. split; [exact Ht|]. exact (He e eq_refl).
Qed.

Lemma staged_try {A} (n : nat) (m : M A) (h : exn -> M A)
      (mid post : outcome A -> nat -> Prop) :
  staged n m mid ->
  (forall a n', mid (Return a) n' -> post (Return a) n') ->
  (forall e n', mid (Raise e) n' -> staged n' (h e) post) ->
  staged n (try_except m h) post.
Proof.
  intros Hm Hr Hh t Ht. destruct (Hm t Ht) as (n' & Hst & Hmid).
  unfold try_except. destruct (m t) as [[a|e] t']; cbn [fst snd] in *.
  - exists n'. split; [exact Hst|]. exact (Hr a n' Hmid).
  - exact (Hh e n' Hmid t' Hst).
Qed.

Variable w : World.

(** The outcome is a value, reached at stage [n]. *)
Definition returns_at {A} (n : nat) (o : outcome A) (n' : nat) : Prop :=
  n' = n /\ exists a, o = Return a.

Definition ends_at {A} (n : nat) (o : outcome A) (n' : nat) : Prop := n' = n.

Lemma staged_now (n : nat) :
  nth_error pipeline_order n = Some "now" ->
  staged n (datetime_now w) (returns_at (S n)).
Proof.
  intros Hnth t Ht. exists (S n). split.
  - apply (stage_step (ev := Now) Ht Hnth).
  - split; [reflexivity|]. eexists. reflexivity.
Qed.

Lemma staged_getenv (name : string) : staged 0 (os_getenv w name) (returns_at 1).
Proof.
  unfold os_getenv. eapply staged_bind with (mid := returns_at 1).
  - apply staged_emit; [reflexivity|]. split; [reflexivity|]. eexists. reflexivity.
  - intros _ n' [-> _]. apply staged_ret. split; [reflexivity|]. eexists. reflexivity.
  - intros e n' [_ [a H]]. discriminate H.
Qed.

Lemma staged_prompt : staged 1 (gsc_system_prompt w) (returns_at 3).
Proof.
  unfold gsc_system_prompt. eapply staged_bind with (mid := returns_at 2).
  - apply staged_now. reflexivity.
  - intros now1 n' [-> _]. rewrite site_domain_value.
    apply staged_bind_lift; [|discriminate]. intros domain _.
    eapply staged_bind with (mid := returns_at 3).
    + apply staged_now. reflexivity.
    + intros now2 n' [-> _]. apply staged_ret. split; [reflexivity|]. eexists. reflexivity.
    + intros e n' [_ [a H]]. discriminate H.
  - intros e n' [_ [a H]]. discriminate H.
Qed.

Lemma staged_post (url : string) (body : pyval) (timeout : Z) :
  staged 3 (requests_post_json w url body timeout) (ends_at 4).
Proof.
  unfold requests_post_json. eapply staged_bind with (mid := returns_at 4).
  - apply staged_emit; [reflexivity|]. split; [reflexivity|]. eexists. reflexivity.
  - intros _ n' [-> _]. destruct (http_post_json w url body timeout).
    + apply staged_raise. reflexivity.
    + apply staged_ret. reflexivity.
  - intros e n' [_ [a H]]. discriminate H.
Qed.

(** A service object is returned at stage 5 only; a failure leaves the
    trace at stage 4 or 5. *)
Definition service_post (o : outcome service) (n' : nat) : Prop :=
  match o with
  | Return _ => n' = 5%nat
  | Raise _ => n' = 4%nat \/ n' = 5%nat
  end.

Lemma staged_service (key : pyval) :
  staged 4 (create_gsc_service_obj w key) service_post.
Proof.
  intros t Ht.
  destruct (create_gsc_service_obj w key t) as [[svc|e] t'] eqn:Hrun; cbn [fst snd].
  - destruct (create_service_run Hrun) as (_ & _ & _ & info & _ & _ & _ & _ & _ & ->).
    exists 5%nat. split; [|reflexivity].
    apply (stage_step Ht). reflexivity.
  - destruct (create_service_calls w key t) as [H | (info & H)];
      rewrite Hrun in H; cbn in H; subst t'.
    + exists 4%nat. split; [exact Ht|left; reflexivity].
    + exists 5%nat. split; [|right; reflexivity].
      apply (stage_step Ht). reflexivity.
Qed.

Lemma staged_api_request (svc : service) (site : string) (payload : pyval) :
  staged 5 (make_gsc_api_request w svc site payload) (ends_at 6).
Proof.
  intros t Ht. exists 6%nat. split; [|reflexivity].
  destruct (api_response_is_returned_as_is_aux w svc site payload t) as [-> _].
  apply (stage_step Ht). reflexivity.
Qed.

Lemma staged_format (data query start_date end_date api_query_obj : pyval) :
  staged 6 (format_search_console_data w data query start_date end_date api_query_obj)
         (ends_at 7).
Proof.
  intros t Ht. exists 7%nat. split; [|reflexivity].
  unfold format_search_console_data, bind, datetime_now, lift. cbn [snd].
  apply (stage_step (ev := Now) Ht). reflexivity.
Qed.

End Stages.

Section PipelineStages.

Variable w : World.

(** The report comes with all seven calls made, the [no_results] dict
    with the first four. *)
Definition data_post (o : outcome pyval) (n' : nat) : Prop :=
  match o with
  | Return r =>
      ((exists report generated query,
           r = PDict [("api_response", PStr report); ("api_query", generated);
                      ("user_query", query); ("status", PStr "success")])
       /\ n' = 7%nat)
      \/ ((exists query, r = no_results query) /\ n' = 4%nat)
  | Raise _ => True
  end.

Lemma staged_query_search_console (query : pyval) (url : string) (payload : pyval) :
  staged 3 (query_search_console w query url payload) data_post.
Proof.
  unfold query_search_console.
  eapply staged_bind with (mid := ends_at 4);
    [apply staged_post| |intros; exact I].
  intros response n' ->.
  apply staged_bind_lift; [|intros; exact I]. intros found _.
  destruct found.
  - apply staged_bind_lift; [|intros; exact I]. intros generated _.
    apply staged_bind_lift; [|intros; exact I]. intros cleaned _.
    apply staged_bind_lift; [|intros; exact I]. intros q _.
    apply staged_bind_lift; [|intros; exact I]. intros start_date _.
    apply staged_bind_lift; [|intros; exact I]. intros end_date _.
    eapply staged_bind with (mid := service_post);
      [apply staged_service| |intros; exact I].
    intros svc n' Hn. cbn in Hn. subst n'.
    eapply staged_bind with (mid := ends_at 6);
      [apply staged_api_request| |intros; exact I].
    intros api_response n' ->.
    eapply staged_bind with (mid := ends_at 7);
      [apply staged_format| |intros; exact I].
    intros report n' ->.
    apply staged_ret. left. split; [|reflexivity].
    eexists. eexists. eexists. reflexivity.
  - apply staged_ret. right. split; [eexists; reflexivity|reflexivity].
Qed.

Lemma staged_get_search_console_data (arguments : pyval) :
  staged 0 (get_search_console_data w arguments) data_post.
Proof.
  unfold get_search_console_data.
  apply staged_bind_lift; [|intros; exact I]. intros query _.
  destruct (negb (Py.truthy query)); [apply staged_raise; exact I|].
  eapply staged_bind with (mid := returns_at 1);
    [apply staged_getenv| |intros; exact I].
  intros key n' [-> _].
  destruct (negb (Py.truthy key)); [apply staged_raise; exact I|].
  eapply staged_bind with (mid := returns_at 3);
    [apply staged_prompt| |intros; exact I].
  intros prompt n' [-> _].
  eapply staged_try with (mid := data_post).
  - apply staged_query_search_console.
  - intros a n' H. exact H.
  - intros e n' _. destruct (Py.is_request_exception e); apply staged_raise; exact I.
Qed.

(** An error result can come from any stage; an empty success from stage 4;
    a report from stage 7; an exception only before anything is called. *)
Definition call_post (o : outcome pyval) (n' : nat) : Prop :=
  match o with
  | Return v =>
      (exists text, v = tool_error text)
      \/ (v = tool_success "" /\ n' = 4%nat)
      \/ (exists report, v = tool_success report /\ n' = 7%nat)
  | Raise _ => n' = 0%nat
  end.

Definition attempt_post (o : outcome (pyval + pyval)) (n' : nat) : Prop :=
  match o with
  | Return (inl v) => exists text, v = tool_error text
  | Return (inr r) => data_post (Return r) n'
  | Raise _ => False
  end.

Lemma staged_call_tool (arguments : pyval) :
  staged 0 (call_tool w arguments) call_post.
Proof.
  unfold call_tool. eapply staged_bind with (mid := attempt_post).
  - eapply staged_try
      with (mid := fun o n' => match o with
                               | Return (inr r) => data_post (Return r) n'
                               | Return (inl _) => False
                               | Raise _ => True
                               end).
    + eapply staged_bind with (mid := data_post);
        [apply staged_get_search_console_data| |intros; exact I].
      intros r n' H. apply staged_ret. exact H.
    + intros [v|r] n' H; [contradiction|exact H].
    + intros e n' _. apply staged_ret. eexists. reflexivity.
  - intros [v|r] n' H.
    + apply staged_ret. left. exact H.
    + destruct H as [[(report & generated & query & ->) ->] | [(query & ->) ->]].
      * apply staged_bind_lift; [|discriminate]. intros text_value [= <-].
        apply staged_ret. right. right. exists report. split; reflexivity.
      * apply staged_bind_lift; [|discriminate]. intros text_value [= <-].
        apply staged_ret. right. left. split; reflexivity.
  - intros e n' H. contradiction.
Qed.

Lemma staged_handle_tool_call (params : pyval) :
  staged 0 (handle_tool_call w params) call_post.
Proof.
  unfold handle_tool_call.
  apply staged_bind_lift; [|reflexivity]. intros tool_name _.
  apply staged_bind_lift; [|reflexivity]. intros arguments0 _.
  assert (Hdispatch : forall arguments,
    staged 0 (if Py.ne_str tool_name "search_console_query"
              then ret (tool_error ("Tool not found: " ++ Py.str tool_name))
              else call_tool w arguments) call_post).
  { intros arguments. destruct (Py.ne_str tool_name "search_console_query").
    - apply staged_ret. left. eexists. reflexivity.
    - apply staged_call_tool. }
  destruct arguments0; try apply Hdispatch.
  destruct (Json.loads s); [apply Hdispatch|].
  apply staged_ret. left. eexists. reflexivity.
Qed.

Lemma stage_zero : at_stage 0 [].
Proof. split; [reflexivity|lia]. Qed.

End PipelineStages.

(** X21: the calls of a tool call are always a beginning of the same
    sequence: the environment, the clock twice, the request to the model, the
    build of the service, the query to the reporting API, the clock.  So there
    is at most one request to the model and one query to the API, and the API
    is never queried before the model has answered. *)
Theorem calls_follow_the_pipeline (w : World) (params : pyval) :
  exists n,
    (n <= 7)%nat
    /\ map Examples.kind (calls (handle_tool_call w params)) = firstn n pipeline_order.
Proof.
  destruct (@staged_handle_tool_call w params [] stage_zero) as (n & [Hk Hn] & _).
  exists n. split; [exact Hn|exact Hk].
Qed.

(** X22: a success result with a text that is not empty is only returned
    after the whole pipeline has run: all seven calls were made. *)
Theorem report_needs_the_whole_pipeline (w : World) (params : pyval) (text : string) :
  result (handle_tool_call w params) = Return (tool_success text) ->
  text <> "" ->
  map Examples.kind (calls (handle_tool_call w params)) = pipeline_order.
Proof.
  intros Hres Htext.
  destruct (@staged_handle_tool_call w params [] stage_zero) as (n & [Hk _] & Hpost).
  unfold result, run in Hres. rewrite Hres in Hpost. cbn [call_post] in Hpost.
  destruct Hpost as [(t' & H) | [[H _] | (report & _ & ->)]].
  - discriminate H.
  - injection H as H. contradiction.
  - exact Hk.
Qed.

Lemma report_needs_the_whole_pipeline_witness :
  map Examples.kind
      (calls (handle_tool_call
                (Examples.world (Examples.gemini_response Examples.trend_answer)
                                Examples.three_rows)
                (Examples.tool_call "daily clicks")))
  = pipeline_order.
Proof.
  apply (@report_needs_the_whole_pipeline
           (Examples.world (Examples.gemini_response Examples.trend_answer)
                           Examples.three_rows)
           (Examples.tool_call "daily clicks")
           (report_text "2025-11-03 09:05:02" (PStr "daily clicks")
              (PStr "2025-10-01") (PStr "2025-10-10") Examples.trend_query
              (Text.cat ["Summary of metrics across selected period:"; Text.nl;
                         "  - Total Impressions: 540"; Text.nl;
                         "  - Total Clicks: 29"; Text.nl;
                         "  - Average CTR: 5.67%"; Text.nl;
                         "  - Average Rank: 4.07"; Text.nl])
              (Text.cat ["2025-10-01 | 10 | 200 | 5.0% | 3.0"; Text.nl;
                         "2025-10-02 | 12 | 240 | 5.0% | 5.0"; Text.nl;
                         "2025-10-03 | 7 | 100 | 7.0% | 4.2"]))).
  - vm_compute. reflexivity.
  - vm_compute. discriminate.
Defined.

Lemma model_request_carries_key_and_query_witness :
  exists (arguments query : pyval) (key rules : string),
    decoded_arguments [("name", PStr "search_console_query");
                          ("arguments", PDict [("query", PStr "top pages")])] = Some arguments
    /\ query_of arguments = Some query
    /\ getenv (Cases.world_with Cases.both_keys (inl "timeout") (Return PNone)) "GEMINI_API_KEY" = Some key
    /\ gemini_url "test-key" = "https://generativelanguage.googleapis.com/v1beta/models/gemini-2.5-flash:generateContent?key="
             ++ key
    /\ 30 = 30
    /\ first_payload (Cases.world_with Cases.both_keys (inl "timeout") (Return PNone))
                    (PStr "top pages")
       = PDict [
           ("system_instruction", PDict [
              ("parts", PList [
                 PDict [("text", PStr (
                   "You are an expert AI assistant specializing in the Google Search Console API. Your sole function is to act as a precise natural language-to-API translator. You receive user prompts in plain English and your only output is a perfectly structured, valid JSON payload for the searchanalytics.query endpoint."
                   ++ Text.nl ++ Text.nl
                   ++ "The current time for this request is: "
                   ++ strftime (clock (Cases.world_with Cases.both_keys (inl "timeout") (Return PNone)) 0) ++ Text.nl
                   ++ "The current property being analyzed is: https://www.yourdomain.ai"
                   ++ Text.nl
                   ++ rules
                   ++ "Final note:" ++ Text.nl
                   ++ "The current time for this request is: "
                   ++ strftime (clock (Cases.world_with Cases.both_keys (inl "timeout") (Return PNone)) 1) ++ Text.nl
                   ++ "The current property being analyzed is: https://www.yourdomain.ai"
                   ++ Text.nl))]
              ])
           ]);
           ("contents", PList [
              PDict [
                ("role", PStr "user");
                ("parts", PList [PDict [("text", PStr (Py.str query))]])
              ]
           ]);
           ("generationConfig", PDict [
              ("temperature", PFloat 0x1.999999999999ap-4);
              ("topK", PInt 40);
              ("topP", PFloat 0x1.e666666666666p-1);
              ("maxOutputTokens", PInt 2048)
           ])
         ]
    /\ (forall s, query = PStr s -> Py.str query = s).
Proof.
  apply (@model_request_carries_key_and_query
           (Cases.world_with Cases.both_keys (inl "timeout") (Return PNone))
           [("name", PStr "search_console_query");
            ("arguments", PDict [("query", PStr "top pages")])]
           (gemini_url "test-key")
           (first_payload (Cases.world_with Cases.both_keys (inl "timeout") (Return PNone))
                          (PStr "top pages"))
           30).
  vm_compute. do 3 right. left. reflexivity.
Defined.

Lemma reporting_api_is_used_read_only_witness :
  site_url = "sc-domain:www.yourdomain.ai"
  /\ exists info,
       Examples.readonly_service
       = Service "webmasters" "v3"
                 (Credentials info
                    ["https://www.googleapis.com/auth/webmasters.readonly"]).
Proof.
  apply (@reporting_api_is_used_read_only
           (Examples.world (Examples.gemini_response Examples.trend_answer)
                           Examples.three_rows)
           [("name", PStr "search_console_query");
            ("arguments", PDict [("query", PStr "daily clicks")])]
           Examples.readonly_service site_url Examples.trend_query).
  vm_compute. do 5 right. left. reflexivity.
Defined.
